(** * Echoes of the Horizon: the Ancient Bharat game server

    A shallow embedding of the session layer of the game server
    ([ancient_bharat_server.py], [integrated_ancient_bharat_server.py],
    [ancient_bharat_config.py]) and of the model cache of
    [ai_3d_model_agent.py], with the properties of the written
    specification stated and proved over it.

    Python objects are modelled as follows.
    - JSON-derived values are the inductive [pyval]; numbers are [pynum]:
      a rational for every int and every finite float (comparisons of
      Python numbers are exact), plus the three non-finite floats that
      [json.loads] accepts.
    - A [dict] is an insertion-ordered association list with unique keys
      ([pydict]); iteration follows the list.
    - A coroutine is a state transformer over the server object that may
      raise ([M]); the event loop is not modelled, every coroutine runs to
      completion before the next one starts. *)

From Stdlib Require Import ZArith QArith Qminmax Lqa Lia.
From Stdlib Require Import Bool List String Ascii Permutation Sorted.
Import ListNotations.

Local Open Scope string_scope.
Local Open Scope list_scope.
Local Open Scope Z_scope.

(* ================================================================= *)
(** ** Python values *)

Module Py.

(** Numbers as [json.loads] produces them. *)
Inductive pynum : Type :=
| Fin (q : Q)
| PosInf
| NegInf
| NaN.

(** JSON-derived Python values. *)
#[warnings="-register-all"] Inductive pyval : Type :=
| VNone
| VBool (b : bool)
| VNum (n : pynum)
| VStr (s : string)
| VList (l : list pyval)
| VDict (d : list (string * pyval)).

Definition VInt (n : Z) : pyval := VNum (Fin (inject_Z n)).

(** Exceptions that the modelled code can raise. *)
Inductive exn : Type :=
| AttributeError (cls attr : string)
| KeyError (key : string)
| TypeError (what : string)
| ValueError (what : string)
| JSONDecodeError
| WebSocketDisconnect
| ConnectionClosed
| FileNotFoundError (path : string)
| OSError (path : string).

Inductive result (A : Type) : Type :=
| Ok (a : A)
| Raise (e : exn).
Arguments Ok {A} a.
Arguments Raise {A} e.

(** *** Comparisons *)

Definition Qlt_bool (p q : Q) : bool := negb (Qle_bool q p).

(** [a < b] on floats and ints; every comparison with NaN is False. *)
Definition num_lt (a b : pynum) : bool :=
  match a, b with
  | NaN, _ | _, NaN => false
  | Fin p, Fin q => Qlt_bool p q
  | NegInf, NegInf => false
  | NegInf, _ => true
  | _, NegInf => false
  | PosInf, _ => false
  | Fin _, PosInf => true
  end.

Definition num_le (a b : pynum) : bool :=
  match a, b with
  | NaN, _ | _, NaN => false
  | Fin p, Fin q => Qle_bool p q
  | NegInf, _ => true
  | _, NegInf => false
  | _, PosInf => true
  | PosInf, Fin _ => false
  end.

(** The numeric reading of a value in an ordering comparison: [bool] is
    a subclass of [int]; every other non-number makes [<] raise. *)
Definition as_number (v : pyval) : option pynum :=
  match v with
  | VNum n => Some n
  | VBool true => Some (Fin 1)
  | VBool false => Some (Fin 0)
  | _ => None
  end.

Definition unorderable : exn :=
  TypeError "'<' not supported between instances".

Definition py_lt (a b : pyval) : result bool :=
  match as_number a, as_number b with
  | Some m, Some n => Ok (num_lt m n)
  | _, _ => Raise unorderable
  end.

Definition py_gt (a b : pyval) : result bool := py_lt b a.

Definition py_le (a b : pyval) : result bool :=
  match as_number a, as_number b with
  | Some m, Some n => Ok (num_le m n)
  | _, _ => Raise unorderable
  end.

(** [v == s] for a string literal [s]. *)
Definition py_eq_str (v : pyval) (s : string) : bool :=
  match v with
  | VStr t => String.eqb t s
  | _ => false
  end.

(** Truth value of an object, as [if not v] tests it. *)
Definition truthy (v : pyval) : bool :=
  match v with
  | VNone => false
  | VBool b => b
  | VNum (Fin q) => negb (Qeq_bool q 0)
  | VNum _ => true
  | VStr s => negb (String.eqb s "")
  | VList l => match l with [] => false | _ => true end
  | VDict d => match d with [] => false | _ => true end
  end.

(** *** Dictionaries *)

Definition pydict (V : Type) : Type := list (string * V).

Fixpoint dict_get {V} (k : string) (d : pydict V) : option V :=
  match d with
  | [] => None
  | (k', v) :: rest => if String.eqb k k' then Some v else dict_get k rest
  end.

(** [d.get(k, default)] *)
Definition dict_get_or {V} (k : string) (default : V) (d : pydict V) : V :=
  match dict_get k d with
  | Some v => v
  | None => default
  end.

(** [k in d] *)
Definition dict_mem {V} (k : string) (d : pydict V) : bool :=
  match dict_get k d with
  | Some _ => true
  | None => false
  end.

(** [d[k] = v]: an existing key keeps its place, a new key goes last. *)
Fixpoint dict_set {V} (k : string) (v : V) (d : pydict V) : pydict V :=
  match d with
  | [] => [(k, v)]
  | (k', v') :: rest =>
      if String.eqb k k' then (k, v) :: rest
      else (k', v') :: dict_set k v rest
  end.

(** [del d[k]] (the callers test [k in d] first). *)
Fixpoint dict_del {V} (k : string) (d : pydict V) : pydict V :=
  match d with
  | [] => []
  | (k', v') :: rest =>
      if String.eqb k k' then rest else (k', v') :: dict_del k rest
  end.

Definition dict_keys {V} (d : pydict V) : list string := map fst d.

(** Keys of a dictionary are pairwise distinct. *)
Definition dict_wf {V} (d : pydict V) : Prop := NoDup (dict_keys d).

(** *** Strings *)

(** [str.isspace] on the code points below 256. *)
Definition isspace (c : ascii) : bool :=
  let n := nat_of_ascii c in
  ((9 <=? n) && (n <=? 13) || (28 <=? n) && (n <=? 32)
   || (n =? 133) || (n =? 160))%nat.

Fixpoint lstrip (s : string) : string :=
  match s with
  | EmptyString => EmptyString
  | String c rest => if isspace c then lstrip rest else s
  end.

Fixpoint string_rev_onto (s acc : string) : string :=
  match s with
  | EmptyString => acc
  | String c rest => string_rev_onto rest (String c acc)
  end.

Definition string_rev (s : string) : string := string_rev_onto s EmptyString.

(** [s.strip()] *)
Definition strip (s : string) : string :=
  string_rev (lstrip (string_rev (lstrip s))).

(** [s[:n]] *)
Definition str_prefix (n : nat) (s : string) : string := substring 0 n s.

(** *** Coroutines

    A coroutine over an object of type [S] maps the object to an outcome
    (a value returned or an exception raised) and the object it leaves;
    [None] only when a recursion budget is used up (the theorems show it
    never is). *)
Definition Co (S A : Type) : Type := S -> option (result A * S).

Definition ret {S A} (a : A) : Co S A := fun s => Some (Ok a, s).

Definition raise {S A} (e : exn) : Co S A := fun s => Some (Raise e, s).

Definition bind {S A B} (m : Co S A) (k : A -> Co S B) : Co S B :=
  fun s =>
    match m s with
    | None => None
    | Some (Ok a, s') => k a s'
    | Some (Raise e, s') => Some (Raise e, s')
    end.

Notation "x <- m ;; k" := (bind m (fun x => k))
  (at level 61, m at next level, right associativity).
Notation "m ;; k" := (bind m (fun _ => k))
  (at level 61, right associativity).

(** [try: body except: handler] (also [except Exception]). *)
Definition try_except {S A} (body : Co S A) (handler : exn -> Co S A)
  : Co S A :=
  fun s =>
    match body s with
    | Some (Raise e, s') => handler e s'
    | other => other
    end.

Definition lift {S A} (r : result A) : Co S A :=
  match r with
  | Ok a => ret a
  | Raise e => raise e
  end.

Definition modify {S} (f : S -> S) : Co S unit := fun s => Some (Ok tt, f s).

Fixpoint for_each {S A} (items : list A) (body : A -> Co S unit) : Co S unit :=
  match items with
  | [] => ret tt
  | a :: rest => body a ;; for_each rest body
  end.

(** *** Containers

    The operations of the object protocol that the data manager applies
    to documents loaded from JSON, at a string key. *)

(** [needle in text] on two strings. *)
Fixpoint is_substring (needle text : string) : bool :=
  String.prefix needle text
  || match text with
     | EmptyString => false
     | String _ rest => is_substring needle rest
     end.

(** [key in container] *)
Definition contains_str (key : string) (container : pyval) : result bool :=
  match container with
  | VList l => Ok (existsb (fun e => py_eq_str e key) l)
  | VDict d => Ok (dict_mem key d)
  | VStr text => Ok (is_substring key text)
  | _ => Raise (TypeError "argument is not iterable")
  end.

(** [container[key]] *)
Definition getitem (container : pyval) (key : string) : result pyval :=
  match container with
  | VDict d =>
      match dict_get key d with
      | Some v => Ok v
      | None => Raise (KeyError key)
      end
  | VList _ => Raise (TypeError "list indices must be integers or slices")
  | VStr _ => Raise (TypeError "string indices must be integers")
  | _ => Raise (TypeError "object is not subscriptable")
  end.

(** [container[key] = value]: the container after the assignment. *)
Definition setitem (container : pyval) (key : string) (value : pyval)
  : result pyval :=
  match container with
  | VDict d => Ok (VDict (dict_set key value d))
  | VList _ => Raise (TypeError "list indices must be integers or slices")
  | _ => Raise (TypeError "object does not support item assignment")
  end.

(** The items behind the bound method [container.append]: only a list
    has the method. *)
Definition append_method (container : pyval) : result (list pyval) :=
  match container with
  | VList items => Ok items
  | VNone => Raise (AttributeError "NoneType" "append")
  | VBool _ => Raise (AttributeError "bool" "append")
  | VNum _ => Raise (AttributeError "float" "append")
  | VStr _ => Raise (AttributeError "str" "append")
  | VDict _ => Raise (AttributeError "dict" "append")
  end.

(** [len(obj)] *)
Definition py_len (obj : pyval) : result Z :=
  match obj with
  | VList l => Ok (Z.of_nat (List.length l))
  | VDict d => Ok (Z.of_nat (List.length d))
  | VStr text => Ok (Z.of_nat (String.length text))
  | _ => Raise (TypeError "object has no len()")
  end.

(** [value + n] for an int [n], with [plus] the sum of two numbers as
    Python computes it (exact on ints, rounded on floats). *)
Definition py_add (plus : pynum -> pynum -> pynum) (value : pyval) (n : Z)
  : result pyval :=
  match as_number value with
  | Some m => Ok (VNum (plus m (Fin (inject_Z n))))
  | None => Raise (TypeError "unsupported operand type(s) for +")
  end.

(** [obj.get(key, default)]: only a dictionary has the method. *)
Definition py_get (obj : pyval) (key : string) (default : pyval)
  : result pyval :=
  match obj with
  | VDict d => Ok (dict_get_or key default d)
  | VNone => Raise (AttributeError "NoneType" "get")
  | VBool _ => Raise (AttributeError "bool" "get")
  | VNum _ => Raise (AttributeError "float" "get")
  | VStr _ => Raise (AttributeError "str" "get")
  | VList _ => Raise (AttributeError "list" "get")
  end.

(** [d.update(other)] *)
Definition dict_update {V} (d other : pydict V) : pydict V :=
  fold_left (fun acc entry => dict_set (fst entry) (snd entry) acc) other d.

End Py.
Import Py.

(* ================================================================= *)
(** ** [ancient_bharat_config.py] *)

Module ConfigManager.

Record ServerConfig : Type := {
  max_players : Z;
  auto_save_interval : Z;
  max_chat_history : Z
}.

Definition default_ServerConfig : ServerConfig :=
  {| max_players := 100; auto_save_interval := 300; max_chat_history := 100 |}.

(** Biome boundaries (in world coordinates). *)
Record WorldConfig : Type := {
  dust_plains_boundary : pynum;
  ocean_frontier_boundary : pynum;
  himalayan_peaks_boundary : pynum;
  narmada_forest_boundary : pynum
}.

Definition default_WorldConfig : WorldConfig :=
  {| dust_plains_boundary := Fin (-200);
     ocean_frontier_boundary := Fin 200;
     himalayan_peaks_boundary := Fin 200;
     narmada_forest_boundary := Fin (-100) |}.

Record t : Type := {
  server_config : ServerConfig;
  world_config : WorldConfig
}.

Definition default : t :=
  {| server_config := default_ServerConfig;
     world_config := default_WorldConfig |}.

(** [a and b] on two fallible tests, the second evaluated only when the
    first is true. *)
Definition and_then (a : result bool) (b : result bool) : result bool :=
  match a with
  | Ok true => b
  | other => other
  end.

(** [lo <= v <= hi] *)
Definition between (lo : pynum) (v : pyval) (hi : pynum) : result bool :=
  and_then (py_le (VNum lo) v) (py_le v (VNum hi)).

Definition is_in_region (self : t) (x z : pyval) (region : string)
  : result bool :=
  let w := world_config self in
  if String.eqb region "dust_plains" then
    py_lt x (VNum (dust_plains_boundary w))
  else if String.eqb region "ocean_frontier" then
    py_gt x (VNum (ocean_frontier_boundary w))
  else if String.eqb region "himalayan_peaks" then
    py_gt z (VNum (himalayan_peaks_boundary w))
  else if String.eqb region "narmada_forest" then
    py_lt z (VNum (narmada_forest_boundary w))
  else
    and_then
      (between (dust_plains_boundary w) x (ocean_frontier_boundary w))
      (between (narmada_forest_boundary w) z (himalayan_peaks_boundary w)).

End ConfigManager.

(* ================================================================= *)
(** ** Regions and positions (shared by both servers) *)

Inductive Region : Type :=
| DUST_PLAINS
| HIMALAYAN_PEAKS
| INDRAPURA_CITY
| NARMADA_FOREST
| OCEAN_FRONTIER.

(** [region.value] *)
Definition Region_value (r : Region) : string :=
  match r with
  | DUST_PLAINS => "dust_plains"
  | HIMALAYAN_PEAKS => "himalayan_peaks"
  | INDRAPURA_CITY => "indrapura_city"
  | NARMADA_FOREST => "narmada_forest"
  | OCEAN_FRONTIER => "ocean_frontier"
  end.

Definition Region_eqb (a b : Region) : bool :=
  String.eqb (Region_value a) (Region_value b).

Definition all_regions : list Region :=
  [DUST_PLAINS; HIMALAYAN_PEAKS; INDRAPURA_CITY; NARMADA_FOREST; OCEAN_FRONTIER].

(** The dataclass does not check its field types: a coordinate is whatever
    value was stored. *)
Record Position : Type := {
  pos_x : pyval;
  pos_y : pyval;
  pos_z : pyval
}.

(** [asdict(position)] *)
Definition Position_asdict (p : Position) : pyval :=
  VDict [("x", pos_x p); ("y", pos_y p); ("z", pos_z p)].

(* ================================================================= *)
(** ** [ancient_bharat_server.py]: region lookup *)

Module AncientBharatServer.

Definition get_region_from_position (pos : Position) : result Region :=
  let x := pos_x pos in
  let z := pos_z pos in
  match py_lt x (VInt (-200)) with
  | Raise e => Raise e
  | Ok true => Ok DUST_PLAINS
  | Ok false =>
    match py_gt x (VInt 200) with
    | Raise e => Raise e
    | Ok true => Ok OCEAN_FRONTIER
    | Ok false =>
      match py_gt z (VInt 200) with
      | Raise e => Raise e
      | Ok true => Ok HIMALAYAN_PEAKS
      | Ok false =>
        match py_lt z (VInt (-100)) with
        | Raise e => Raise e
        | Ok true => Ok NARMADA_FOREST
        | Ok false => Ok INDRAPURA_CITY
        end
      end
    end
  end.

(** A socket object, by identity. *)
Definition WebSocket : Type := nat.

Record Player : Type := {
  player_id : string;
  name : string;
  position : Position;
  current_region : Region;
  websocket : option WebSocket;
  last_active : Q
}.

Record Server : Type := {
  players : pydict Player;
  connections : list WebSocket;
  (** Outside the process: the text frames delivered so far. *)
  sent : list (WebSocket * pyval)
}.

Definition set_players (f : pydict Player -> pydict Player) (s : Server)
  : Server :=
  {| players := f (players s); connections := connections s; sent := sent s |}.

Definition set_connections (f : list WebSocket -> list WebSocket) (s : Server)
  : Server :=
  {| players := players s; connections := f (connections s); sent := sent s |}.

Definition set_sent (f : list (WebSocket * pyval) -> list (WebSocket * pyval))
  (s : Server) : Server :=
  {| players := players s; connections := connections s; sent := f (sent s) |}.

Record Env : Type := {
  time_time : Q;
  send_raises : WebSocket -> bool
}.

Definition M (A : Type) : Type := Co Server A.

(** The entries of [world_data] the messages quote. *)
Definition region_name (r : Region) : string :=
  match r with
  | DUST_PLAINS => "The Dust Plains"
  | HIMALAYAN_PEAKS => "Himalayan Peaks"
  | INDRAPURA_CITY => "Indrapura City"
  | NARMADA_FOREST => "Narmada Forest"
  | OCEAN_FRONTIER => "Ocean Frontier"
  end.

Definition region_description (r : Region) : string :=
  match r with
  | DUST_PLAINS => "Endless sands hide ancient secrets and forgotten ruins"
  | HIMALAYAN_PEAKS => "Sacred mountains where sages meditate in eternal snow"
  | INDRAPURA_CITY =>
      "Bustling metropolis where cultures meet and stories are born"
  | NARMADA_FOREST =>
      "Dense jungle where ancient wisdom sleeps among banyan trees"
  | OCEAN_FRONTIER => "Coastal haven where all great journeys begin"
  end.

Definition atmosphere_color (r : Region) : list Q :=
  match r with
  | DUST_PLAINS => [9 # 10; 7 # 10; 4 # 10]
  | HIMALAYAN_PEAKS => [8 # 10; 9 # 10; 1]
  | INDRAPURA_CITY => [1; 8 # 10; 5 # 10]
  | NARMADA_FOREST => [2 # 10; 7 # 10; 2 # 10]
  | OCEAN_FRONTIER => [4 # 10; 7 # 10; 1]
  end%Q.

Definition send_text (E : Env) (w : WebSocket) (data : pyval) : M unit :=
  if send_raises E w then raise ConnectionClosed
  else modify (set_sent (fun frames => frames ++ [(w, data)])).

(** [connections.remove(w)]: the first occurrence goes. *)
Fixpoint list_remove (w : WebSocket) (l : list WebSocket) : list WebSocket :=
  match l with
  | [] => []
  | w' :: rest => if Nat.eqb w w' then rest else w' :: list_remove w rest
  end.

Definition list_mem (w : WebSocket) (l : list WebSocket) : bool :=
  existsb (Nat.eqb w) l.

(** The first loop of [_broadcast_to_all]. *)
Fixpoint send_to_connections (E : Env) (message : pyval)
  (sockets : list WebSocket) : M (list WebSocket) :=
  match sockets with
  | [] => ret []
  | connection :: rest =>
      delivered <- try_except (send_text E connection message ;; ret true)
                     (fun _ => ret false) ;;
      failed_connections <- send_to_connections E message rest ;;
      ret (if delivered then failed_connections
           else connection :: failed_connections)
  end.

Definition _broadcast_to_all (E : Env) (message : pyval) : M unit :=
  fun s =>
    match connections s with
    | [] => ret tt s
    | _ =>
        (failed_connections <- send_to_connections E message (connections s) ;;
         for_each failed_connections
           (fun failed_conn =>
              fun s1 =>
                if list_mem failed_conn (connections s1)
                then modify (set_connections (list_remove failed_conn)) s1
                else ret tt s1)) s
    end.

Definition remove_player (E : Env) (pid : string) : M unit :=
  fun s =>
    match dict_get pid (players s) with
    | None => ret tt s
    | Some player =>
        ((match websocket player with
          | Some w =>
              fun s1 =>
                if list_mem w (connections s1)
                then modify (set_connections (list_remove w)) s1
                else ret tt s1
          | None => ret tt
          end) ;;
         modify (set_players (dict_del pid)) ;;
         _broadcast_to_all E
           (VDict [ ("type", VStr "player_left");
                    ("player_id", VStr pid);
                    ("message",
                     VStr (name player ++ " has left Ancient Bharat")%string) ])) s
    end.

Definition _send_to_player (E : Env) (pid : string) (message : pyval) : M unit :=
  fun s =>
    match dict_get pid (players s) with
    | None => ret tt s
    | Some player =>
        match websocket player with
        | None => ret tt s
        | Some w =>
            try_except (send_text E w message)
              (fun _ => remove_player E pid) s
        end
    end.

(** The first loop of [_broadcast_to_others]. *)
Fixpoint send_to_others (E : Env) (message : pyval) (exclude : string)
  (items : list (string * Player)) : M (list string) :=
  match items with
  | [] => ret []
  | (pid, player) :: rest =>
      match (if String.eqb pid exclude then None else websocket player) with
      | None => send_to_others E message exclude rest
      | Some w =>
          delivered <- try_except (send_text E w message ;; ret true)
                         (fun _ => ret false) ;;
          failed_players <- send_to_others E message exclude rest ;;
          ret (if delivered then failed_players else pid :: failed_players)
      end
  end.

Definition _broadcast_to_others (E : Env) (exclude_player_id : string)
  (message : pyval) : M unit :=
  fun s =>
    (failed_players <- send_to_others E message exclude_player_id (players s) ;;
     for_each failed_players (remove_player E)) s.

(** [pos_data[key]] on whatever the message holds under [position]. *)
Definition subscript (pos_data : pyval) (key : string) : result pyval :=
  match pos_data with
  | VDict fields =>
      match dict_get key fields with
      | Some v => Ok v
      | None => Raise (KeyError key)
      end
  | VList _ => Raise (TypeError "list indices must be integers or slices")
  | VStr _ => Raise (TypeError "string indices must be integers")
  | _ => Raise (TypeError "object is not subscriptable")
  end.

Definition with_position (E : Env) (new_position : Position) (player : Player)
  : Player :=
  {| player_id := player_id player; name := name player;
     position := new_position; current_region := current_region player;
     websocket := websocket player; last_active := time_time E |}.

Definition with_region (new_region : Region) (player : Player) : Player :=
  {| player_id := player_id player; name := name player;
     position := position player; current_region := new_region;
     websocket := websocket player; last_active := last_active player |}.

Definition handle_player_movement (E : Env) (pid : string)
  (movement_data : pydict pyval) : M unit :=
  fun s =>
    match dict_get pid (players s) with
    | None => ret tt s
    | Some player0 =>
      (player <-
         match dict_get "position" movement_data with
         | None => ret player0
         | Some pos_data =>
             x <- lift (subscript pos_data "x") ;;
             y <- lift (subscript pos_data "y") ;;
             z <- lift (subscript pos_data "z") ;;
             let new_position := {| pos_x := x; pos_y := y; pos_z := z |} in
             let player := with_position E new_position player0 in
             modify (set_players (dict_set pid player)) ;;
             new_region <- lift (get_region_from_position new_position) ;;
             if Region_eqb new_region (current_region player) then ret player
             else
               let old_region := current_region player in
               let player := with_region new_region player in
               modify (set_players (dict_set pid player)) ;;
               _send_to_player E pid
                 (VDict
                    [ ("type", VStr "region_changed");
                      ("old_region", VStr (region_name old_region));
                      ("new_region",
                       VDict
                         [ ("name", VStr (region_name new_region));
                           ("description",
                            VStr (region_description new_region));
                           ("color",
                            VList (map (fun c => VNum (Fin c))
                                     (atmosphere_color new_region))) ]);
                      ("message",
                       VStr ("You have entered " ++ region_name new_region
                             ++ ". " ++ region_description new_region)%string) ]) ;;
               ret player
         end ;;
       _broadcast_to_others E pid
         (VDict [ ("type", VStr "player_moved");
                  ("player_id", VStr pid);
                  ("position", Position_asdict (position player));
                  ("region", VStr (Region_value (current_region player))) ])) s
    end.






(** [handle_chat_message]; [message] is whatever the chat frame holds
    under [message]. *)
Definition handle_chat_message (E : Env) (pid : string) (message : pyval)
  : M unit :=
  fun s =>
    match dict_get pid (players s) with
    | None => ret tt s
    | Some player =>
        _broadcast_to_all E
          (VDict [ ("type", VStr "chat");
                   ("player_id", VStr pid);
                   ("player_name", VStr (name player));
                   ("message", message);
                   ("region", VStr (region_name (current_region player)));
                   ("timestamp", VNum (Fin (time_time E))) ]) s
    end.

End AncientBharatServer.

(* ================================================================= *)
(** ** [ancient_bharat_config.py]: persistent game data *)

Module GameDataManager.

(** The files under [data_dir]: file name to the JSON document last
    written there. *)
Definition Disk : Type := pydict pyval.

Record t : Type := {
  player_data : pydict pyval;
  world_state : pyval;
  quest_progress : pyval;
  npc_states : pyval
}.

Definition set_player_data (f : pydict pyval -> pydict pyval) (self : t) : t :=
  {| player_data := f (player_data self);
     world_state := world_state self;
     quest_progress := quest_progress self;
     npc_states := npc_states self |}.

(** [open(file_path, 'w')] followed by [json.dump]; [writable] tells
    which files the operating system lets the process write. *)
Definition _save_json_file (writable : string -> bool) (filename : string)
  (data : pyval) (disk : Disk) : result Disk :=
  if writable filename then Ok (dict_set filename data disk)
  else Raise (OSError filename).

(** The four writes sit in one [try]; the first failure skips the rest
    and is only printed. *)
Definition save_all_data (writable : string -> bool) (self : t) (disk : Disk)
  : Disk :=
  match _save_json_file writable "player_data.json"
          (VDict (player_data self)) disk with
  | Raise _ => disk
  | Ok d1 =>
    match _save_json_file writable "world_state.json" (world_state self) d1 with
    | Raise _ => d1
    | Ok d2 =>
      match _save_json_file writable "quest_progress.json"
              (quest_progress self) d2 with
      | Raise _ => d2
      | Ok d3 =>
        match _save_json_file writable "npc_states.json" (npc_states self) d3 with
        | Raise _ => d3
        | Ok d4 => d4
        end
      end
    end
  end.

(** The entry [save_player_progress] builds from the caller's dict. *)
Definition progress_entry (player_id : string) (player_data : pydict pyval)
  : pyval :=
  VDict
    [ ("name", dict_get_or "name"
                 (VStr ("Player_" ++ str_prefix 8 player_id)%string) player_data);
      ("level", dict_get_or "level" (VInt 1) player_data);
      ("experience", dict_get_or "experience" (VInt 0) player_data);
      ("regions_visited", dict_get_or "regions_visited"
                            (VList [VStr "ocean_frontier"]) player_data);
      ("quests_completed", dict_get_or "quests_completed" (VList []) player_data);
      ("npc_reputation", dict_get_or "npc_reputation" (VDict []) player_data);
      ("last_position", dict_get_or "last_position"
                          (VDict [("x", VInt 0); ("y", VInt 2); ("z", VInt 0)])
                          player_data);
      ("play_time", dict_get_or "play_time" (VInt 0) player_data);
      ("last_login", dict_get_or "last_login" (VInt 0) player_data) ].

Definition save_player_progress (player_id : string)
  (player_data : pydict pyval) (self : t) : t :=
  set_player_data (dict_set player_id (progress_entry player_id player_data)) self.

(** [self.player_data.get(player_id, {...})]: the profile of a player
    the manager has no entry for. *)
Definition default_progress (player_id : string) : pyval :=
  VDict
    [ ("name", VStr ("Player_" ++ str_prefix 8 player_id)%string);
      ("level", VInt 1);
      ("experience", VInt 0);
      ("regions_visited", VList [VStr "ocean_frontier"]);
      ("quests_completed", VList []);
      ("npc_reputation", VDict []);
      ("last_position", VDict [("x", VInt 0); ("y", VInt 2); ("z", VInt 0)]);
      ("play_time", VInt 0);
      ("last_login", VInt 0) ].

Definition get_player_progress (player_id : string) (self : t) : pyval :=
  dict_get_or player_id (default_progress player_id) (player_data self).

Definition set_world_state (v : pyval) (self : t) : t :=
  {| player_data := player_data self;
     world_state := v;
     quest_progress := quest_progress self;
     npc_states := npc_states self |}.

Definition set_quest_progress (v : pyval) (self : t) : t :=
  {| player_data := player_data self;
     world_state := world_state self;
     quest_progress := v;
     npc_states := npc_states self |}.

Definition set_npc_states (v : pyval) (self : t) : t :=
  {| player_data := player_data self;
     world_state := world_state self;
     quest_progress := quest_progress self;
     npc_states := v |}.

Definition _initialize_empty_data (self : t) : t :=
  {| player_data := [];
     world_state :=
       VDict [ ("sarasvati_fragments_found", VList []);
               ("world_objects", VDict []);
               ("cultural_events", VList []) ];
     quest_progress :=
       VDict [ ("main_quest",
                VDict [ ("fragments_collected", VInt 0);
                        ("total_fragments", VInt 7) ]);
               ("side_quests", VDict []);
               ("daily_tasks", VDict []) ];
     npc_states := VDict [] |}.

(** [_load_json_file]: a file that is not there reads as [{}];
    [read_error] tells for which files [open] or [json.load] raises, and
    what. *)
Definition _load_json_file (read_error : string -> option exn)
  (filename : string) (disk : Disk) : result pyval :=
  match dict_get filename disk with
  | None => Ok (VDict [])
  | Some data =>
      match read_error filename with
      | Some e => Raise e
      | None => Ok data
      end
  end.

(** [load_all_data]: the four reads sit in one [try], and any failure
    replaces everything by the empty structures. The record [t] keeps
    [player_data] as a dictionary: when all four files load and
    [player_data.json] holds a JSON document that is not an object, the
    manager is in a state [t] does not represent, and there is no result. *)
Definition load_all_data (read_error : string -> option exn) (self : t)
  (disk : Disk) : option t :=
  match _load_json_file read_error "player_data.json" disk with
  | Raise _ => Some (_initialize_empty_data self)
  | Ok players =>
    match _load_json_file read_error "world_state.json" disk with
    | Raise _ => Some (_initialize_empty_data self)
    | Ok world =>
      match _load_json_file read_error "quest_progress.json" disk with
      | Raise _ => Some (_initialize_empty_data self)
      | Ok quests =>
        match _load_json_file read_error "npc_states.json" disk with
        | Raise _ => Some (_initialize_empty_data self)
        | Ok npcs =>
          match players with
          | VDict entries =>
              Some {| player_data := entries; world_state := world;
                      quest_progress := quests; npc_states := npcs |}
          | _ => None
          end
        end
      end
    end
  end.

(** How a method of the manager ends: [ancient_bharat_config.py] can
    also raise [NameError], which the servers' own code cannot. *)
Inductive outcome : Type :=
| Returned
| Raised (e : exn)
| RaisedNameError (name : string).

(** The names bound at module level in [ancient_bharat_config.py]: its
    imports, classes, instances and functions. *)
Definition module_names : list string :=
  [ "json"; "os"; "Path"; "dataclass"; "asdict"; "Dict"; "Any";
    "ServerConfig"; "QuestConfig"; "WorldConfig"; "ConfigManager";
    "GameDataManager"; "config_manager"; "data_manager"; "get_config";
    "get_data_manager"; "save_game_state" ].

(** Whether a global name used in a method resolves. *)
Definition is_bound (name : string) : bool :=
  existsb (String.eqb name) module_names.

(** [update_quest_progress] *)
Definition update_quest_progress (quest_id : string)
  (progress_data : pydict pyval) (self : t) : outcome * t :=
  match getitem (quest_progress self) "side_quests" with
  | Raise e => (Raised e, self)
  | Ok side_quests =>
    match contains_str quest_id side_quests with
    | Raise e => (Raised e, self)
    | Ok known =>
      match (if known then Ok side_quests
             else setitem side_quests quest_id (VDict [])) with
      | Raise e => (Raised e, self)
      | Ok side_quests1 =>
        let with_side (side : pyval) : t :=
          match setitem (quest_progress self) "side_quests" side with
          | Ok quests => set_quest_progress quests self
          | Raise _ => self
          end in
        match getitem side_quests1 quest_id with
        | Raise e => (Raised e, with_side side_quests1)
        | Ok entry =>
          match entry with
          | VDict fields =>
              match setitem side_quests1 quest_id
                      (VDict (dict_update fields progress_data)) with
              | Ok side_quests2 => (Returned, with_side side_quests2)
              | Raise e => (Raised e, with_side side_quests1)
              end
          | VNone =>
              (Raised (AttributeError "NoneType" "update"), with_side side_quests1)
          | VBool _ =>
              (Raised (AttributeError "bool" "update"), with_side side_quests1)
          | VNum _ =>
              (Raised (AttributeError "float" "update"), with_side side_quests1)
          | VStr _ =>
              (Raised (AttributeError "str" "update"), with_side side_quests1)
          | VList _ =>
              (Raised (AttributeError "list" "update"), with_side side_quests1)
          end
        end
      end
    end
  end.

(** [add_sarasvati_fragment]; [clock] is what [time.time()] would return
    if the name [time] resolved. The method object [.append] is looked
    up before its argument is built. *)
Definition add_sarasvati_fragment (clock : Q) (fragment_id found_by : string)
  (self : t) : outcome * t :=
  match getitem (world_state self) "sarasvati_fragments_found" with
  | Raise e => (Raised e, self)
  | Ok found =>
    match contains_str fragment_id found with
    | Raise e => (Raised e, self)
    | Ok true => (Returned, self)
    | Ok false =>
      match append_method found with
      | Raise e => (Raised e, self)
      | Ok items =>
        if negb (is_bound "time") then (RaisedNameError "time", self)
        else
          match py_len found with
          | Raise e => (Raised e, self)
          | Ok count =>
            let record :=
              VDict [ ("fragment_id", VStr fragment_id);
                      ("found_by", VStr found_by);
                      ("found_at", VNum (Fin clock));
                      ("total_found", VInt (count + 1)) ] in
            let found1 := VList (items ++ [record]) in
            match setitem (world_state self) "sarasvati_fragments_found"
                    found1 with
            | Raise e => (Raised e, self)
            | Ok world1 =>
              let self1 := set_world_state world1 self in
              match py_len found1 with
              | Raise e => (Raised e, self1)
              | Ok collected =>
                match getitem (quest_progress self1) "main_quest" with
                | Raise e => (Raised e, self1)
                | Ok main_quest =>
                  match setitem main_quest "fragments_collected"
                          (VInt collected) with
                  | Raise e => (Raised e, self1)
                  | Ok main_quest1 =>
                    match setitem (quest_progress self1) "main_quest"
                            main_quest1 with
                    | Raise e => (Raised e, self1)
                    | Ok quests1 =>
                        (Returned, set_quest_progress quests1 self1)
                    end
                  end
                end
              end
            end
          end
      end
    end
  end.

(** The state of one NPC towards one player after [+= n] on [field]. *)
Definition increment (plus : pynum -> pynum -> pynum) (npc_state : pyval)
  (field : string) (n : Z) : result pyval :=
  match getitem npc_state field with
  | Raise e => Raise e
  | Ok value =>
    match py_add plus value n with
    | Raise e => Raise e
    | Ok sum => setitem npc_state field sum
    end
  end.

(** The last statement of [record_npc_interaction], the reputation
    update: the state of the NPC as the statement leaves it, and the
    exception it raised, if any. *)
Definition update_reputation (plus : pynum -> pynum -> pynum)
  (interaction_data : pydict pyval) (npc_state : pyval)
  : pyval * option exn :=
  if truthy (dict_get_or "quest_completed" VNone interaction_data) then
    match increment plus npc_state "reputation" 10 with
    | Raise e => (npc_state, Some e)
    | Ok npc_state1 =>
      match getitem npc_state1 "completed_quests" with
      | Raise e => (npc_state1, Some e)
      | Ok completed =>
        match append_method completed with
        | Raise e => (npc_state1, Some e)
        | Ok items =>
          match dict_get "quest_id" interaction_data with
          | None => (npc_state1, Some (KeyError "quest_id"))
          | Some quest_id =>
            match setitem npc_state1 "completed_quests"
                    (VList (items ++ [quest_id])) with
            | Raise e => (npc_state1, Some e)
            | Ok npc_state2 => (npc_state2, None)
            end
          end
        end
      end
    end
  else if truthy (dict_get_or "helpful_response" VNone interaction_data) then
    match increment plus npc_state "reputation" 1 with
    | Raise e => (npc_state, Some e)
    | Ok npc_state1 => (npc_state1, None)
    end
  else (npc_state, None).

(** [record_npc_interaction]; [plus] is Python's sum of two numbers and
    [clock] what [time.time()] would return if the name resolved. In the
    two assignments whose right-hand side calls [time.time()] the
    right-hand side is evaluated first. *)
Definition record_npc_interaction (plus : pynum -> pynum -> pynum) (clock : Q)
  (player_id npc_id : string) (interaction_data : pydict pyval) (self : t)
  : outcome * t :=
  match contains_str player_id (npc_states self) with
  | Raise e => (Raised e, self)
  | Ok known =>
    match (if known then Ok (npc_states self)
           else setitem (npc_states self) player_id (VDict [])) with
    | Raise e => (Raised e, self)
    | Ok states1 =>
      let self1 := set_npc_states states1 self in
      (** [self.npc_states[player_id][npc_id] = value], from [states]. *)
      let store (states : pyval) (npc_state : pyval) : result pyval :=
        match getitem states player_id with
        | Raise e => Raise e
        | Ok by_npc =>
          match setitem by_npc npc_id npc_state with
          | Raise e => Raise e
          | Ok by_npc1 => setitem states player_id by_npc1
          end
        end in
      match getitem states1 player_id with
      | Raise e => (Raised e, self1)
      | Ok by_npc =>
        match contains_str npc_id by_npc with
        | Raise e => (Raised e, self1)
        | Ok met =>
          if negb met && negb (is_bound "time") then
            (RaisedNameError "time", self1)
          else
            match (if met then Ok states1
                   else store states1
                          (VDict [ ("first_meeting", VNum (Fin clock));
                                   ("interactions", VInt 0);
                                   ("reputation", VInt 0);
                                   ("completed_quests", VList []) ])) with
            | Raise e => (Raised e, self1)
            | Ok states2 =>
              let self2 := set_npc_states states2 self in
              match getitem states2 player_id with
              | Raise e => (Raised e, self2)
              | Ok by_npc2 =>
                match getitem by_npc2 npc_id with
                | Raise e => (Raised e, self2)
                | Ok npc_state =>
                  match increment plus npc_state "interactions" 1 with
                  | Raise e => (Raised e, self2)
                  | Ok npc_state1 =>
                    match store states2 npc_state1 with
                    | Raise e => (Raised e, self2)
                    | Ok states3 =>
                      let self3 := set_npc_states states3 self in
                      if negb (is_bound "time") then
                        (RaisedNameError "time", self3)
                      else
                        match setitem npc_state1 "last_interaction"
                                (VNum (Fin clock)) with
                        | Raise e => (Raised e, self3)
                        | Ok npc_state2 =>
                          match store states3 npc_state2 with
                          | Raise e => (Raised e, self3)
                          | Ok states4 =>
                            let self4 := set_npc_states states4 self in
                            let (npc_state3, failure) :=
                              update_reputation plus interaction_data
                                npc_state2 in
                            match store states4 npc_state3 with
                            | Raise e => (Raised e, self4)
                            | Ok states5 =>
                              let self5 := set_npc_states states5 self in
                              match failure with
                              | Some e => (Raised e, self5)
                              | None => (Returned, self5)
                              end
                            end
                          end
                        end
                    end
                  end
                end
              end
            end
        end
      end
    end
  end.

(** [get_npc_relationship] *)
Definition get_npc_relationship (player_id npc_id : string) (self : t)
  : result pyval :=
  let stranger :=
    VDict [ ("first_meeting", VNone); ("interactions", VInt 0);
            ("reputation", VInt 0); ("completed_quests", VList []) ] in
  match contains_str player_id (npc_states self) with
  | Raise e => Raise e
  | Ok false => Ok stranger
  | Ok true =>
    match getitem (npc_states self) player_id with
    | Raise e => Raise e
    | Ok by_npc =>
      match contains_str npc_id by_npc with
      | Raise e => Raise e
      | Ok false => Ok stranger
      | Ok true =>
        match getitem (npc_states self) player_id with
        | Raise e => Raise e
        | Ok by_npc1 => getitem by_npc1 npc_id
        end
      end
    end
  end.

End GameDataManager.

(* ================================================================= *)
(** ** [integrated_ancient_bharat_server.py] *)

Module IntegratedAncientBharatServer.

(** A socket object, by identity. *)
Definition WebSocket : Type := nat.

Record Player : Type := {
  player_id : string;
  name : string;
  position : Position;
  current_region : Region;
  websocket : option WebSocket;
  last_active : Q;
  level : Z;
  experience : Z;
  regions_visited : list string
}.

(** The attributes a [Player] instance has: the dataclass fields. *)
Definition Player_attributes : list string :=
  [ "player_id"; "name"; "position"; "current_region"; "websocket";
    "last_active"; "level"; "experience"; "regions_visited" ].

(** The attributes of [enhanced_npcs.NPCManager], which is the object the
    server keeps as [self.npc_manager]. *)
Definition NPCManager_attributes : list string :=
  [ "npcs"; "story_manager"; "interact_with_npc"; "get_all_npcs_status";
    "get_beast_information" ].

Definition has_attribute (attributes : list string) (attr : string) : bool :=
  existsb (String.eqb attr) attributes.

(** [obj.attr], where [value] is what the attribute holds when the object
    has it. *)
Definition getattr {A} (cls : string) (attributes : list string)
  (attr : string) (value : A) : result A :=
  if has_attribute attributes attr then Ok value
  else Raise (AttributeError cls attr).

(** [getattr(obj, attr, default)] *)
Definition getattr_or {A} (attributes : list string) (attr : string)
  (value default : A) : A :=
  if has_attribute attributes attr then value else default.

Record Server : Type := {
  config : ConfigManager.t;
  data_manager : GameDataManager.t;
  connected_players : pydict Player;
  chat_history : list pyval;
  (** Outside the process: the text frames delivered so far, oldest
      first, and the files of the data directory. *)
  sent : list (WebSocket * pyval);
  disk : GameDataManager.Disk
}.

Definition set_connected_players (f : pydict Player -> pydict Player)
  (s : Server) : Server :=
  {| config := config s; data_manager := data_manager s;
     connected_players := f (connected_players s);
     chat_history := chat_history s; sent := sent s; disk := disk s |}.

Definition set_chat_history (f : list pyval -> list pyval) (s : Server)
  : Server :=
  {| config := config s; data_manager := data_manager s;
     connected_players := connected_players s;
     chat_history := f (chat_history s); sent := sent s; disk := disk s |}.

Definition set_data_manager (f : GameDataManager.t -> GameDataManager.t)
  (s : Server) : Server :=
  {| config := config s; data_manager := f (data_manager s);
     connected_players := connected_players s;
     chat_history := chat_history s; sent := sent s; disk := disk s |}.

Definition set_sent (f : list (WebSocket * pyval) -> list (WebSocket * pyval))
  (s : Server) : Server :=
  {| config := config s; data_manager := data_manager s;
     connected_players := connected_players s;
     chat_history := chat_history s; sent := f (sent s); disk := disk s |}.

Definition set_disk (f : GameDataManager.Disk -> GameDataManager.Disk)
  (s : Server) : Server :=
  {| config := config s; data_manager := data_manager s;
     connected_players := connected_players s;
     chat_history := chat_history s; sent := sent s; disk := f (disk s) |}.

(** Coroutines of the server. *)
Definition M (A : Type) : Type := Co Server A.

(** What the server cannot see from its own state: the clock, which
    sockets are dead, the other game systems, and the handlers of the
    expansion systems, each of which is some coroutine over the server. *)
Record Env : Type := {
  time_time : Q;
  send_raises : WebSocket -> bool;
  file_writable : string -> bool;
  (** [ancient_bharat_world.get_nearby_objects], with each object already
      rendered as the handler sends it. *)
  get_nearby_objects : pyval -> pyval -> Q -> result (list pyval);
  (** [quest_system.get_available_quests], rendered likewise. *)
  get_available_quests : string -> Z -> string -> result (list pyval);
  start_player_quest : string -> pyval -> result bool;
  update_player_quest : string -> pyval -> pyval -> pyval -> result bool;
  interact_with_npc : pyval -> string -> pyval -> pydict pyval -> result pyval;
  get_npcs_in_region : string -> result (list pyval);
  record_npc_interaction : string -> pyval -> pydict pyval -> M unit;
  handle_voice_chat : string -> pydict pyval -> M unit;
  handle_karma_action : string -> pydict pyval -> M unit;
  handle_npc_voice_interaction : string -> pydict pyval -> M unit;
  handle_procedural_content_request : string -> pydict pyval -> M unit;
  handle_3d_model_request : string -> pydict pyval -> M unit
}.

(** *** Region of a position *)

(** [if test: yes  else: no] on a test that may raise. *)
Definition if_ {A} (test : result bool) (yes no : result A) : result A :=
  match test with
  | Raise e => Raise e
  | Ok true => yes
  | Ok false => no
  end.

Definition get_region_from_position (self : Server) (x z : pyval)
  : result Region :=
  let is_in_region := ConfigManager.is_in_region (config self) in
  if_ (is_in_region x z "dust_plains") (Ok DUST_PLAINS)
  (if_ (is_in_region x z "ocean_frontier") (Ok OCEAN_FRONTIER)
  (if_ (is_in_region x z "himalayan_peaks") (Ok HIMALAYAN_PEAKS)
  (if_ (is_in_region x z "narmada_forest") (Ok NARMADA_FOREST)
  (Ok INDRAPURA_CITY)))).

(** *** Sending and broadcasting *)

(** [await websocket.send_text(json.dumps(data))] *)
Definition send_text (E : Env) (ws : option WebSocket) (data : pyval) : M unit :=
  match ws with
  | None => raise (AttributeError "NoneType" "send_text")
  | Some w =>
      if send_raises E w then raise ConnectionClosed
      else modify (set_sent (fun frames => frames ++ [(w, data)]))
  end.

(** Whether a send to this player raises. *)
Definition send_fails (E : Env) (player : Player) : bool :=
  match websocket player with
  | None => true
  | Some w => send_raises E w
  end.

(** The first loop of both broadcasts: send to every player that is not
    skipped, and collect the ids of those whose send raised. *)
Fixpoint send_to_each (E : Env) (message : pyval) (skip : string -> bool)
  (items : list (string * Player)) : M (list string) :=
  match items with
  | [] => ret []
  | (pid, player) :: rest =>
      if skip pid then send_to_each E message skip rest
      else
        delivered <- try_except
                       (send_text E (websocket player) message ;; ret true)
                       (fun _ => ret false) ;;
        disconnected_players <- send_to_each E message skip rest ;;
        ret (if delivered then disconnected_players
             else pid :: disconnected_players)
  end.

(** The dict [save_player_progress] hands to the data manager. *)
Definition player_data_of (E : Env) (player : Player) : pydict pyval :=
  [ ("name", VStr (name player));
    ("level", VInt (level player));
    ("experience", VInt (experience player));
    ("regions_visited", VList (map VStr (regions_visited player)));
    ("last_position", Position_asdict (position player));
    ("last_login", VNum (Fin (time_time E))) ].

Definition save_player_progress (E : Env) (player : Player) : M unit :=
  modify (set_data_manager
            (GameDataManager.save_player_progress (player_id player)
               (player_data_of E player))).

Definition player_left (pid : string) (player : Player) : pyval :=
  VDict [ ("type", VStr "player_left"); ("player_id", VStr pid);
          ("name", VStr (name player)) ].

(** [disconnect_player], with the broadcast it ends in passed in: the two
    coroutines call each other. *)
Definition disconnect_player_with (broadcast_to_all : pyval -> M unit)
  (E : Env) (pid : string) : M unit :=
  fun s =>
    match dict_get pid (connected_players s) with
    | Some player =>
        (save_player_progress E player ;;
         modify (set_connected_players (dict_del pid)) ;;
         broadcast_to_all (player_left pid player)) s
    | None => ret tt s
    end.

(** [broadcast_to_all] with a bound on the depth of the mutual recursion. *)
Fixpoint broadcast_to_all_fuel (fuel : nat) (E : Env) (data : pyval) : M unit :=
  match fuel with
  | O => fun _ => None
  | S fuel' =>
      fun s =>
        (disconnected_players <-
           send_to_each E data (fun _ => false) (connected_players s) ;;
         for_each disconnected_players
           (disconnect_player_with (broadcast_to_all_fuel fuel' E) E)) s
  end.

(** Every level of the recursion has removed a player, so one level per
    connected player and one more is enough. *)
Definition broadcast_to_all (E : Env) (data : pyval) : M unit :=
  fun s => broadcast_to_all_fuel (S (List.length (connected_players s))) E data s.

Definition disconnect_player (E : Env) (pid : string) : M unit :=
  fun s =>
    disconnect_player_with
      (broadcast_to_all_fuel (List.length (connected_players s)) E) E pid s.

Definition broadcast_to_others (E : Env) (sender_id : string) (data : pyval)
  : M unit :=
  fun s =>
    (disconnected_players <-
       send_to_each E data (String.eqb sender_id) (connected_players s) ;;
     for_each disconnected_players (disconnect_player E)) s.

(** [save_game_state()], as far as the data directory goes: the
    configuration files live elsewhere and are not modelled. *)
Definition save_game_state (E : Env) : M unit :=
  modify (fun s =>
            set_disk (GameDataManager.save_all_data (file_writable E)
                        (data_manager s)) s).


(** *** Per-player notifications *)

Definition send_nearby_npcs (E : Env) (player : Player) : M unit :=
  lookup <- lift (getattr "NPCManager" NPCManager_attributes
                    "get_npcs_in_region" (get_npcs_in_region E)) ;;
  available_npcs <- lift (lookup (Region_value (current_region player))) ;;
  match available_npcs with
  | [] => ret tt
  | _ =>
      send_text E (websocket player)
        (VDict [("type", VStr "nearby_npcs"); ("npcs", VList available_npcs)])
  end.

Definition send_available_quests (E : Env) (player : Player) : M unit :=
  available_quests <-
    lift (get_available_quests E (player_id player) (level player)
            (Region_value (current_region player))) ;;
  match available_quests with
  | [] => ret tt
  | _ =>
      send_text E (websocket player)
        (VDict [("type", VStr "available_quests");
                ("quests", VList available_quests)])
  end.

(** *** Message handlers *)

Definition string_in (s : string) (l : list string) : bool :=
  existsb (String.eqb s) l.

(** The in-place writes of [handle_player_movement] on the player object:
    lines 249-252. *)
Definition move_player (E : Env) (movement_data : pydict pyval) (player : Player)
  : Player :=
  {| player_id := player_id player;
     name := name player;
     position :=
       {| pos_x := dict_get_or "x" (pos_x (position player)) movement_data;
          pos_y := dict_get_or "y" (pos_y (position player)) movement_data;
          pos_z := dict_get_or "z" (pos_z (position player)) movement_data |};
     current_region := current_region player;
     websocket := websocket player;
     last_active := time_time E;
     level := level player;
     experience := experience player;
     regions_visited := regions_visited player |}.

(** The writes on entering [new_region]: lines 260-266. *)
Definition enter_region (new_region : Region) (player : Player) : Player :=
  let region_name := Region_value new_region in
  let first_visit := negb (string_in region_name (regions_visited player)) in
  {| player_id := player_id player;
     name := name player;
     position := position player;
     current_region := new_region;
     websocket := websocket player;
     last_active := last_active player;
     level := level player;
     experience :=
       if first_visit then experience player + 100 else experience player;
     regions_visited :=
       if first_visit then regions_visited player ++ [region_name]
       else regions_visited player |}.

Definition handle_player_movement (E : Env) (pid : string)
  (movement_data : pydict pyval) : M unit :=
  fun s =>
    match dict_get pid (connected_players s) with
    | None => ret tt s
    | Some player0 =>
      let player := move_player E movement_data player0 in
      (modify (set_connected_players (dict_set pid player)) ;;
       new_region <- lift (get_region_from_position s
                             (pos_x (position player)) (pos_z (position player))) ;;
       player <-
         (if Region_eqb new_region (current_region player) then ret player
          else
            let old_region := current_region player in
            let player := enter_region new_region player in
            let region_name := Region_value new_region in
            modify (set_connected_players (dict_set pid player)) ;;
            send_text E (websocket player)
              (VDict
                 [ ("type", VStr "region_changed");
                   ("player_id", VStr pid);
                   ("old_region", VStr (Region_value old_region));
                   ("new_region", VStr (Region_value new_region));
                   ("position", Position_asdict (position player));
                   ("experience_gained",
                    VInt (if negb (string_in region_name (regions_visited player))
                          then 100 else 0)) ]) ;;
            send_nearby_npcs E player ;;
            send_available_quests E player ;;
            ret player) ;;
       nearby_objects <-
         lift (get_nearby_objects E (pos_x (position player))
                 (pos_z (position player)) 20) ;;
       match nearby_objects with
       | [] => ret tt
       | _ =>
           send_text E (websocket player)
             (VDict [("type", VStr "nearby_objects");
                     ("objects", VList nearby_objects)])
       end ;;
       broadcast_to_others E pid
         (VDict [ ("type", VStr "player_moved");
                  ("player_id", VStr pid);
                  ("position", Position_asdict (position player));
                  ("current_region",
                   VStr (Region_value (current_region player))) ])) s
    end.

(** [value.strip()] on whatever the message holds. *)
Definition py_strip (v : pyval) : result string :=
  match v with
  | VStr text => Ok (strip text)
  | VNone => Raise (AttributeError "NoneType" "strip")
  | VBool _ => Raise (AttributeError "bool" "strip")
  | VNum _ => Raise (AttributeError "float" "strip")
  | VList _ => Raise (AttributeError "list" "strip")
  | VDict _ => Raise (AttributeError "dict" "strip")
  end.

Definition chat_message (E : Env) (pid : string) (player : Player)
  (message : string) : pyval :=
  VDict [ ("type", VStr "chat_message");
          ("player_id", VStr pid);
          ("player_name", VStr (name player));
          ("message", VStr message);
          ("timestamp", VNum (Fin (time_time E)));
          ("region", VStr (Region_value (current_region player))) ].

(** [if len(self.chat_history) > max_chat_history: self.chat_history.pop(0)] *)
Definition trim_chat_history (max_chat_history : Z) (history : list pyval)
  : list pyval :=
  if Z.of_nat (List.length history) >? max_chat_history then tl history
  else history.

Definition handle_chat_message (E : Env) (pid : string)
  (message_data : pydict pyval) : M unit :=
  fun s =>
    match dict_get pid (connected_players s) with
    | None => ret tt s
    | Some player =>
      (message <- lift (py_strip (dict_get_or "message" (VStr "") message_data)) ;;
       if String.eqb message "" then ret tt
       else
         let chat := chat_message E pid player message in
         modify (set_chat_history (fun history => history ++ [chat])) ;;
         modify (set_chat_history
                   (trim_chat_history
                      (ConfigManager.max_chat_history
                         (ConfigManager.server_config (config s))))) ;;
         broadcast_to_all E chat) s
    end.

Definition handle_npc_interaction (E : Env) (pid : string)
  (interaction_data : pydict pyval) : M unit :=
  fun s =>
    match dict_get pid (connected_players s) with
    | None => ret tt s
    | Some player =>
      let npc_id := dict_get_or "npc_id" VNone interaction_data in
      let player_message := dict_get_or "message" (VStr "Hello") interaction_data in
      if negb (truthy npc_id) then ret tt s
      else
        (level_ <- lift (getattr "Player" Player_attributes "level"
                           (VInt (level player))) ;;
         experience_ <- lift (getattr "Player" Player_attributes "experience"
                                (VInt (experience player))) ;;
         let tamed_beasts :=
           getattr_or Player_attributes "tamed_beasts" VNone (VList []) in
         region_ <- lift (getattr "Player" Player_attributes "region"
                            (VStr (Region_value (current_region player)))) ;;
         let player_data :=
           [ ("level", level_); ("experience", experience_);
             ("tamed_beasts", tamed_beasts); ("region", region_) ] in
         npc_response <- lift (interact_with_npc E npc_id pid player_message
                                 player_data) ;;
         if truthy npc_response then
           record_npc_interaction E pid npc_id
             [ ("helpful_response", VBool true);
               ("quest_completed", VBool false);
               ("player_message", player_message);
               ("ai_response", VBool true) ] ;;
           send_text E (websocket player)
             (VDict [ ("type", VStr "npc_interaction");
                      ("npc_id", npc_id);
                      ("response", npc_response);
                      ("timestamp", VNum (Fin (time_time E)));
                      ("enhanced_ai", VBool true) ])
         else ret tt) s
    end.

Definition add_experience (amount : Z) (player : Player) : Player :=
  {| player_id := player_id player;
     name := name player;
     position := position player;
     current_region := current_region player;
     websocket := websocket player;
     last_active := last_active player;
     level := level player;
     experience := experience player + amount;
     regions_visited := regions_visited player |}.

Definition handle_quest_action (E : Env) (pid : string)
  (quest_data : pydict pyval) : M unit :=
  fun s =>
    match dict_get pid (connected_players s) with
    | None => ret tt s
    | Some player =>
      let action := dict_get_or "action" VNone quest_data in
      let quest_id := dict_get_or "quest_id" VNone quest_data in
      if py_eq_str action "start" && truthy quest_id then
        (started <- lift (start_player_quest E pid quest_id) ;;
         if started then
           modify (set_connected_players
                     (dict_set pid (add_experience 25 player))) ;;
           send_text E (websocket player)
             (VDict [ ("type", VStr "quest_started"); ("quest_id", quest_id);
                      ("experience_gained", VInt 25) ])
         else ret tt) s
      else if py_eq_str action "update" && truthy quest_id then
        (let objective_id := dict_get_or "objective_id" VNone quest_data in
         let amount := dict_get_or "amount" (VInt 1) quest_data in
         completed <- lift (update_player_quest E pid quest_id objective_id
                              amount) ;;
         if completed then
           modify (set_connected_players
                     (dict_set pid (add_experience 250 player))) ;;
           send_text E (websocket player)
             (VDict [ ("type", VStr "quest_completed"); ("quest_id", quest_id);
                      ("experience_gained", VInt 250) ])
         else ret tt) s
      else ret tt s
    end.

(** *** The receive loop *)

(** What [receive_text] and [json.loads] hand to one turn of the loop. *)
Inductive frame : Type :=
| Text (message : pyval)
| Garbled
| Closed.

Inductive loop_status : Type :=
| Continue
| Stopped.


(** The body of the [while True] loop after [json.loads]. *)
Definition dispatch (E : Env) (pid : string) (message : pyval) : M unit :=
  match message with
  | VDict fields =>
      let message_type := dict_get_or "type" VNone fields in
      if py_eq_str message_type "movement" then
        handle_player_movement E pid fields
      else if py_eq_str message_type "chat" then
        handle_chat_message E pid fields
      else if py_eq_str message_type "npc_interaction" then
        handle_npc_interaction E pid fields
      else if py_eq_str message_type "quest_action" then
        handle_quest_action E pid fields
      else if py_eq_str message_type "voice_chat" then
        handle_voice_chat E pid fields
      else if py_eq_str message_type "karma_action" then
        handle_karma_action E pid fields
      else if py_eq_str message_type "npc_voice_interaction" then
        handle_npc_voice_interaction E pid fields
      else if py_eq_str message_type "procedural_content" then
        handle_procedural_content_request E pid fields
      else if py_eq_str message_type "3d_model_request" then
        handle_3d_model_request E pid fields
      else if py_eq_str message_type "world_interaction" then
        ret tt
      else
        ret tt
  | VNone => raise (AttributeError "NoneType" "get")
  | VBool _ => raise (AttributeError "bool" "get")
  | VNum _ => raise (AttributeError "float" "get")
  | VStr _ => raise (AttributeError "str" "get")
  | VList _ => raise (AttributeError "list" "get")
  end.

(** One turn of [handle_websocket_message]: the loop goes on after a
    handled message and ends, with the player disconnected, on any
    exception. *)
Definition handle_websocket_message (E : Env) (pid : string) (received : frame)
  : M loop_status :=
  try_except
    (match received with
     | Closed => raise WebSocketDisconnect
     | Garbled => raise JSONDecodeError
     | Text message => dispatch E pid message ;; ret Continue
     end)
    (fun _ => disconnect_player E pid ;; ret Stopped).

(** Frames delivered by a coroutine: what [sent] gained. *)
Definition frames_since (before after : Server) : list (WebSocket * pyval) :=
  skipn (List.length (sent before)) (sent after).

Definition frame_type (f : WebSocket * pyval) : pyval :=
  match snd f with
  | VDict fields => dict_get_or "type" VNone fields
  | _ => VNone
  end.

(** *** Connecting *)

(** What [connect_player] meets beyond [Env]. *)
Record Arrival : Type := {
  (** The exception [websocket.accept()] raises, if any. *)
  accept_raises : WebSocket -> option exn;
  (** [ancient_bharat_world.get_nearby_objects], with each object
      rendered as [send_nearby_world_objects] sends it. *)
  get_world_objects : pyval -> pyval -> Q -> result (list pyval)
}.

(** The stored values that the typed fields of [Player] can carry. *)
Definition as_str (v : pyval) : option string :=
  match v with
  | VStr text => Some text
  | _ => None
  end.

Definition as_int (v : pyval) : option Z :=
  match v with
  | VNum (Fin q) => if Pos.eqb (Qden q) 1 then Some (Qnum q) else None
  | _ => None
  end.

Fixpoint as_str_list (l : list pyval) : option (list string) :=
  match l with
  | [] => Some []
  | v :: rest =>
      match as_str v, as_str_list rest with
      | Some text, Some texts => Some (text :: texts)
      | _, _ => None
      end
  end.

(** [regions_visited], after [__post_init__] has replaced [None]. *)
Definition as_regions (v : pyval) : option (list string) :=
  match v with
  | VList l => as_str_list l
  | VNone => Some ["ocean_frontier"]
  | _ => None
  end.

Record Profile : Type := {
  profile_name : string;
  profile_level : Z;
  profile_experience : Z;
  profile_regions : list string
}.

(** The four values the [Player(...)] call reads from the stored
    progress, as the typed fields hold them. *)
Definition read_profile (name_ level_ experience_ regions : pyval)
  : option Profile :=
  match as_str name_, as_int level_, as_int experience_, as_regions regions with
  | Some name_, Some level_, Some experience_, Some regions =>
      Some {| profile_name := name_; profile_level := level_;
              profile_experience := experience_; profile_regions := regions |}
  | _, _, _, _ => None
  end.

Definition send_nearby_world_objects (C : Arrival) (E : Env) (player : Player)
  : M unit :=
  nearby_objects <-
    lift (get_world_objects C (pos_x (position player))
            (pos_z (position player)) 100) ;;
  match nearby_objects with
  | [] => ret tt
  | _ =>
      send_text E (websocket player)
        (VDict [("type", VStr "world_objects");
                ("objects", VList (firstn 20 nearby_objects))])
  end.

(** [self.chat_history[-20:]] goes to the player. *)
Definition send_chat_history (E : Env) (player : Player) : M unit :=
  fun s =>
    match chat_history s with
    | [] => ret tt s
    | history =>
        send_text E (websocket player)
          (VDict [("type", VStr "chat_history");
                  ("messages",
                   VList (skipn (List.length history - 20) history))]) s
    end.

Definition player_joined (pid : string) (player : Player) : pyval :=
  VDict [ ("type", VStr "player_joined");
          ("player_id", VStr pid);
          ("name", VStr (name player));
          ("position", Position_asdict (position player));
          ("current_region", VStr (Region_value (current_region player)));
          ("level", VInt (level player));
          ("experience", VInt (experience player));
          ("regions_visited", VList (map VStr (regions_visited player))) ].

(** The rest of the [try] of [connect_player] once the player object is
    built and its region set: lines 174-200. *)
Definition announce_player (C : Arrival) (E : Env) (socket : WebSocket)
  (pid : string) (player : Player) : M unit :=
  modify (set_connected_players (dict_set pid player)) ;;
  send_text E (Some socket) (player_joined pid player) ;;
  broadcast_to_others E pid (player_joined pid player) ;;
  send_nearby_npcs E player ;;
  send_available_quests E player ;;
  send_nearby_world_objects C E player ;;
  send_chat_history E player.

(** [connect_player]. The whole body sits in one [try] whose handler
    only prints. [Player] keeps name, level, experience and visited
    regions typed: where the stored progress holds a value of another
    kind there, the constructor would build a player this record cannot
    carry, and the embedding gives no result. *)
Definition connect_player (C : Arrival) (E : Env) (socket : WebSocket)
  (pid player_name : string) : M unit :=
  fun s =>
    try_except
      (match accept_raises C socket with
       | Some e => raise e
       | None => ret tt
       end ;;
       let player_data :=
         GameDataManager.get_player_progress pid (data_manager s) in
       last_pos <-
         lift (py_get player_data "last_position"
                 (VDict [("x", VInt 0); ("y", VInt 2); ("z", VInt 0)])) ;;
       name_ <- lift (py_get player_data "name" (VStr player_name)) ;;
       x <- lift (getitem last_pos "x") ;;
       y <- lift (getitem last_pos "y") ;;
       z <- lift (getitem last_pos "z") ;;
       level_ <- lift (py_get player_data "level" (VInt 1)) ;;
       experience_ <- lift (py_get player_data "experience" (VInt 0)) ;;
       regions <- lift (py_get player_data "regions_visited"
                          (VList [VStr "ocean_frontier"])) ;;
       match read_profile name_ level_ experience_ regions with
       | None => fun _ => None
       | Some profile =>
           new_region <- lift (get_region_from_position s x z) ;;
           let player :=
             {| player_id := pid;
                name := profile_name profile;
                position := {| pos_x := x; pos_y := y; pos_z := z |};
                current_region := new_region;
                websocket := Some socket;
                last_active := time_time E;
                level := profile_level profile;
                experience := profile_experience profile;
                regions_visited := profile_regions profile |} in
           announce_player C E socket pid player
       end)
      (fun _ => ret tt) s.

End IntegratedAncientBharatServer.

(* ================================================================= *)
(** ** [ai_3d_model_agent.py] *)

Module AI3DModelAgent.

Inductive ModelSource : Type :=
| GENERATED_AI
| DOWNLOADED_ONLINE
| CACHED_LOCAL
| PLACEHOLDER.

Inductive ModelFormat : Type :=
| GLB
| GLTF
| OBJ
| FBX
| PLY
| STL.

Definition ModelFormat_value (f : ModelFormat) : string :=
  match f with
  | GLB => "glb"
  | GLTF => "gltf"
  | OBJ => "obj"
  | FBX => "fbx"
  | PLY => "ply"
  | STL => "stl"
  end.

Record ModelMetadata : Type := {
  model_id : string;
  name : string;
  description : string;
  source : ModelSource;
  format : ModelFormat;
  file_path : string;
  file_size : Z;
  created_at : Q;
  last_accessed : Q;
  license_info : pyval;
  attribution : pyval;
  tags : list pyval;
  quality_score : Q;
  polycount : Z;
  texture_maps : list string
}.

(** The keyword arguments the generated [__init__] of the dataclass
    accepts: its fields. *)
Definition ModelMetadata_fields : list string :=
  [ "model_id"; "name"; "description"; "source"; "format"; "file_path";
    "file_size"; "created_at"; "last_accessed"; "license_info";
    "attribution"; "tags"; "quality_score"; "polycount"; "texture_maps" ].

(** [ModelMetadata(key=value, ...)]: a keyword that is no field is a
    [TypeError]; [built] is the instance when every keyword is one. *)
Definition ModelMetadata_init (keywords : list string) (built : ModelMetadata)
  : result ModelMetadata :=
  match filter (fun k => negb (existsb (String.eqb k) ModelMetadata_fields))
          keywords with
  | [] => Ok built
  | unexpected :: _ =>
      Raise (TypeError ("__init__() got an unexpected keyword argument "
                        ++ unexpected)%string)
  end.

Record ModelRequest : Type := {
  content_type : string;
  content_name : string;
  content_description : string;
  style_preferences : pydict pyval;
  quality_level : string;
  max_polycount : Z;
  preferred_format : ModelFormat
}.

(** What a file holds. *)
Inductive FileContent : Type :=
| TextFile (text : string)
| MetadataJson (entries : pydict ModelMetadata).

(** What a coroutine of the agent did to the outside, in order. *)
Inductive Effect : Type :=
| Slept (seconds : Q)
| Wrote (path : string)
| HttpGet (url : string).

Record Agent : Type := {
  models_dir : string;
  model_cache : pydict ModelMetadata;
  (** Outside the process: the files and directories that exist, and the
      trace of what the agent did. *)
  files : pydict FileContent;
  directories : list string;
  trace : list Effect
}.

Definition set_model_cache (f : pydict ModelMetadata -> pydict ModelMetadata)
  (a : Agent) : Agent :=
  {| models_dir := models_dir a; model_cache := f (model_cache a);
     files := files a; directories := directories a; trace := trace a |}.

Definition set_files (f : pydict FileContent -> pydict FileContent)
  (a : Agent) : Agent :=
  {| models_dir := models_dir a; model_cache := model_cache a;
     files := f (files a); directories := directories a; trace := trace a |}.

Definition add_effect (e : Effect) (a : Agent) : Agent :=
  {| models_dir := models_dir a; model_cache := model_cache a;
     files := files a; directories := directories a;
     trace := trace a ++ [e] |}.

(** The Python runtime and the network, as far as the agent reads them. *)
Record World : Type := {
  now : Q;
  (** [hashlib.md5(text.encode()).hexdigest()] *)
  md5_hexdigest : string -> string;
  str_lower : string -> string;
  str_split : string -> list string;
  (** [text.replace("_", " ")] *)
  str_replace_underscores : string -> string;
  (** [str(value)], as an f-string or [join] renders it. *)
  str_of : pyval -> string;
  HAS_OPENAI : bool;
  HAS_REPLICATE : bool;
  blender_available : bool;
  (** The JSON results of a Sketchfab search; [None] when the request
      fails or the status is not 200. *)
  sketchfab_search : string -> option (list (pydict pyval))
}.

Definition with_now (t : Q) (W : World) : World :=
  {| now := t; md5_hexdigest := md5_hexdigest W; str_lower := str_lower W;
     str_split := str_split W;
     str_replace_underscores := str_replace_underscores W;
     str_of := str_of W; HAS_OPENAI := HAS_OPENAI W;
     HAS_REPLICATE := HAS_REPLICATE W;
     blender_available := blender_available W;
     sketchfab_search := sketchfab_search W |}.

(** Coroutines of the agent. *)
Definition A (X : Type) : Type := Co Agent X.

(** [try: body except Exception as e: print; return fallback] *)
Definition try_or {X} (body : A X) (fallback : X) : A X :=
  try_except body (fun _ => ret fallback).

(** [await asyncio.sleep(seconds)] *)
Definition sleep (seconds : Q) : A unit := modify (add_effect (Slept seconds)).

(** [directory / file_name] *)
Definition path_join (directory file_name : string) : string :=
  (directory ++ "/" ++ file_name)%string.

(** [Path(path).exists()] *)
Definition path_exists (path : string) (a : Agent) : bool :=
  dict_mem path (files a) || existsb (String.eqb path) (directories a).

(** [(directory / file_name).write_text(text)]: the directory has to be
    there. *)
Definition write_file (directory file_name : string) (content : FileContent)
  : A unit :=
  fun a =>
    let path := path_join directory file_name in
    if existsb (String.eqb directory) (directories a) then
      modify (fun a => add_effect (Wrote path)
                         (set_files (dict_set path content) a)) a
    else raise (FileNotFoundError path) a.

Definition write_text (directory file_name text : string) : A unit :=
  write_file directory file_name (TextFile text).

(** [self.subdirs] *)
Definition subdirs (a : Agent) : pydict string :=
  [ ("weapons", path_join (models_dir a) "weapons");
    ("beasts", path_join (models_dir a) "beasts");
    ("divine_entities", path_join (models_dir a) "divine_entities");
    ("environments", path_join (models_dir a) "environments");
    ("props", path_join (models_dir a) "props");
    ("cache", path_join (models_dir a) "cache") ].

(** [self.subdirs.get(request.content_type + "s", self.subdirs["cache"])] *)
Definition content_dir (request : ModelRequest) (a : Agent) : string :=
  dict_get_or (content_type request ++ "s")%string
    (path_join (models_dir a) "cache") (subdirs a).

Definition get_content_dir (request : ModelRequest) : A string :=
  fun a => ret (content_dir request a) a.

Definition model_file_name (id suffix : string) (request : ModelRequest)
  : string :=
  (id ++ suffix ++ "." ++ ModelFormat_value (preferred_format request))%string.

Definition save_metadata : A unit :=
  try_or
    (fun a =>
       write_file (models_dir a) "models_metadata.json"
         (MetadataJson (model_cache a)) a)
    tt.

Definition generate_model_id (W : World) (content_name content_type : string)
  : string :=
  let content_hash :=
    str_prefix 8 (md5_hexdigest W (content_type ++ "_" ++ content_name)%string) in
  (content_type ++ "_" ++ content_hash)%string.

(** *** Looking for a model online *)

Definition skip_words : list string := ["the"; "of"; "and"; "or"; "a"; "an"].

Definition _generate_search_terms (W : World) (request : ModelRequest)
  : list pyval :=
  let name_words := str_split W (str_lower W (content_name request)) in
  let meaningful_words :=
    filter (fun word => negb (existsb (String.eqb word) skip_words)
                        && (2 <? Z.of_nat (String.length word)))
      name_words in
  [VStr (str_replace_underscores W (content_type request))]
  ++ map VStr (firstn 3 meaningful_words)
  ++ match dict_get "style" (style_preferences request) with
     | Some style => [style]
     | None => []
     end.

(** [', '.join(terms)]: every term has to be a string. *)
Fixpoint join_terms (separator : string) (terms : list pyval) : result string :=
  match terms with
  | [] => Ok ""
  | term :: rest =>
      match term with
      | VStr t =>
          match rest with
          | [] => Ok t
          | _ :: _ =>
              match join_terms separator rest with
              | Ok joined => Ok (t ++ separator ++ joined)%string
              | Raise e => Raise e
              end
          end
      | _ => Raise (TypeError "sequence item: expected str instance")
      end
  end.

Definition _search_sketchfab (W : World) (search_terms : list pyval)
  : A (list (pydict pyval)) :=
  try_or
    (query <- lift (join_terms " " search_terms) ;;
     let url :=
       ("https://api.sketchfab.com/v3/search?type=models&q=" ++ query
        ++ "&downloadable=true")%string in
     modify (add_effect (HttpGet url)) ;;
     match sketchfab_search W url with
     | Some results => ret (firstn 5 results)
     | None => ret []
     end)
    [].

Definition _search_poly_haven (search_terms : list pyval)
  : A (list (pydict pyval)) :=
  ret [].

Definition _search_repository (W : World) (repo_name : string)
  (search_terms : list pyval) : A (list (pydict pyval)) :=
  if String.eqb repo_name "sketchfab" then _search_sketchfab W search_terms
  else if String.eqb repo_name "poly_haven" then _search_poly_haven search_terms
  else ret [].

Definition _download_model (W : World) (repo_name : string)
  (model_info : pydict pyval) (request : ModelRequest) (id : string)
  : A (option ModelMetadata) :=
  try_or
    (sleep 1 ;;
     directory <- get_content_dir request ;;
     let file_name := model_file_name id "" request in
     write_text directory file_name "# Downloaded 3D model placeholder" ;;
     metadata <- lift
       (ModelMetadata_init
          [ "model_id"; "name"; "description"; "source"; "format";
            "file_path"; "file_size"; "license_info"; "attribution"; "tags";
            "quality_score" ]
          {| model_id := id;
             name := content_name request;
             description := ("Downloaded from " ++ repo_name ++ ": "
                             ++ content_description request)%string;
             source := DOWNLOADED_ONLINE;
             format := preferred_format request;
             file_path := path_join directory file_name;
             file_size := 1024;
             created_at := now W;
             last_accessed := now W;
             license_info := dict_get_or "license" (VStr "Unknown") model_info;
             attribution := dict_get_or "attribution" (VStr "") model_info;
             tags := _generate_search_terms W request;
             quality_score := 7 # 10;
             polycount := 0;
             texture_maps := [] |}) ;;
     ret (Some metadata))
    None.

Definition repositories : list string := ["sketchfab"; "poly_haven"].

Fixpoint try_repositories (W : World) (repos : list string)
  (search_terms : list pyval) (request : ModelRequest) (id : string)
  : A (option ModelMetadata) :=
  match repos with
  | [] => ret None
  | repo_name :: rest =>
      found <- try_or
        (lift (join_terms ", " search_terms) ;;
         search_results <- _search_repository W repo_name search_terms ;;
         match search_results with
         | best_match :: _ => _download_model W repo_name best_match request id
         | [] => ret None
         end)
        None ;;
      match found with
      | Some metadata => ret (Some metadata)
      | None => try_repositories W rest search_terms request id
      end
  end.

Definition _try_download_online (W : World) (request : ModelRequest)
  (id : string) : A (option ModelMetadata) :=
  try_repositories W repositories (_generate_search_terms W request) request id.

(** *** Generating a model *)

(** [table.get(key, default)] with a key that may not be hashable. *)
Definition lookup_style (table : pydict string) (key : pyval) (default : string)
  : result string :=
  match key with
  | VStr style => Ok (dict_get_or style default table)
  | VList _ => Raise (TypeError "unhashable type: 'list'")
  | VDict _ => Raise (TypeError "unhashable type: 'dict'")
  | _ => Ok default
  end.

Definition style_additions : pydict string :=
  [ ("fantasy", "fantasy style, detailed textures, mystical");
    ("realistic", "photorealistic, high detail, realistic materials");
    ("stylized", "stylized, game-ready, clean topology");
    ("medieval", "medieval fantasy, weathered textures");
    ("futuristic", "sci-fi, metallic surfaces, glowing elements") ].

Definition _build_luma_ai_prompt (request : ModelRequest) : result string :=
  let base_prompt := ("A " ++ content_description request)%string in
  let style := dict_get_or "style" (VStr "fantasy") (style_preferences request) in
  match lookup_style style_additions style "detailed, high quality" with
  | Raise e => Raise e
  | Ok style_desc =>
      let ending :=
        if String.eqb (content_type request) "weapon" then
          ", weapon design, game asset, clean geometry"
        else if String.eqb (content_type request) "beast" then
          ", creature design, detailed anatomy"
        else if String.eqb (content_type request) "divine_entity" then
          ", divine being, mystical aura, ornate details"
        else ", 3D model, game-ready" in
      Ok (base_prompt ++ ", " ++ style_desc ++ ending)%string
  end.

Definition _build_meshy_ai_prompt (request : ModelRequest) : string :=
  (content_name request ++ ": " ++ content_description request
   ++ ", game-ready topology, optimized for web")%string.

Definition _build_kaedim_prompt (request : ModelRequest) : string :=
  ("Production-ready " ++ content_description request
   ++ ", game topology, riggable, clean mesh")%string.

Definition _build_scenario_prompt (W : World) (request : ModelRequest) : string :=
  let style := dict_get_or "style" (VStr "fantasy") (style_preferences request) in
  ("Game asset: " ++ content_description request ++ ", " ++ str_of W style
   ++ " style, consistent with game art direction")%string.

(** The record the four hosted services build; [label] opens its
    description. *)
Definition generated_metadata (W : World) (request : ModelRequest)
  (id label path license : string) (size : Z) (quality : Q) : ModelMetadata :=
  {| model_id := id;
     name := content_name request;
     description := (label ++ content_description request)%string;
     source := GENERATED_AI;
     format := preferred_format request;
     file_path := path;
     file_size := size;
     created_at := now W;
     last_accessed := now W;
     license_info := VStr license;
     attribution := VStr "";
     tags := [];
     quality_score := quality;
     polycount := 0;
     texture_maps := [] |}.

(** The keywords the four hosted services pass to [ModelMetadata]. *)
Definition hosted_service_keywords : list string :=
  [ "model_id"; "name"; "description"; "source"; "format"; "file_path";
    "file_size"; "license_info"; "quality_score"; "generation_metadata" ].

Definition _generate_with_luma_ai (W : World) (request : ModelRequest)
  (id : string) : A (option ModelMetadata) :=
  try_or
    (prompt <- lift (_build_luma_ai_prompt request) ;;
     sleep (5 # 2) ;;
     directory <- get_content_dir request ;;
     let file_name := model_file_name id "_luma" request in
     write_text directory file_name "# Luma AI Generated 3D model" ;;
     metadata <- lift
       (ModelMetadata_init hosted_service_keywords
          (generated_metadata W request id "Luma AI Generated: "
             (path_join directory file_name)
             "Luma AI Generated - Commercial Use Allowed"
             (3072 * 1024) (85 # 100))) ;;
     ret (Some metadata))
    None.

Definition _generate_with_meshy_ai (W : World) (request : ModelRequest)
  (id : string) : A (option ModelMetadata) :=
  try_or
    (let prompt := _build_meshy_ai_prompt request in
     sleep 3 ;;
     directory <- get_content_dir request ;;
     let file_name := model_file_name id "_meshy" request in
     write_text directory file_name "# Meshy AI Generated 3D model" ;;
     metadata <- lift
       (ModelMetadata_init hosted_service_keywords
          (generated_metadata W request id "Meshy AI Generated: "
             (path_join directory file_name)
             "Meshy AI Generated - Commercial Use Allowed"
             (2560 * 1024) (8 # 10))) ;;
     ret (Some metadata))
    None.

Definition _generate_with_kaedim (W : World) (request : ModelRequest)
  (id : string) : A (option ModelMetadata) :=
  try_or
    (let prompt := _build_kaedim_prompt request in
     sleep 5 ;;
     directory <- get_content_dir request ;;
     let file_name := model_file_name id "_kaedim" request in
     write_text directory file_name
       "# Kaedim Generated 3D model - Production Ready" ;;
     metadata <- lift
       (ModelMetadata_init hosted_service_keywords
          (generated_metadata W request id "Kaedim Generated: "
             (path_join directory file_name)
             "Kaedim Generated - Production Use Allowed"
             (5120 * 1024) (9 # 10))) ;;
     ret (Some metadata))
    None.

Definition _generate_with_scenario_gg (W : World) (request : ModelRequest)
  (id : string) : A (option ModelMetadata) :=
  try_or
    (let prompt := _build_scenario_prompt W request in
     sleep (7 # 2) ;;
     directory <- get_content_dir request ;;
     let file_name := model_file_name id "_scenario" request in
     write_text directory file_name
       "# Scenario.gg Generated 3D model - Game Tailored" ;;
     metadata <- lift
       (ModelMetadata_init hosted_service_keywords
          (generated_metadata W request id "Scenario.gg Generated: "
             (path_join directory file_name)
             "Scenario.gg Generated - Game Development License"
             (3584 * 1024) (82 # 100))) ;;
     ret (Some metadata))
    None.

Definition _generate_with_openai (W : World) (request : ModelRequest)
  (id : string) : A (option ModelMetadata) :=
  if negb (HAS_OPENAI W) then ret None
  else
    try_or
      (sleep 2 ;;
       directory <- get_content_dir request ;;
       let file_name := model_file_name id "_ai" request in
       write_text directory file_name "# AI Generated 3D model placeholder" ;;
       metadata <- lift
         (ModelMetadata_init
            [ "model_id"; "name"; "description"; "source"; "format";
              "file_path"; "file_size"; "license_info"; "quality_score";
              "tags" ]
            {| model_id := id;
               name := content_name request;
               description := ("AI Generated: "
                               ++ content_description request)%string;
               source := GENERATED_AI;
               format := preferred_format request;
               file_path := path_join directory file_name;
               file_size := 2048;
               created_at := now W;
               last_accessed := now W;
               license_info := VStr "AI Generated - Custom License";
               attribution := VStr "";
               tags := [VStr "ai_generated"; VStr "procedural"]
                       ++ _generate_search_terms W request;
               quality_score := 6 # 10;
               polycount := 0;
               texture_maps := [] |}) ;;
       ret (Some metadata))
      None.

Definition _generate_with_replicate (W : World) (request : ModelRequest)
  (id : string) : A (option ModelMetadata) :=
  ret None.

Definition _generate_with_blender (W : World) (request : ModelRequest)
  (id : string) : A (option ModelMetadata) :=
  try_or
    (sleep 3 ;;
     directory <- get_content_dir request ;;
     let file_name := model_file_name id "_blender" request in
     write_text directory file_name
       "# Blender Generated 3D model placeholder" ;;
     metadata <- lift
       (ModelMetadata_init
          [ "model_id"; "name"; "description"; "source"; "format";
            "file_path"; "file_size"; "license_info"; "quality_score";
            "polycount"; "tags" ]
          {| model_id := id;
             name := content_name request;
             description := ("Blender Generated: "
                             ++ content_description request)%string;
             source := GENERATED_AI;
             format := preferred_format request;
             file_path := path_join directory file_name;
             file_size := 4096;
             created_at := now W;
             last_accessed := now W;
             license_info := VStr "Procedurally Generated";
             attribution := VStr "";
             tags := [VStr "blender_generated"; VStr "procedural"];
             quality_score := 8 # 10;
             polycount := 5000;
             texture_maps := [] |}) ;;
     ret (Some metadata))
    None.

(** [self.ai_services[service]["available"]] *)
Definition service_available (W : World) (service_name : string) : bool :=
  if String.eqb service_name "luma_ai_genie" then true
  else if String.eqb service_name "meshy_ai" then true
  else if String.eqb service_name "kaedim" then true
  else if String.eqb service_name "scenario_gg" then true
  else if String.eqb service_name "openai_shap_e" then HAS_OPENAI W
  else if String.eqb service_name "replicate_dreamfusion" then HAS_REPLICATE W
  else if String.eqb service_name "local_blender" then blender_available W
  else false.

Definition _get_preferred_services_for_content (content_type : string)
  : list string :=
  let preferences :=
    [ ("weapon", ["luma_ai_genie"; "meshy_ai"; "kaedim"; "scenario_gg"]);
      ("beast", ["meshy_ai"; "kaedim"; "luma_ai_genie"; "scenario_gg"]);
      ("divine_entity", ["kaedim"; "luma_ai_genie"; "meshy_ai"; "scenario_gg"]);
      ("character", ["kaedim"; "meshy_ai"; "luma_ai_genie"]);
      ("environment", ["meshy_ai"; "scenario_gg"; "luma_ai_genie"]);
      ("prop", ["luma_ai_genie"; "scenario_gg"; "meshy_ai"]) ] in
  let default_order :=
    [ "luma_ai_genie"; "meshy_ai"; "kaedim"; "scenario_gg"; "openai_shap_e";
      "replicate_dreamfusion"; "local_blender" ] in
  dict_get_or content_type default_order preferences.

Definition generate_with (W : World) (service_name : string)
  (request : ModelRequest) (id : string) : A (option ModelMetadata) :=
  if String.eqb service_name "luma_ai_genie" then
    _generate_with_luma_ai W request id
  else if String.eqb service_name "meshy_ai" then
    _generate_with_meshy_ai W request id
  else if String.eqb service_name "kaedim" then
    _generate_with_kaedim W request id
  else if String.eqb service_name "scenario_gg" then
    _generate_with_scenario_gg W request id
  else if String.eqb service_name "openai_shap_e" then
    _generate_with_openai W request id
  else if String.eqb service_name "replicate_dreamfusion" then
    _generate_with_replicate W request id
  else if String.eqb service_name "local_blender" then
    _generate_with_blender W request id
  else ret None.

Fixpoint try_services (W : World) (services : list string)
  (request : ModelRequest) (id : string) : A (option ModelMetadata) :=
  match services with
  | [] => ret None
  | service_name :: rest =>
      if negb (service_available W service_name) then
        try_services W rest request id
      else
        result_ <- try_or (generate_with W service_name request id) None ;;
        match result_ with
        | Some metadata => ret (Some metadata)
        | None => try_services W rest request id
        end
  end.

Definition _try_ai_generation (W : World) (request : ModelRequest)
  (id : string) : A (option ModelMetadata) :=
  try_services W (_get_preferred_services_for_content (content_type request))
    request id.

(** The basic OBJ cube, line breaks included. *)
Definition obj_cube : string :=
"# Placeholder 3D Model
v -1.0 -1.0  1.0
v  1.0 -1.0  1.0
v  1.0  1.0  1.0
v -1.0  1.0  1.0
v -1.0 -1.0 -1.0
v  1.0 -1.0 -1.0
v  1.0  1.0 -1.0
v -1.0  1.0 -1.0

f 1 2 3 4
f 8 7 6 5
f 4 3 7 8
f 5 1 4 8
f 5 6 2 1
f 2 6 7 3
".

Definition _generate_placeholder_content (request : ModelRequest) : string :=
  match preferred_format request with
  | OBJ => obj_cube
  | _ => ("# Placeholder 3D model for " ++ content_name request)%string
  end.

Definition _create_placeholder_model (W : World) (request : ModelRequest)
  (id : string) : A ModelMetadata :=
  directory <- get_content_dir request ;;
  let file_name := model_file_name id "_placeholder" request in
  let placeholder_content := _generate_placeholder_content request in
  write_text directory file_name placeholder_content ;;
  lift
    (ModelMetadata_init
       [ "model_id"; "name"; "description"; "source"; "format"; "file_path";
         "file_size"; "license_info"; "quality_score"; "tags" ]
       {| model_id := id;
          name := content_name request;
          description := ("Placeholder: " ++ content_description request)%string;
          source := PLACEHOLDER;
          format := preferred_format request;
          file_path := path_join directory file_name;
          file_size := Z.of_nat (String.length placeholder_content);
          created_at := now W;
          last_accessed := now W;
          license_info := VStr "Placeholder";
          attribution := VStr "";
          tags := [VStr "placeholder"; VStr (content_type request)];
          quality_score := 3 # 10;
          polycount := 0;
          texture_maps := [] |}).

(** *** The cache *)

Definition touch (t : Q) (m : ModelMetadata) : ModelMetadata :=
  {| model_id := model_id m; name := name m; description := description m;
     source := source m; format := format m; file_path := file_path m;
     file_size := file_size m; created_at := created_at m;
     last_accessed := t; license_info := license_info m;
     attribution := attribution m; tags := tags m;
     quality_score := quality_score m; polycount := polycount m;
     texture_maps := texture_maps m |}.

(** The acquisition chain of [get_or_create_model], after the cache
    lookup. *)
Definition create_model (W : World) (request : ModelRequest) (id : string)
  : A (option ModelMetadata) :=
  downloaded <- _try_download_online W request id ;;
  generated <- match downloaded with
               | Some metadata => ret (Some metadata)
               | None => _try_ai_generation W request id
               end ;;
  metadata <- match generated with
              | Some metadata => ret metadata
              | None => _create_placeholder_model W request id
              end ;;
  modify (set_model_cache (dict_set id metadata)) ;;
  save_metadata ;;
  ret (Some metadata).

Definition get_or_create_model (W : World) (request : ModelRequest)
  : A (option ModelMetadata) :=
  fun a =>
    let id := generate_model_id W (content_name request) (content_type request) in
    match dict_get id (model_cache a) with
    | Some metadata =>
        if path_exists (file_path metadata) a then
          let metadata := touch (now W) metadata in
          (modify (set_model_cache (dict_set id metadata)) ;;
           ret (Some metadata)) a
        else
          create_model W request id (set_model_cache (dict_del id) a)
    | None => create_model W request id a
    end.

(** *** Housekeeping *)

(** What [cleanup_old_models] meets beyond [World]: Python's arithmetic
    on floats, which rounds, and the files the operating system refuses
    to remove. *)
Record Housekeeping : Type := {
  (** [a - b] on two floats. *)
  float_sub : Q -> Q -> Q;
  (** [a / b] on two ints. *)
  true_div : Z -> Z -> Q;
  unlink_raises : string -> bool
}.

(** [_remove_model]: [unlink(missing_ok=True)] inside a bare [except],
    then the cache entry goes. The trace has no entry for a removal. *)
Definition _remove_model (H : Housekeeping) (id : string) : A unit :=
  fun a =>
    match dict_get id (model_cache a) with
    | None => ret tt a
    | Some metadata =>
        (modify (fun a1 =>
                   if unlink_raises H (file_path metadata) then a1
                   else set_files (dict_del (file_path metadata)) a1) ;;
         modify (set_model_cache (dict_del id))) a
    end.

(** [age > max_age_seconds] for one model. *)
Definition expired (W : World) (H : Housekeeping) (max_age_days : Z)
  (metadata : ModelMetadata) : bool :=
  let max_age_seconds := max_age_days * 24 * 60 * 60 in
  let age := float_sub H (now W) (last_accessed metadata) in
  Qlt_bool (inject_Z max_age_seconds) age.

(** [sorted(items, key=lambda x: x[1].last_accessed)]: the sort is
    stable. *)
Fixpoint insert_by_access (entry : string * ModelMetadata)
  (sorted : list (string * ModelMetadata)) : list (string * ModelMetadata) :=
  match sorted with
  | [] => [entry]
  | other :: rest =>
      if Qle_bool (last_accessed (snd entry)) (last_accessed (snd other))
      then entry :: sorted
      else other :: insert_by_access entry rest
  end.

Definition sorted_by_access (items : list (string * ModelMetadata))
  : list (string * ModelMetadata) :=
  fold_right insert_by_access [] items.

(** The second loop of [cleanup_old_models], from one entry of
    [sorted_models] on. *)
Fixpoint evict (H : Housekeeping) (total_size_mb : Q) (max_cache_size_mb : Z)
  (removed_size : Z) (sorted_models : list (string * ModelMetadata)) : A unit :=
  match sorted_models with
  | [] => ret tt
  | (id, metadata) :: rest =>
      if Qle_bool
           (float_sub H total_size_mb (true_div H removed_size (1024 * 1024)))
           (inject_Z max_cache_size_mb)
      then ret tt
      else
        _remove_model H id ;;
        evict H total_size_mb max_cache_size_mb
          (removed_size + file_size metadata) rest
  end.

Definition cleanup_old_models (W : World) (H : Housekeeping)
  (max_age_days max_cache_size_mb : Z) : A unit :=
  fun a =>
    let total_size :=
      fold_left (fun total entry => total + file_size (snd entry))
        (model_cache a) 0 in
    let models_to_remove :=
      map fst (filter (fun entry => expired W H max_age_days (snd entry))
                 (model_cache a)) in
    (for_each models_to_remove (_remove_model H) ;;
     let total_size_mb := true_div H total_size (1024 * 1024) in
     (if Qlt_bool (inject_Z max_cache_size_mb) total_size_mb then
        fun a1 =>
          evict H total_size_mb max_cache_size_mb 0
            (sorted_by_access (model_cache a1)) a1
      else ret tt) ;;
     save_metadata) a.

End AI3DModelAgent.

(* ================================================================= *)
(** ** Notions used to state the properties *)

(** An end of an interval of the rationals: the bound and whether it
    belongs to the interval. *)
Definition Bound : Type := option (Q * bool).

Definition above (b : Bound) (v : Q) : Prop :=
  match b with
  | None => True
  | Some (q, true) => (q <= v)%Q
  | Some (q, false) => (q < v)%Q
  end.

Definition below (b : Bound) (v : Q) : Prop :=
  match b with
  | None => True
  | Some (q, true) => (v <= q)%Q
  | Some (q, false) => (v < q)%Q
  end.

(** An axis-parallel rectangle of the (x, z) plane, possibly unbounded. *)
Record Rectangle : Type := {
  x_from : Bound; x_to : Bound;
  z_from : Bound; z_to : Bound
}.

Definition in_rectangle (R : Rectangle) (x z : Q) : Prop :=
  above (x_from R) x /\ below (x_to R) x /\ above (z_from R) z /\ below (z_to R) z.

(** The zone of each region under the default boundaries. *)
Definition zone (r : Region) : Rectangle :=
  match r with
  | DUST_PLAINS =>
      {| x_from := None; x_to := Some (-200 # 1, false);
         z_from := None; z_to := None |}
  | OCEAN_FRONTIER =>
      {| x_from := Some (200 # 1, false); x_to := None;
         z_from := None; z_to := None |}
  | HIMALAYAN_PEAKS =>
      {| x_from := Some (-200 # 1, true); x_to := Some (200 # 1, true);
         z_from := Some (200 # 1, false); z_to := None |}
  | NARMADA_FOREST =>
      {| x_from := Some (-200 # 1, true); x_to := Some (200 # 1, true);
         z_from := None; z_to := Some (-100 # 1, false) |}
  | INDRAPURA_CITY =>
      {| x_from := Some (-200 # 1, true); x_to := Some (200 # 1, true);
         z_from := Some (-100 # 1, true); z_to := Some (200 # 1, true) |}
  end.

(** A server whose configuration is the one the dataclasses default to. *)
Definition has_default_boundaries (s : IntegratedAncientBharatServer.Server)
  : Prop :=
  ConfigManager.world_config (IntegratedAncientBharatServer.config s)
  = ConfigManager.default_WorldConfig.

(** A server with the default configuration and nobody connected. *)
Definition empty_server : IntegratedAncientBharatServer.Server :=
  {| IntegratedAncientBharatServer.config := ConfigManager.default;
     IntegratedAncientBharatServer.data_manager :=
       {| GameDataManager.player_data := [];
          GameDataManager.world_state := VDict [];
          GameDataManager.quest_progress := VDict [];
          GameDataManager.npc_states := VDict [] |};
     IntegratedAncientBharatServer.connected_players := [];
     IntegratedAncientBharatServer.chat_history := [];
     IntegratedAncientBharatServer.sent := [];
     IntegratedAncientBharatServer.disk := [] |}.

(** The players a broadcast leaves connected: those whose socket takes
    the frame. *)
Definition live (E : IntegratedAncientBharatServer.Env)
  (d : pydict IntegratedAncientBharatServer.Player)
  : pydict IntegratedAncientBharatServer.Player :=
  filter (fun entry => negb (IntegratedAncientBharatServer.send_fails E (snd entry))) d.

(** The ids [send_to_each] collects. *)
Definition failed_ids (E : IntegratedAncientBharatServer.Env)
  (skip : string -> bool) (items : pydict IntegratedAncientBharatServer.Player)
  : list string :=
  map fst
    (filter (fun entry =>
               negb (skip (fst entry))
               && IntegratedAncientBharatServer.send_fails E (snd entry))
       items).

(** The dictionary of connected players as [connect_player] builds it:
    keys are distinct and each is the id of the player stored under it. *)
Definition players_wf (d : pydict IntegratedAncientBharatServer.Player) : Prop :=
  dict_wf d
  /\ forall pid p, In (pid, p) d -> IntegratedAncientBharatServer.player_id p = pid.

Definition is_player_left (v : pyval) : Prop :=
  exists pid p, v = IntegratedAncientBharatServer.player_left pid p.

(** [s'] is [s] with some frames delivered, each satisfying [allowed]. *)
Definition only_sent (allowed : pyval -> Prop)
  (s s' : IntegratedAncientBharatServer.Server) : Prop :=
  IntegratedAncientBharatServer.config s' = IntegratedAncientBharatServer.config s
  /\ IntegratedAncientBharatServer.data_manager s'
     = IntegratedAncientBharatServer.data_manager s
  /\ IntegratedAncientBharatServer.connected_players s'
     = IntegratedAncientBharatServer.connected_players s
  /\ IntegratedAncientBharatServer.chat_history s'
     = IntegratedAncientBharatServer.chat_history s
  /\ IntegratedAncientBharatServer.disk s' = IntegratedAncientBharatServer.disk s
  /\ exists frames,
       IntegratedAncientBharatServer.sent s'
       = IntegratedAncientBharatServer.sent s ++ frames
       /\ Forall (fun f => allowed (snd f)) frames.

(** What pruning dead connections may change: progress is saved only
    under the ids of players whose socket is dead, and the frames
    delivered satisfy [allowed]. *)
Definition pruning_frame (E : IntegratedAncientBharatServer.Env)
  (allowed : pyval -> Prop) (s s' : IntegratedAncientBharatServer.Server) : Prop :=
  IntegratedAncientBharatServer.config s' = IntegratedAncientBharatServer.config s
  /\ IntegratedAncientBharatServer.chat_history s'
     = IntegratedAncientBharatServer.chat_history s
  /\ IntegratedAncientBharatServer.disk s' = IntegratedAncientBharatServer.disk s
  /\ (forall k,
        (forall pid p,
           In (pid, p) (IntegratedAncientBharatServer.connected_players s) ->
           IntegratedAncientBharatServer.send_fails E p = true ->
           IntegratedAncientBharatServer.player_id p <> k) ->
        dict_get k (GameDataManager.player_data
                      (IntegratedAncientBharatServer.data_manager s'))
        = dict_get k (GameDataManager.player_data
                        (IntegratedAncientBharatServer.data_manager s)))
  /\ exists frames,
       IntegratedAncientBharatServer.sent s'
       = IntegratedAncientBharatServer.sent s ++ frames
       /\ Forall (fun f => allowed (snd f)) frames.

(** The frames a broadcast of [data] delivers: [data] itself and the
    departure notices of the players it drops. *)
Definition broadcast_frames (data : pyval) (v : pyval) : Prop :=
  v = data \/ is_player_left v.

(** The coroutine [m], started on [s], ends (returning or raising) in an
    outcome and an object that satisfy [Q]. *)
Definition runs {S A} (m : Co S A) (s : S) (Q : result A -> S -> Prop) : Prop :=
  exists r s', m s = Some (r, s') /\ Q r s'.

(** The entry the data manager keeps for a player that disconnects. *)
Definition saved_progress (E : IntegratedAncientBharatServer.Env)
  (p : IntegratedAncientBharatServer.Player) : pyval :=
  VDict
    [ ("name", VStr (IntegratedAncientBharatServer.name p));
      ("level", VInt (IntegratedAncientBharatServer.level p));
      ("experience", VInt (IntegratedAncientBharatServer.experience p));
      ("regions_visited",
       VList (map VStr (IntegratedAncientBharatServer.regions_visited p)));
      ("quests_completed", VList []);
      ("npc_reputation", VDict []);
      ("last_position",
       Position_asdict (IntegratedAncientBharatServer.position p));
      ("play_time", VInt 0);
      ("last_login", VNum (Fin (IntegratedAncientBharatServer.time_time E))) ].



(** [a'] is [a] with more done to the outside and nothing else changed:
    the cache is the same and every path that existed still does. *)
Definition grows (a a' : AI3DModelAgent.Agent) : Prop :=
  AI3DModelAgent.model_cache a' = AI3DModelAgent.model_cache a
  /\ AI3DModelAgent.models_dir a' = AI3DModelAgent.models_dir a
  /\ AI3DModelAgent.directories a' = AI3DModelAgent.directories a
  /\ forall path, AI3DModelAgent.path_exists path a = true ->
                  AI3DModelAgent.path_exists path a' = true.

(** The outcome of an acquisition step: it never raises, touches only
    the outside, and a record it returns names a file that exists. *)
Definition acquired (a : AI3DModelAgent.Agent)
  (r : result (option AI3DModelAgent.ModelMetadata))
  (a' : AI3DModelAgent.Agent) : Prop :=
  grows a a'
  /\ (exists found, r = Ok found)
  /\ forall m, r = Ok (Some m) ->
               AI3DModelAgent.path_exists (AI3DModelAgent.file_path m) a' = true.

(** Every player of [s] whose socket is dead has its progress, as it was
    in [s], on record in [s']. *)
Definition progress_saved (E : IntegratedAncientBharatServer.Env)
  (s s' : IntegratedAncientBharatServer.Server) : Prop :=
  players_wf (IntegratedAncientBharatServer.connected_players s) ->
  forall pid p,
    In (pid, p) (IntegratedAncientBharatServer.connected_players s) ->
    IntegratedAncientBharatServer.send_fails E p = true ->
    dict_get pid (GameDataManager.player_data
                    (IntegratedAncientBharatServer.data_manager s'))
    = Some (saved_progress E p).

(** [s'] is [s] after its dead connections were pruned. *)
Definition pruned (E : IntegratedAncientBharatServer.Env)
  (allowed : pyval -> Prop) (s s' : IntegratedAncientBharatServer.Server) : Prop :=
  IntegratedAncientBharatServer.connected_players s'
  = live E (IntegratedAncientBharatServer.connected_players s)
  /\ progress_saved E s s'
  /\ pruning_frame E allowed s s'.

(** *** The first server *)

(** The sockets of a list that take a frame, in the order of the list. *)
Definition accepting (E : AncientBharatServer.Env)
  (sockets : list AncientBharatServer.WebSocket)
  : list AncientBharatServer.WebSocket :=
  filter (fun w => negb (AncientBharatServer.send_raises E w)) sockets.

(** One frame for each socket of a list. *)
Definition delivered (message : pyval)
  (sockets : list AncientBharatServer.WebSocket)
  : list (AncientBharatServer.WebSocket * pyval) :=
  map (fun w => (w, message)) sockets.


(** *** Connecting *)

(** Stored progress whose name, level, experience and visited regions
    are of the kinds the [Player] record holds. *)
Definition typed_progress (player_name : string) (stored : pyval) : Prop :=
  forall fields,
    stored = VDict fields ->
    IntegratedAncientBharatServer.read_profile
      (dict_get_or "name" (VStr player_name) fields)
      (dict_get_or "level" (VInt 1) fields)
      (dict_get_or "experience" (VInt 0) fields)
      (dict_get_or "regions_visited" (VList [VStr "ocean_frontier"]) fields)
    <> None.

(** A frame that announces an arrival or a departure. *)
Definition is_arrival_or_departure
  (f : IntegratedAncientBharatServer.WebSocket * pyval) : Prop :=
  IntegratedAncientBharatServer.frame_type f = VStr "player_joined"
  \/ IntegratedAncientBharatServer.frame_type f = VStr "player_left".

(** An arrival that is accepted into a world without objects. *)
Definition quiet_arrival : IntegratedAncientBharatServer.Arrival :=
  {| IntegratedAncientBharatServer.accept_raises := fun _ => None;
     IntegratedAncientBharatServer.get_world_objects := fun _ _ _ => Ok [] |}.

(** *** Delivery *)

(** The sockets of the players of a dictionary, in its order. *)
Definition sockets_of (d : pydict IntegratedAncientBharatServer.Player)
  : list IntegratedAncientBharatServer.WebSocket :=
  flat_map (fun entry =>
              match IntegratedAncientBharatServer.websocket (snd entry) with
              | Some w => [w]
              | None => []
              end) d.

(** One frame of [data] on each socket. *)
Definition one_each (data : pyval)
  (sockets : list IntegratedAncientBharatServer.WebSocket)
  : list (IntegratedAncientBharatServer.WebSocket * pyval) :=
  map (fun w => (w, data)) sockets.


(** *** The model cache *)

(** The content types [_get_preferred_services_for_content] has a list
    of services for. *)
Definition preferred_content_types : list string :=
  ["weapon"; "beast"; "divine_entity"; "character"; "environment"; "prop"].

(** The bytes a cache accounts for. *)
Definition cache_size (cache : pydict AI3DModelAgent.ModelMetadata) : Z :=
  fold_right (fun entry total => AI3DModelAgent.file_size (snd entry) + total)
    0 cache.

(** Every entry of [cache'] is an entry of [cache]. *)
Definition sub_cache (cache' cache : pydict AI3DModelAgent.ModelMetadata) : Prop :=
  forall id m, dict_get id cache' = Some m -> dict_get id cache = Some m.

(** [a'] is [a] with some models taken out of the cache. *)
Definition kept (a a' : AI3DModelAgent.Agent) : Prop :=
  dict_wf (AI3DModelAgent.model_cache a')
  /\ sub_cache (AI3DModelAgent.model_cache a') (AI3DModelAgent.model_cache a)
  /\ AI3DModelAgent.models_dir a' = AI3DModelAgent.models_dir a
  /\ AI3DModelAgent.directories a' = AI3DModelAgent.directories a.

(** The first entry was last accessed no later than the second. *)
Definition by_access (e1 e2 : string * AI3DModelAgent.ModelMetadata) : Prop :=
  (AI3DModelAgent.last_accessed (snd e1)
   <= AI3DModelAgent.last_accessed (snd e2))%Q.

(** The models of a cache that [cleanup_old_models] does not find too
    old. *)
Definition unexpired (W : AI3DModelAgent.World) (H : AI3DModelAgent.Housekeeping)
  (max_age_days : Z) (cache : pydict AI3DModelAgent.ModelMetadata)
  : pydict AI3DModelAgent.ModelMetadata :=
  filter (fun entry =>
            negb (AI3DModelAgent.expired W H max_age_days (snd entry)))
    cache.

(** Housekeeping in exact arithmetic, on a file system that lets every
    file go. *)
Definition exact_housekeeping : AI3DModelAgent.Housekeeping :=
  {| AI3DModelAgent.float_sub := Qminus;
     AI3DModelAgent.true_div := fun a b => (inject_Z a / inject_Z b)%Q;
     AI3DModelAgent.unlink_raises := fun _ => false |}.

(** *** Sample worlds *)

(** An environment in which the sockets of [dead] raise, the other game
    systems have nothing to offer and the expansion handlers do nothing. *)
Definition quiet_env (dead : IntegratedAncientBharatServer.WebSocket -> bool)
  : IntegratedAncientBharatServer.Env :=
  {| IntegratedAncientBharatServer.time_time := 1700000000 # 1;
     IntegratedAncientBharatServer.send_raises := dead;
     IntegratedAncientBharatServer.file_writable := fun _ => true;
     IntegratedAncientBharatServer.get_nearby_objects := fun _ _ _ => Ok [];
     IntegratedAncientBharatServer.get_available_quests := fun _ _ _ => Ok [];
     IntegratedAncientBharatServer.start_player_quest := fun _ _ => Ok false;
     IntegratedAncientBharatServer.update_player_quest :=
       fun _ _ _ _ => Ok false;
     IntegratedAncientBharatServer.interact_with_npc :=
       fun _ _ _ _ => Ok (VStr "Namaste");
     IntegratedAncientBharatServer.get_npcs_in_region := fun _ => Ok [];
     IntegratedAncientBharatServer.record_npc_interaction :=
       fun _ _ _ => ret tt;
     IntegratedAncientBharatServer.handle_voice_chat := fun _ _ => ret tt;
     IntegratedAncientBharatServer.handle_karma_action := fun _ _ => ret tt;
     IntegratedAncientBharatServer.handle_npc_voice_interaction :=
       fun _ _ => ret tt;
     IntegratedAncientBharatServer.handle_procedural_content_request :=
       fun _ _ => ret tt;
     IntegratedAncientBharatServer.handle_3d_model_request :=
       fun _ _ => ret tt |}.

(** A level-one player standing at (x, 2, z), as [connect_player] would
    create it from fresh progress. *)
Definition sample_player (pid : string)
  (w : IntegratedAncientBharatServer.WebSocket) (x z : Z) (r : Region)
  : IntegratedAncientBharatServer.Player :=
  {| IntegratedAncientBharatServer.player_id := pid;
     IntegratedAncientBharatServer.name := ("Player_" ++ pid)%string;
     IntegratedAncientBharatServer.position :=
       {| pos_x := VInt x; pos_y := VInt 2; pos_z := VInt z |};
     IntegratedAncientBharatServer.current_region := r;
     IntegratedAncientBharatServer.websocket := Some w;
     IntegratedAncientBharatServer.last_active := 0;
     IntegratedAncientBharatServer.level := 1;
     IntegratedAncientBharatServer.experience := 0;
     IntegratedAncientBharatServer.regions_visited := ["ocean_frontier"] |}.

(** Three players in the city, on sockets 1, 2 and 3. *)
Definition three_players : IntegratedAncientBharatServer.Server :=
  IntegratedAncientBharatServer.set_connected_players
    (fun _ => [ ("asha", sample_player "asha" 1%nat 0 0 INDRAPURA_CITY);
                ("bhima", sample_player "bhima" 2%nat 10 10 INDRAPURA_CITY);
                ("chitra", sample_player "chitra" 3%nat 20 (-20) INDRAPURA_CITY) ])
    empty_server.

(** Sockets 2 and 3 are dead. *)
Definition two_dead (w : IntegratedAncientBharatServer.WebSocket) : bool :=
  (2 <=? w)%nat.

(** The three players with two lines of chat behind them, on a server
    configured to keep two. *)
Definition short_memory : IntegratedAncientBharatServer.Server :=
  {| IntegratedAncientBharatServer.config :=
       {| ConfigManager.server_config :=
            {| ConfigManager.max_players := 100;
               ConfigManager.auto_save_interval := 300;
               ConfigManager.max_chat_history := 2 |};
          ConfigManager.world_config := ConfigManager.default_WorldConfig |};
     IntegratedAncientBharatServer.data_manager :=
       IntegratedAncientBharatServer.data_manager empty_server;
     IntegratedAncientBharatServer.connected_players :=
       IntegratedAncientBharatServer.connected_players three_players;
     IntegratedAncientBharatServer.chat_history :=
       [ IntegratedAncientBharatServer.chat_message (quiet_env two_dead) "asha"
           (sample_player "asha" 1%nat 0 0 INDRAPURA_CITY) "first";
         IntegratedAncientBharatServer.chat_message (quiet_env two_dead) "asha"
           (sample_player "asha" 1%nat 0 0 INDRAPURA_CITY) "second" ];
     IntegratedAncientBharatServer.sent := [];
     IntegratedAncientBharatServer.disk := [] |}.

(** A world without network, OpenAI, Replicate or Blender. The string
    functions are given on the texts the samples pass to them. *)
Definition offline_world : AI3DModelAgent.World :=
  {| AI3DModelAgent.now := 1700000000 # 1;
     AI3DModelAgent.md5_hexdigest :=
       fun text =>
         if String.eqb text "weapon_Burning Ether Sword"
         then "97dec9344c6a51188104680f32faf2de"
         else "d41d8cd98f00b204e9800998ecf8427e";
     AI3DModelAgent.str_lower :=
       fun text =>
         if String.eqb text "Burning Ether Sword" then "burning ether sword"
         else text;
     AI3DModelAgent.str_split :=
       fun text =>
         if String.eqb text "burning ether sword"
         then ["burning"; "ether"; "sword"]
         else [text];
     AI3DModelAgent.str_replace_underscores := fun text => text;
     AI3DModelAgent.str_of :=
       fun v => match v with VStr text => text | _ => "None" end;
     AI3DModelAgent.HAS_OPENAI := false;
     AI3DModelAgent.HAS_REPLICATE := false;
     AI3DModelAgent.blender_available := false;
     AI3DModelAgent.sketchfab_search := fun _ => None |}.

(** The first request of the agent's own test. *)
Definition sword_request : AI3DModelAgent.ModelRequest :=
  {| AI3DModelAgent.content_type := "weapon";
     AI3DModelAgent.content_name := "Burning Ether Sword";
     AI3DModelAgent.content_description :=
       "A mystical sword forged from ethereal flames";
     AI3DModelAgent.style_preferences :=
       [("style", VStr "fantasy"); ("color", VStr "red_orange")];
     AI3DModelAgent.quality_level := "medium";
     AI3DModelAgent.max_polycount := 10000;
     AI3DModelAgent.preferred_format := AI3DModelAgent.GLB |}.

(** A fresh agent in local mode: the model directories exist and are
    empty. *)
Definition local_agent : AI3DModelAgent.Agent :=
  {| AI3DModelAgent.models_dir := "game_data/3d_models";
     AI3DModelAgent.model_cache := [];
     AI3DModelAgent.files := [];
     AI3DModelAgent.directories :=
       [ "game_data/3d_models"; "game_data/3d_models/weapons";
         "game_data/3d_models/beasts"; "game_data/3d_models/divine_entities";
         "game_data/3d_models/environments"; "game_data/3d_models/props";
         "game_data/3d_models/cache" ];
     AI3DModelAgent.trace := [] |}.

(** A record for the sword as [load_metadata] may find it in
    [models_metadata.json]: downloaded once, to a file that is gone. *)
Definition downloaded_sword : AI3DModelAgent.ModelMetadata :=
  {| AI3DModelAgent.model_id := "weapon_97dec934";
     AI3DModelAgent.name := "Burning Ether Sword";
     AI3DModelAgent.description :=
       "Downloaded from sketchfab: A mystical sword forged from ethereal flames";
     AI3DModelAgent.source := AI3DModelAgent.DOWNLOADED_ONLINE;
     AI3DModelAgent.format := AI3DModelAgent.GLB;
     AI3DModelAgent.file_path := "game_data/3d_models/weapons/weapon_97dec934.glb";
     AI3DModelAgent.file_size := 1024;
     AI3DModelAgent.created_at := 1600000000 # 1;
     AI3DModelAgent.last_accessed := 1600000000 # 1;
     AI3DModelAgent.license_info := VStr "Unknown";
     AI3DModelAgent.attribution := VStr "";
     AI3DModelAgent.tags := [VStr "weapon"];
     AI3DModelAgent.quality_score := 7 # 10;
     AI3DModelAgent.polycount := 0;
     AI3DModelAgent.texture_maps := [] |}.

(** The local agent with that record in its cache. *)
Definition stale_agent : AI3DModelAgent.Agent :=
  AI3DModelAgent.set_model_cache
    (fun _ => [("weapon_97dec934", downloaded_sword)]) local_agent.

(** The same cache in an agent whose model directories do not exist. *)
Definition stale_agent_without_directories : AI3DModelAgent.Agent :=
  {| AI3DModelAgent.models_dir := "game_data/3d_models";
     AI3DModelAgent.model_cache := [("weapon_97dec934", downloaded_sword)];
     AI3DModelAgent.files := [];
     AI3DModelAgent.directories := [];
     AI3DModelAgent.trace := [] |}.

(** A placeholder of [size] bytes, last used at [accessed]. *)
Definition cached_model (id : string) (size : Z) (accessed : Q)
  : AI3DModelAgent.ModelMetadata :=
  {| AI3DModelAgent.model_id := id;
     AI3DModelAgent.name := id;
     AI3DModelAgent.description := "";
     AI3DModelAgent.source := AI3DModelAgent.PLACEHOLDER;
     AI3DModelAgent.format := AI3DModelAgent.GLTF;
     AI3DModelAgent.file_path := ("game_data/3d_models/props/" ++ id ++ ".gltf")%string;
     AI3DModelAgent.file_size := size;
     AI3DModelAgent.created_at := accessed;
     AI3DModelAgent.last_accessed := accessed;
     AI3DModelAgent.license_info := VStr "Generated";
     AI3DModelAgent.attribution := VStr "";
     AI3DModelAgent.tags := [VStr "prop"];
     AI3DModelAgent.quality_score := 3 # 10;
     AI3DModelAgent.polycount := 0;
     AI3DModelAgent.texture_maps := [] |}.

Definition lamp : AI3DModelAgent.ModelMetadata :=
  cached_model "prop_lamp" 1048576 (1699999500 # 1).

Definition pot : AI3DModelAgent.ModelMetadata :=
  cached_model "prop_pot" 1048576 (1699999000 # 1).

(** The local agent with the old sword and two props of one megabyte
    each, used a few minutes ago, in its cache. *)
Definition crowded_agent : AI3DModelAgent.Agent :=
  AI3DModelAgent.set_model_cache
    (fun _ => [ ("weapon_97dec934", downloaded_sword);
                ("prop_lamp", lamp); ("prop_pot", pot) ])
    local_agent.

(** Two players of the first server; the socket of the second is dead. *)
Definition first_server_env : AncientBharatServer.Env :=
  {| AncientBharatServer.time_time := 1700000000 # 1;
     AncientBharatServer.send_raises := fun w => Nat.eqb w 2 |}.

Definition first_server_player (id : string) (w : nat) (x z : Z)
  (region : Region) : AncientBharatServer.Player :=
  {| AncientBharatServer.player_id := id;
     AncientBharatServer.name := id;
     AncientBharatServer.position :=
       {| pos_x := VInt x; pos_y := VInt 2; pos_z := VInt z |};
     AncientBharatServer.current_region := region;
     AncientBharatServer.websocket := Some w;
     AncientBharatServer.last_active := 0 |}.

Definition first_server : AncientBharatServer.Server :=
  {| AncientBharatServer.players :=
       [ ("asha", first_server_player "asha" 1 250 0 OCEAN_FRONTIER);
         ("bhima", first_server_player "bhima" 2 250 0 OCEAN_FRONTIER) ];
     AncientBharatServer.connections := [1%nat; 2%nat];
     AncientBharatServer.sent := [] |}.

(** The quiet environment with a quest system that accepts every start. *)
Definition questing_env (dead : IntegratedAncientBharatServer.WebSocket -> bool)
  : IntegratedAncientBharatServer.Env :=
  {| IntegratedAncientBharatServer.time_time := 1700000000 # 1;
     IntegratedAncientBharatServer.send_raises := dead;
     IntegratedAncientBharatServer.file_writable := fun _ => true;
     IntegratedAncientBharatServer.get_nearby_objects := fun _ _ _ => Ok [];
     IntegratedAncientBharatServer.get_available_quests := fun _ _ _ => Ok [];
     IntegratedAncientBharatServer.start_player_quest := fun _ _ => Ok true;
     IntegratedAncientBharatServer.update_player_quest :=
       fun _ _ _ _ => Ok false;
     IntegratedAncientBharatServer.interact_with_npc :=
       fun _ _ _ _ => Ok (VStr "Namaste");
     IntegratedAncientBharatServer.get_npcs_in_region := fun _ => Ok [];
     IntegratedAncientBharatServer.record_npc_interaction :=
       fun _ _ _ => ret tt;
     IntegratedAncientBharatServer.handle_voice_chat := fun _ _ => ret tt;
     IntegratedAncientBharatServer.handle_karma_action := fun _ _ => ret tt;
     IntegratedAncientBharatServer.handle_npc_voice_interaction :=
       fun _ _ => ret tt;
     IntegratedAncientBharatServer.handle_procedural_content_request :=
       fun _ _ => ret tt;
     IntegratedAncientBharatServer.handle_3d_model_request :=
       fun _ _ => ret tt |}.

(* ================================================================= *)
(** * Properties *)

(** ** Regions *)

Ltac qbool :=
  repeat match goal with
  | H : Qle_bool _ _ = true |- _ => apply Qle_bool_iff in H
  | H : Qle_bool _ _ = false |- _ =>
      apply not_true_iff_false in H; rewrite Qle_bool_iff in H
  end.

Lemma legacy_region_total (pos : Position) (x z : pynum) :
  pos_x pos = VNum x -> pos_z pos = VNum z ->
  exists r, AncientBharatServer.get_region_from_position pos = Ok r.
Proof.
  intros Hx Hz. unfold AncientBharatServer.get_region_from_position.
  rewrite Hx, Hz. unfold py_gt, py_lt, VInt. simpl.
  repeat match goal with
  | |- context [if ?b then _ else _] => destruct b
  end; eexists; reflexivity.
Qed.

Lemma integrated_agrees_with_legacy (s : IntegratedAncientBharatServer.Server)
  (x y z : pyval) :
  has_default_boundaries s ->
  IntegratedAncientBharatServer.get_region_from_position s x z
  = AncientBharatServer.get_region_from_position
      {| pos_x := x; pos_y := y; pos_z := z |}.
Proof.
  unfold has_default_boundaries. intros Hcfg.
  unfold IntegratedAncientBharatServer.get_region_from_position,
    AncientBharatServer.get_region_from_position,
    ConfigManager.is_in_region, IntegratedAncientBharatServer.if_.
  rewrite Hcfg. reflexivity.
Qed.

Lemma legacy_zone (r : Region) (x z : Q) (y : pyval) :
  AncientBharatServer.get_region_from_position
    {| pos_x := VNum (Fin x); pos_y := y; pos_z := VNum (Fin z) |} = Ok r
  <-> in_rectangle (zone r) x z.
Proof.
  unfold AncientBharatServer.get_region_from_position, py_gt, py_lt, VInt.
  simpl. unfold Qlt_bool.
  destruct (Qle_bool (inject_Z (-200)) x) eqn:H1;
  destruct (Qle_bool x (inject_Z 200)) eqn:H2;
  destruct (Qle_bool z (inject_Z 200)) eqn:H3;
  destruct (Qle_bool (inject_Z (-100)) z) eqn:H4;
  simpl; qbool; unfold inject_Z in *;
  (split;
   [ intros Hr; inversion Hr; subst; unfold in_rectangle; simpl;
     repeat split; try lra
   | destruct r; unfold in_rectangle; simpl; intros (Ha & Hb & Hc & Hd);
     try reflexivity; exfalso; lra ]).
Qed.

Lemma region_in_all_regions (r : Region) : In r all_regions.
Proof. destruct r; simpl; tauto. Qed.

(** C4. Both region-from-position functions send every pair of numeric
    coordinates to one of the five regions, and on the coordinate plane
    the points sent to a region are exactly those of its zone, a fixed
    axis-parallel rectangle (unbounded for the four outer regions). *)
Theorem region_zones_are_rectangles :
  (forall (x z : pynum) (y : pyval),
     exists r : Region,
       In r all_regions
       /\ AncientBharatServer.get_region_from_position
            {| pos_x := VNum x; pos_y := y; pos_z := VNum z |} = Ok r
       /\ forall s, has_default_boundaries s ->
            IntegratedAncientBharatServer.get_region_from_position s
              (VNum x) (VNum z) = Ok r)
  /\ (forall (r : Region) (x z : Q) (y : pyval),
        AncientBharatServer.get_region_from_position
          {| pos_x := VNum (Fin x); pos_y := y; pos_z := VNum (Fin z) |} = Ok r
        <-> in_rectangle (zone r) x z)
  /\ (forall (r : Region) (x z : Q) s,
        has_default_boundaries s ->
        (IntegratedAncientBharatServer.get_region_from_position s
           (VNum (Fin x)) (VNum (Fin z)) = Ok r
         <-> in_rectangle (zone r) x z)).
Proof.
  split; [| split].
  - intros x z y.
    destruct (legacy_region_total {| pos_x := VNum x; pos_y := y; pos_z := VNum z |}
                x z eq_refl eq_refl) as [r Hr].
    exists r. split; [apply region_in_all_regions |]. split; [exact Hr |].
    intros s Hs. rewrite (integrated_agrees_with_legacy s _ y _ Hs). exact Hr.
  - intros r x z y. apply legacy_zone.
  - intros r x z s Hs.
    rewrite (integrated_agrees_with_legacy s _ VNone _ Hs). apply legacy_zone.
Qed.

(** C8. With the default boundaries the two servers assign the same
    region to every position, whatever the coordinates hold (on values
    that cannot be ordered both raise the same error). *)
Theorem region_functions_agree (s : IntegratedAncientBharatServer.Server)
  (x y z : pyval) :
  has_default_boundaries s ->
  AncientBharatServer.get_region_from_position
    {| pos_x := x; pos_y := y; pos_z := z |}
  = IntegratedAncientBharatServer.get_region_from_position s x z.
Proof.
  intros Hs. symmetry. apply integrated_agrees_with_legacy. exact Hs.
Qed.

Lemma region_functions_agree_witness :
  has_default_boundaries empty_server
  /\ AncientBharatServer.get_region_from_position
       {| pos_x := VInt 250; pos_y := VInt 2; pos_z := VInt 0 |}
     = IntegratedAncientBharatServer.get_region_from_position empty_server
         (VInt 250) (VInt 0)
  /\ IntegratedAncientBharatServer.get_region_from_position empty_server
       (VInt 250) (VInt 0) = Ok OCEAN_FRONTIER.
Proof.
  split; [reflexivity |].
  split; [apply (region_functions_agree empty_server); reflexivity | reflexivity].
Defined.

(** ** Dictionaries *)

Section Dictionaries.

Context {V : Type}.
Implicit Types (d : pydict V) (k : string) (v : V).

Lemma dict_get_In d k v : dict_get k d = Some v -> In (k, v) d.
Proof.
  induction d as [| [k' v'] d IH]; simpl; [discriminate |].
  destruct (String.eqb_spec k k') as [-> | Hne]; intros H.
  - inversion H. now left.
  - right. now apply IH.
Qed.

Lemma dict_wf_tail d k v : dict_wf ((k, v) :: d) -> dict_wf d.
Proof. unfold dict_wf. simpl. intros H. now inversion H. Qed.

Lemma dict_wf_head d k v v' : dict_wf ((k, v) :: d) -> ~ In (k, v') d.
Proof.
  unfold dict_wf. simpl. intros H Hin. inversion H as [| ? ? Hnot _]. subst.
  apply Hnot. change k with (fst (k, v')). now apply in_map.
Qed.

Lemma dict_In_get d k v : dict_wf d -> In (k, v) d -> dict_get k d = Some v.
Proof.
  induction d as [| [k' v'] d IH]; simpl; [tauto |].
  intros Hwf [Heq | Hin].
  - inversion Heq. subst. now rewrite String.eqb_refl.
  - destruct (String.eqb_spec k k') as [-> | Hne].
    + exfalso. exact (dict_wf_head _ _ _ _ Hwf Hin).
    + apply IH; [exact (dict_wf_tail _ _ _ Hwf) | exact Hin].
Qed.

Lemma dict_get_set_same d k v : dict_get k (dict_set k v d) = Some v.
Proof.
  induction d as [| [k' v'] d IH]; simpl.
  - now rewrite String.eqb_refl.
  - destruct (String.eqb_spec k k') as [-> | Hne]; simpl.
    + now rewrite String.eqb_refl.
    + destruct (String.eqb_spec k k'); [contradiction | exact IH].
Qed.

Lemma dict_get_set_other d k k' v :
  k <> k' -> dict_get k (dict_set k' v d) = dict_get k d.
Proof.
  intros Hne. induction d as [| [k0 v0] d IH]; simpl.
  - destruct (String.eqb_spec k k'); [contradiction | reflexivity].
  - destruct (String.eqb_spec k' k0) as [-> | Hne0]; simpl.
    + destruct (String.eqb_spec k k0); [contradiction | reflexivity].
    + destruct (String.eqb_spec k k0); [reflexivity | exact IH].
Qed.

Lemma dict_keys_set_present d k v v0 :
  dict_get k d = Some v0 -> dict_keys (dict_set k v d) = dict_keys d.
Proof.
  induction d as [| [k' v'] d IH]; simpl; [discriminate |].
  destruct (String.eqb_spec k k') as [-> | Hne]; simpl; intros H.
  - reflexivity.
  - f_equal. now apply IH.
Qed.

Lemma dict_wf_set_present d k v v0 :
  dict_get k d = Some v0 -> dict_wf d -> dict_wf (dict_set k v d).
Proof.
  unfold dict_wf. intros Hget Hwf. now rewrite (dict_keys_set_present _ _ _ _ Hget).
Qed.

Lemma dict_length_set_present d k v v0 :
  dict_get k d = Some v0 -> List.length (dict_set k v d) = List.length d.
Proof.
  intros Hget. rewrite <- (length_map fst (dict_set k v d)), <- (length_map fst d).
  change (map fst (dict_set k v d)) with (dict_keys (dict_set k v d)).
  now rewrite (dict_keys_set_present _ _ _ _ Hget).
Qed.

Lemma dict_del_In d k k' v : In (k', v) (dict_del k d) -> In (k', v) d.
Proof.
  induction d as [| [k0 v0] d IH]; simpl; [tauto |].
  destruct (String.eqb_spec k k0) as [-> | Hne]; simpl.
  - now right.
  - intros [H | H]; [now left | right; now apply IH].
Qed.

Lemma dict_wf_del d k : dict_wf d -> dict_wf (dict_del k d).
Proof.
  induction d as [| [k0 v0] d IH]; simpl; [trivial |].
  intros Hwf. destruct (String.eqb_spec k k0) as [-> | Hne].
  - exact (dict_wf_tail _ _ _ Hwf).
  - unfold dict_wf in *. simpl in *. inversion Hwf as [| ? ? Hnot Hrest]. subst.
    constructor; [| now apply IH].
    intros Hin. apply Hnot. apply in_map_iff in Hin as [[k1 v1] [Hk Hin]].
    simpl in Hk. subst. change k0 with (fst (k0, v1)). apply in_map.
    exact (dict_del_In _ _ _ _ Hin).
Qed.

Lemma dict_get_del_same d k : dict_wf d -> dict_get k (dict_del k d) = None.
Proof.
  induction d as [| [k0 v0] d IH]; simpl; [trivial |].
  intros Hwf. destruct (String.eqb_spec k k0) as [-> | Hne]; simpl.
  - destruct (dict_get k0 d) eqn:Hget; [| reflexivity].
    exfalso. exact (dict_wf_head _ _ _ _ Hwf (dict_get_In _ _ _ Hget)).
  - destruct (String.eqb_spec k k0); [contradiction |].
    apply IH. exact (dict_wf_tail _ _ _ Hwf).
Qed.

Lemma dict_get_del_other d k k' :
  k <> k' -> dict_get k (dict_del k' d) = dict_get k d.
Proof.
  intros Hne. induction d as [| [k0 v0] d IH]; simpl; [trivial |].
  destruct (String.eqb_spec k' k0) as [-> | Hne0]; simpl.
  - destruct (String.eqb_spec k k0); [contradiction | reflexivity].
  - destruct (String.eqb_spec k k0); [reflexivity | exact IH].
Qed.

Lemma dict_length_del d k v :
  dict_get k d = Some v -> S (List.length (dict_del k d)) = List.length d.
Proof.
  induction d as [| [k0 v0] d IH]; simpl; [discriminate |].
  destruct (String.eqb_spec k k0) as [-> | Hne]; simpl; intros H.
  - reflexivity.
  - f_equal. now apply IH.
Qed.

Lemma dict_del_key_other d k k' v :
  dict_wf d -> In (k', v) (dict_del k d) -> k' <> k.
Proof.
  intros Hwf Hin Heq. subst k'.
  pose proof (dict_In_get _ _ _ (dict_wf_del _ k Hwf) Hin) as Hget.
  rewrite (dict_get_del_same _ _ Hwf) in Hget. discriminate.
Qed.

End Dictionaries.

(** ** Reasoning about coroutines *)

Section Coroutines.

Context {S : Type}.

Lemma runs_ret {A} (a : A) s (Q : result A -> S -> Prop) :
  Q (Ok a) s -> runs (ret a) s Q.
Proof. intros H. now exists (Ok a), s. Qed.

Lemma runs_raise {A} (e : exn) s (Q : result A -> S -> Prop) :
  Q (Raise e) s -> runs (raise e) s Q.
Proof. intros H. now exists (Raise e), s. Qed.

Lemma runs_lift {A} (r : result A) s (Q : result A -> S -> Prop) :
  Q r s -> runs (lift r) s Q.
Proof. intros H. destruct r; [now apply runs_ret | now apply runs_raise]. Qed.

Lemma runs_modify (f : S -> S) s (Q : result unit -> S -> Prop) :
  Q (Ok tt) (f s) -> runs (modify f) s Q.
Proof. intros H. now exists (Ok tt), (f s). Qed.

Lemma runs_bind {A B} (m : Co S A) (k : A -> Co S B) s
  (Q : result B -> S -> Prop) :
  runs m s (fun r s1 =>
              match r with
              | Ok a => runs (k a) s1 Q
              | Raise e => Q (Raise e) s1
              end) ->
  runs (bind m k) s Q.
Proof.
  intros (r & s1 & Hm & Hk). unfold runs, bind. rewrite Hm.
  destruct r as [a | e]; [exact Hk | now exists (Raise e), s1].
Qed.

Lemma runs_try_except {A} (body : Co S A) (handler : exn -> Co S A) s
  (Q : result A -> S -> Prop) :
  runs body s (fun r s1 =>
                 match r with
                 | Ok a => Q (Ok a) s1
                 | Raise e => runs (handler e) s1 Q
                 end) ->
  runs (try_except body handler) s Q.
Proof.
  intros (r & s1 & Hm & Hk). unfold runs, try_except. rewrite Hm.
  destruct r as [a | e]; [now exists (Ok a), s1 | exact Hk].
Qed.

Lemma runs_ext {A} (m m' : Co S A) s (Q : result A -> S -> Prop) :
  m s = m' s -> runs m' s Q -> runs m s Q.
Proof. unfold runs. now intros ->. Qed.

Lemma runs_bind_with {A B} (m : Co S A) (k : A -> Co S B) s
  (P : result A -> S -> Prop) (Q : result B -> S -> Prop) :
  runs m s P ->
  (forall a s1, P (Ok a) s1 -> runs (k a) s1 Q) ->
  (forall e s1, P (Raise e) s1 -> Q (Raise e) s1) ->
  runs (bind m k) s Q.
Proof.
  intros (r & s1 & Hm & HP) Hok Hraise. unfold runs, bind. rewrite Hm.
  destruct r as [a | e]; [now apply Hok | exists (Raise e), s1; auto].
Qed.

Lemma runs_weaken {A} (m : Co S A) s (Q Q' : result A -> S -> Prop) :
  runs m s Q -> (forall r s', Q r s' -> Q' r s') -> runs m s Q'.
Proof. intros (r & s' & Hm & HQ) Himp. exists r, s'. auto. Qed.

End Coroutines.

(** ** Pruning dead connections *)

Section Pruning.

Import IntegratedAncientBharatServer.

Variable E : Env.

Implicit Types (s : Server) (d : pydict Player).

Lemma only_sent_refl allowed s : only_sent allowed s s.
Proof.
  repeat split. exists []. split; [now rewrite app_nil_r | constructor].
Qed.

Lemma only_sent_trans allowed s1 s2 s3 :
  only_sent allowed s1 s2 -> only_sent allowed s2 s3 -> only_sent allowed s1 s3.
Proof.
  intros (A1 & A2 & A3 & A4 & A5 & f1 & A6 & A7)
         (B1 & B2 & B3 & B4 & B5 & f2 & B6 & B7).
  repeat split; try congruence.
  exists (f1 ++ f2). split.
  - rewrite B6, A6. now rewrite app_assoc.
  - apply Forall_app. now split.
Qed.

Lemma only_sent_one allowed s w data :
  allowed data ->
  only_sent allowed s (set_sent (fun frames => frames ++ [(w, data)]) s).
Proof.
  intros Hok. repeat split. exists [(w, data)]. split; [reflexivity |].
  constructor; [exact Hok | constructor].
Qed.

Lemma only_sent_weaken (allowed allowed' : pyval -> Prop) s s' :
  (forall v, allowed v -> allowed' v) ->
  only_sent allowed s s' -> only_sent allowed' s s'.
Proof.
  intros Himp (A1 & A2 & A3 & A4 & A5 & f1 & A6 & A7).
  repeat split; try assumption. exists f1. split; [assumption |].
  eapply Forall_impl; [| exact A7]. intros f. apply Himp.
Qed.

(** A send either delivers the frame or raises, and changes nothing else. *)
Lemma send_text_spec ws data s :
  exists r s', send_text E ws data s = Some (r, s')
    /\ only_sent (eq data) s s'
    /\ (r = Ok tt <-> exists w, ws = Some w /\ send_raises E w = false).
Proof.
  unfold send_text. destruct ws as [w |].
  - destruct (send_raises E w) eqn:Hw.
    + eexists _, s. split; [reflexivity |]. split; [apply only_sent_refl |].
      split; [discriminate |]. intros (w' & Heq & Hw'). congruence.
    + eexists _, _. split; [reflexivity |].
      split; [now apply only_sent_one |].
      split; [| reflexivity]. intros _. now exists w.
  - eexists _, s. split; [reflexivity |]. split; [apply only_sent_refl |].
    split; [discriminate |]. intros (w' & Heq & _). discriminate.
Qed.

Lemma send_to_each_spec message skip items s :
  exists s',
    send_to_each E message skip items s
    = Some (Ok (failed_ids E skip items), s')
    /\ only_sent (eq message) s s'.
Proof.
  revert s. induction items as [| [pid player] items IH]; intros s; simpl.
  - exists s. split; [reflexivity | apply only_sent_refl].
  - unfold failed_ids. simpl. destruct (skip pid); simpl.
    + apply IH.
    + unfold bind, try_except, send_text, send_fails.
      destruct (websocket player) as [w |]; simpl.
      * destruct (send_raises E w); simpl.
        -- destruct (IH s) as (s' & Hrun & Hs). rewrite Hrun.
           exists s'. split; [reflexivity | exact Hs].
        -- destruct (IH (set_sent (fun frames => frames ++ [(w, message)]) s))
             as (s' & Hrun & Hs).
           rewrite Hrun. exists s'. split; [reflexivity |].
           eapply only_sent_trans; [| exact Hs]. now apply only_sent_one.
      * destruct (IH s) as (s' & Hrun & Hs). rewrite Hrun.
        exists s'. split; [reflexivity | exact Hs].
Qed.

(** *** The surviving players *)

Lemma live_get d k :
  dict_wf d ->
  dict_get k (live E d)
  = match dict_get k d with
    | Some p => if send_fails E p then None else Some p
    | None => None
    end.
Proof.
  induction d as [| [k0 p0] d IH]; simpl; [trivial |]. intros Hwf.
  assert (Hd : dict_wf d) by exact (dict_wf_tail _ _ _ Hwf).
  destruct (String.eqb_spec k k0) as [-> | Hne].
  - assert (Hnone : dict_get k0 d = None).
    { destruct (dict_get k0 d) eqn:Hget; [| reflexivity].
      exfalso. exact (dict_wf_head _ _ _ _ Hwf (dict_get_In _ _ _ Hget)). }
    destruct (send_fails E p0); simpl.
    + rewrite (IH Hd), Hnone. reflexivity.
    + now rewrite String.eqb_refl.
  - destruct (send_fails E p0); simpl.
    + exact (IH Hd).
    + destruct (String.eqb_spec k k0); [contradiction | exact (IH Hd)].
Qed.

Lemma live_In d k p : In (k, p) (live E d) -> In (k, p) d.
Proof. unfold live. intros H. now apply filter_In in H. Qed.

Lemma live_wf d : dict_wf d -> dict_wf (live E d).
Proof.
  induction d as [| [k0 p0] d IH]; simpl; [trivial |]. intros Hwf.
  assert (Hd : dict_wf d) by exact (dict_wf_tail _ _ _ Hwf).
  destruct (send_fails E p0); simpl; [now apply IH |].
  unfold dict_wf. simpl. constructor; [| now apply IH].
  intros Hin. apply in_map_iff in Hin as [[k1 p1] [Hk Hin]]. simpl in Hk. subst.
  exact (dict_wf_head _ _ _ _ Hwf (live_In _ _ _ Hin)).
Qed.

Lemma live_all d :
  filter (fun entry => negb false && send_fails E (snd entry)) d = [] ->
  live E d = d.
Proof.
  induction d as [| [k0 p0] d IH]; simpl; [trivial |].
  destruct (send_fails E p0); simpl; [discriminate |].
  intros H. f_equal. now apply IH.
Qed.

Lemma live_del d k p :
  dict_wf d -> In (k, p) d -> send_fails E p = true ->
  live E (dict_del k d) = live E d.
Proof.
  induction d as [| [k0 p0] d IH]; simpl; [tauto |]. intros Hwf Hin Hp.
  assert (Hd : dict_wf d) by exact (dict_wf_tail _ _ _ Hwf).
  destruct (String.eqb_spec k k0) as [-> | Hne].
  - destruct Hin as [Heq | Hin].
    + inversion Heq. subst. now rewrite Hp.
    + exfalso. exact (dict_wf_head _ _ _ _ Hwf Hin).
  - destruct Hin as [Heq | Hin]; [inversion Heq; congruence |].
    simpl. destruct (send_fails E p0); simpl; [| f_equal]; now apply IH.
Qed.

Lemma players_wf_live d : players_wf d -> players_wf (live E d).
Proof.
  intros [Hwf Hid]. split; [now apply live_wf |].
  intros pid p Hin. apply Hid. exact (live_In _ _ _ Hin).
Qed.

(** *** The two coroutines that call each other *)

Lemma for_each_gone (broadcast : pyval -> M unit) (ids : list string) s :
  (forall pid, In pid ids -> dict_get pid (connected_players s) = None) ->
  for_each ids (disconnect_player_with broadcast E) s = Some (Ok tt, s).
Proof.
  induction ids as [| pid ids IH]; intros Hgone; simpl; [reflexivity |].
  unfold bind, disconnect_player_with.
  rewrite (Hgone pid (or_introl eq_refl)). simpl.
  apply IH. intros pid' Hin. apply Hgone. now right.
Qed.

Lemma failed_ids_gone skip d pid :
  dict_wf d -> In pid (failed_ids E skip d) -> dict_get pid (live E d) = None.
Proof.
  intros Hwf Hin. unfold failed_ids in Hin.
  apply in_map_iff in Hin as [[k p] [Hk Hin]]. simpl in Hk. subst.
  apply filter_In in Hin as [Hin Hf]. simpl in Hf.
  apply andb_true_iff in Hf as [_ Hf].
  rewrite (live_get _ _ Hwf), (dict_In_get _ _ _ Hwf Hin), Hf. reflexivity.
Qed.

Lemma dict_del_In_other {V} (d : pydict V) (k k' : string) (v : V) :
  k' <> k -> In (k', v) d -> In (k', v) (dict_del k d).
Proof.
  intros Hne. induction d as [| [k0 v0] d IH]; simpl; [tauto |].
  destruct (String.eqb_spec k k0) as [-> | Hne0]; simpl.
  - intros [Heq | Hin]; [inversion Heq; congruence | exact Hin].
  - intros [Heq | Hin]; [now left | right; now apply IH].
Qed.

Lemma players_wf_del (d : pydict Player) (k : string) :
  players_wf d -> players_wf (dict_del k d).
Proof.
  intros [Hwf Hid]. split; [now apply dict_wf_del |].
  intros pid p Hin. apply Hid. exact (dict_del_In _ _ _ _ Hin).
Qed.

Lemma no_failure_no_dead (skip : string -> bool) (d : pydict Player)
  (pid : string) (p : Player) :
  failed_ids E skip d = [] -> In (pid, p) d -> skip pid = false ->
  send_fails E p = false.
Proof.
  unfold failed_ids. intros Hnone Hin Hskip.
  destruct (send_fails E p) eqn:Hp; [| reflexivity].
  assert (Hf : In (pid, p)
                 (filter (fun entry => negb (skip (fst entry))
                                       && send_fails E (snd entry)) d)).
  { apply filter_In. split; [exact Hin |]. simpl. now rewrite Hskip, Hp. }
  apply (in_map fst) in Hf. rewrite Hnone in Hf. contradiction.
Qed.

Lemma broadcast_to_all_fuel_spec (n : nat) :
  forall data s,
    dict_wf (connected_players s) ->
    (List.length (connected_players s) < n)%nat ->
    exists s',
      broadcast_to_all_fuel n E data s = Some (Ok tt, s')
      /\ pruned E (broadcast_frames data) s s'.
Proof.
  induction n as [| n IH]; intros data s Hwf Hlen; [lia |].
  simpl. unfold bind.
  destruct (send_to_each_spec data (fun _ => false) (connected_players s) s)
    as (s1 & Hsend & (C1 & D1 & P1 & H1 & K1 & fr1 & S1 & F1)).
  rewrite Hsend.
  destruct (failed_ids E (fun _ => false) (connected_players s))
    as [| f1 rest] eqn:Hfail.
  - (* every send went through *)
    simpl. exists s1. split; [reflexivity |].
    split; [rewrite P1; symmetry; apply live_all;
            unfold failed_ids in Hfail; now apply map_eq_nil in Hfail |].
    split.
    { intros _ pid p Hin Hdead.
      rewrite (no_failure_no_dead _ _ pid p Hfail Hin eq_refl) in Hdead.
      discriminate. }
    repeat split; try assumption.
    + intros k _. now rewrite D1.
    + exists fr1. split; [assumption |].
      eapply Forall_impl; [| exact F1]. intros f Hf. left. now symmetry.
  - (* the first dead socket takes every other one with it *)
    assert (Hin1 : exists p1, In (f1, p1) (connected_players s)
                              /\ send_fails E p1 = true).
    { assert (Hin : In f1 (failed_ids E (fun _ => false) (connected_players s)))
        by (rewrite Hfail; now left).
      unfold failed_ids in Hin. apply in_map_iff in Hin as [[k p] [Hk Hin]].
      simpl in Hk. subst. apply filter_In in Hin as [Hin Hf]. simpl in Hf.
      now exists p. }
    destruct Hin1 as (p1 & Hin1 & Hdead1).
    assert (Hget1 : dict_get f1 (connected_players s1) = Some p1).
    { rewrite P1. now apply dict_In_get. }
    simpl. unfold bind at 1. unfold disconnect_player_with at 1.
    rewrite Hget1. unfold bind at 1. unfold save_player_progress, modify at 1.
    unfold bind at 1. unfold modify at 1.
    set (s2 := set_connected_players (dict_del f1) _).
    assert (P2 : connected_players s2 = dict_del f1 (connected_players s)).
    { unfold s2. simpl. now rewrite P1. }
    destruct (IH (player_left f1 p1) s2)
      as (s3 & Hrun & P3 & V3 & C3 & H3 & K3 & D3 & fr3 & S3 & F3).
    { rewrite P2. now apply dict_wf_del. }
    { rewrite P2. rewrite P1 in Hget1.
      pose proof (dict_length_del _ _ _ Hget1). lia. }
    rewrite Hrun.
    assert (P3' : connected_players s3 = live E (connected_players s)).
    { rewrite P3, P2. now apply (live_del _ _ p1). }
    rewrite for_each_gone.
    2:{ intros pid Hin. rewrite P3'.
        apply (failed_ids_gone (fun _ => false) _ _ Hwf).
        rewrite Hfail. now right. }
    exists s3. split; [reflexivity |]. split; [exact P3' |].
    split.
    { (* what was saved *)
      intros Hpw pid p Hin Hdead. destruct Hpw as [_ Hid].
      destruct (String.eqb_spec pid f1) as [-> | Hne].
      - assert (p = p1) by
          (pose proof (dict_In_get _ _ _ Hwf Hin);
           pose proof (dict_In_get _ _ _ Hwf Hin1); congruence).
        subst p. rewrite D3.
        + unfold s2. simpl. rewrite (Hid f1 p1 Hin1).
          now rewrite dict_get_set_same.
        + intros pid' p' Hin' _ Heq. rewrite P2 in Hin'.
          apply (dict_del_key_other _ _ _ _ Hwf Hin').
          rewrite <- Heq. symmetry. apply Hid.
          exact (dict_del_In _ _ _ _ Hin').
      - apply V3.
        + rewrite P2. apply players_wf_del. split; [exact Hwf | exact Hid].
        + rewrite P2. now apply dict_del_In_other.
        + exact Hdead. }
    repeat split.
    + rewrite C3. unfold s2. simpl. exact C1.
    + rewrite H3. unfold s2. simpl. exact H1.
    + rewrite K3. unfold s2. simpl. exact K1.
    + intros k Hk. rewrite D3.
      * unfold s2. simpl. rewrite D1.
        apply dict_get_set_other. intros Heq. now apply (Hk f1 p1 Hin1 Hdead1).
      * intros pid p Hin Hdead. apply (Hk pid p); [| exact Hdead].
        rewrite P2 in Hin. exact (dict_del_In _ _ _ _ Hin).
    + exists (fr1 ++ fr3). split.
      * rewrite S3. unfold s2. simpl. rewrite S1. now rewrite app_assoc.
      * apply Forall_app. split.
        -- eapply Forall_impl; [| exact F1]. intros f Hf. left. now symmetry.
        -- eapply Forall_impl; [| exact F3]. intros f [Hf | Hf]; right;
             [rewrite Hf; now exists f1, p1 | exact Hf].
Qed.

Lemma runs_send_text ws data s :
  runs (send_text E ws data) s
    (fun r s' => only_sent (eq data) s s'
                 /\ (r = Ok tt <-> exists w, ws = Some w /\ send_raises E w = false)).
Proof.
  destruct (send_text_spec ws data s) as (r & s' & Hrun & Hs & Hr).
  now exists r, s'.
Qed.

(** *** The coroutines under their own names *)

Lemma pruning_frame_weaken (allowed allowed' : pyval -> Prop) s s' :
  (forall v, allowed v -> allowed' v) ->
  pruning_frame E allowed s s' -> pruning_frame E allowed' s s'.
Proof.
  intros Himp (HC & HH & HK & HD & fr & HS & HF).
  repeat split; try assumption. exists fr. split; [assumption |].
  eapply Forall_impl; [| exact HF]. intros f. apply Himp.
Qed.

Lemma broadcast_to_all_spec data s :
  dict_wf (connected_players s) ->
  runs (broadcast_to_all E data) s
    (fun r s' => r = Ok tt /\ pruned E (broadcast_frames data) s s').
Proof.
  intros Hwf. unfold broadcast_to_all.
  destruct (broadcast_to_all_fuel_spec (S (List.length (connected_players s)))
              data s Hwf) as (s' & Hrun & Hs); [lia |].
  exists (Ok tt), s'. auto.
Qed.

(** Disconnecting a connected player saves its progress, removes it and
    prunes every dead connection among the others. *)
Lemma disconnect_player_with_spec (n : nat) pid p s :
  dict_wf (connected_players s) ->
  dict_get pid (connected_players s) = Some p ->
  (List.length (connected_players s) <= n)%nat ->
  runs (disconnect_player_with (broadcast_to_all_fuel n E) E pid) s
    (fun r s' =>
       r = Ok tt
       /\ connected_players s' = live E (dict_del pid (connected_players s))
       /\ progress_saved E s s'
       /\ config s' = config s /\ chat_history s' = chat_history s
       /\ disk s' = disk s
       /\ (forall k,
             (forall pid' p', In (pid', p') (dict_del pid (connected_players s)) ->
                              send_fails E p' = true -> player_id p' <> k) ->
             dict_get k (GameDataManager.player_data (data_manager s'))
             = if String.eqb k (player_id p)
               then Some (saved_progress E p)
               else dict_get k (GameDataManager.player_data (data_manager s)))
       /\ exists frames, sent s' = sent s ++ frames
                         /\ Forall (fun f => is_player_left (snd f)) frames).
Proof.
  intros Hwf Hget Hlen. unfold runs, disconnect_player_with. rewrite Hget.
  unfold bind, save_player_progress, modify.
  set (s2 := set_connected_players (dict_del pid) _).
  destruct (broadcast_to_all_fuel_spec n (player_left pid p) s2)
    as (s3 & Hrun & P3 & V3 & C3 & H3 & K3 & D3 & fr3 & S3 & F3).
  { unfold s2. simpl. now apply dict_wf_del. }
  { unfold s2. simpl. pose proof (dict_length_del _ _ _ Hget). lia. }
  assert (Hpd : forall k,
             (forall pid' p', In (pid', p') (dict_del pid (connected_players s)) ->
                              send_fails E p' = true -> player_id p' <> k) ->
             dict_get k (GameDataManager.player_data (data_manager s3))
             = if String.eqb k (player_id p)
               then Some (saved_progress E p)
               else dict_get k (GameDataManager.player_data (data_manager s))).
  { intros k Hk. rewrite (D3 k Hk). unfold s2. simpl.
    destruct (String.eqb_spec k (player_id p)) as [-> | Hne].
    + rewrite dict_get_set_same. reflexivity.
    + now apply dict_get_set_other. }
  exists (Ok tt), s3. split; [exact Hrun |].
  split; [reflexivity |]. split; [exact P3 |].
  split.
  { intros Hpw pid' p' Hin Hdead. pose proof Hpw as [_ Hid].
    destruct (String.eqb_spec pid' pid) as [-> | Hne].
    - assert (p' = p) by
        (pose proof (dict_In_get _ _ _ Hwf Hin); congruence).
      subst p'. rewrite Hpd.
      + now rewrite (Hid pid p Hin), String.eqb_refl.
      + intros pid'' p'' Hin'' _ Heq.
        apply (dict_del_key_other _ _ _ _ Hwf Hin'').
        rewrite <- Heq. symmetry. apply Hid.
        exact (dict_del_In _ _ _ _ Hin'').
    - apply V3.
      + unfold s2. simpl. now apply players_wf_del.
      + unfold s2. simpl. now apply dict_del_In_other.
      + exact Hdead. }
  split; [exact C3 |]. split; [exact H3 |]. split; [exact K3 |].
  split; [exact Hpd |].
  exists fr3. split; [exact S3 |].
  eapply Forall_impl; [| exact F3].
  intros f [Hf | Hf]; [rewrite Hf; now exists pid, p | exact Hf].
Qed.

Lemma disconnect_player_absent pid s :
  dict_get pid (connected_players s) = None ->
  disconnect_player E pid s = Some (Ok tt, s).
Proof.
  intros Hget. unfold disconnect_player, disconnect_player_with.
  now rewrite Hget.
Qed.

Lemma for_each_disconnect_gone (ids : list string) s :
  (forall pid, In pid ids -> dict_get pid (connected_players s) = None) ->
  for_each ids (disconnect_player E) s = Some (Ok tt, s).
Proof.
  induction ids as [| pid ids IH]; intros Hgone; simpl; [reflexivity |].
  unfold bind. rewrite (disconnect_player_absent _ _ (Hgone pid (or_introl eq_refl))).
  apply IH. intros pid' Hin. apply Hgone. now right.
Qed.

(** A broadcast to the others either reaches everyone it tries, or
    prunes every dead connection, the sender's included. *)
Lemma broadcast_to_others_spec sender data s :
  dict_wf (connected_players s) ->
  runs (broadcast_to_others E sender data) s
    (fun r s' =>
       r = Ok tt
       /\ (connected_players s' = connected_players s
           \/ (connected_players s' = live E (connected_players s)
               /\ progress_saved E s s'))
       /\ pruning_frame E (broadcast_frames data) s s').
Proof.
  intros Hwf. unfold runs, broadcast_to_others, bind.
  destruct (send_to_each_spec data (String.eqb sender) (connected_players s) s)
    as (s1 & Hsend & (C1 & D1 & P1 & H1 & K1 & fr1 & S1 & F1)).
  rewrite Hsend.
  assert (F1' : Forall (fun f => broadcast_frames data (snd f)) fr1).
  { eapply Forall_impl; [| exact F1]. intros f Hf. left. now symmetry. }
  destruct (failed_ids E (String.eqb sender) (connected_players s))
    as [| f1 rest] eqn:Hfail.
  - exists (Ok tt), s1. split; [reflexivity |].
    split; [reflexivity |]. split; [now left |].
    repeat split; try assumption.
    + intros k _. now rewrite D1.
    + now exists fr1.
  - assert (Hin1 : exists p1, In (f1, p1) (connected_players s)
                              /\ send_fails E p1 = true).
    { assert (Hin : In f1 (failed_ids E (String.eqb sender) (connected_players s)))
        by (rewrite Hfail; now left).
      unfold failed_ids in Hin. apply in_map_iff in Hin as [[k p] [Hk Hin]].
      simpl in Hk. subst. apply filter_In in Hin as [Hin Hf]. simpl in Hf.
      apply andb_true_iff in Hf as [_ Hf]. now exists p. }
    destruct Hin1 as (p1 & Hin1 & Hdead1).
    assert (Hget1 : dict_get f1 (connected_players s1) = Some p1).
    { rewrite P1. now apply dict_In_get. }
    simpl. unfold bind at 1. unfold disconnect_player at 1.
    destruct (disconnect_player_with_spec (List.length (connected_players s1))
                f1 p1 s1)
      as (r & s3 & Hrun & -> & P3 & V3 & C3 & H3 & K3 & D3 & fr3 & S3 & F3).
    { now rewrite P1. }
    { exact Hget1. }
    { lia. }
    rewrite Hrun.
    assert (P3' : connected_players s3 = live E (connected_players s)).
    { rewrite P3, P1. now apply (live_del _ _ p1). }
    rewrite for_each_disconnect_gone.
    2:{ intros pid Hin. rewrite P3'.
        apply (failed_ids_gone (String.eqb sender) _ _ Hwf).
        rewrite Hfail. now right. }
    exists (Ok tt), s3. split; [reflexivity |].
    split; [reflexivity |]. split.
    { right. split; [exact P3' |].
      intros Hpw pid p Hin Hdead. apply V3; rewrite ?P1; assumption. }
    repeat split; try congruence.
    + intros k Hk. rewrite D3.
      * destruct (String.eqb_spec k (player_id p1)) as [-> | Hne].
        -- exfalso. now apply (Hk f1 p1 Hin1 Hdead1).
        -- now rewrite D1.
      * intros pid p Hin Hdead. apply (Hk pid p); [| exact Hdead].
        rewrite P1 in Hin. exact (dict_del_In _ _ _ _ Hin).
    + exists (fr1 ++ fr3). split.
      * rewrite S3, S1. now rewrite app_assoc.
      * apply Forall_app. split; [exact F1' |].
        eapply Forall_impl; [| exact F3]. intros f Hf. now right.
Qed.

End Pruning.

(** ** Broadcasting *)

Ltac prove_dict_wf :=
  unfold dict_wf; simpl;
  repeat (constructor; [simpl; intuition discriminate |]); constructor.

Ltac prove_players_wf :=
  split;
  [ prove_dict_wf
  | intros pid p Hin; simpl in Hin;
    repeat (destruct Hin as [Hin | Hin]; [inversion Hin; reflexivity |]);
    contradiction ].

(** C2. A broadcast to all never lets an exception out, drops from
    [connected_players] every player whose send raised and keeps every
    other player as it was. *)
Theorem broadcast_to_all_prunes_dead_connections
  (E : IntegratedAncientBharatServer.Env) (data : pyval)
  (s : IntegratedAncientBharatServer.Server) :
  dict_wf (IntegratedAncientBharatServer.connected_players s) ->
  exists s',
    IntegratedAncientBharatServer.broadcast_to_all E data s = Some (Ok tt, s')
    /\ (forall pid p,
          dict_get pid (IntegratedAncientBharatServer.connected_players s) = Some p ->
          IntegratedAncientBharatServer.send_fails E p = true ->
          dict_get pid (IntegratedAncientBharatServer.connected_players s') = None)
    /\ (forall pid p,
          dict_get pid (IntegratedAncientBharatServer.connected_players s) = Some p ->
          IntegratedAncientBharatServer.send_fails E p = false ->
          dict_get pid (IntegratedAncientBharatServer.connected_players s') = Some p)
    /\ (forall pid,
          dict_get pid (IntegratedAncientBharatServer.connected_players s) = None ->
          dict_get pid (IntegratedAncientBharatServer.connected_players s') = None).
Proof.
  intros Hwf.
  destruct (broadcast_to_all_spec E data s Hwf) as (r & s' & Hrun & -> & Hcp & _).
  exists s'. split; [exact Hrun |].
  repeat split; intros pid; [intros p Hget Hp | intros p Hget Hp | intros Hget];
    rewrite Hcp, (live_get E _ _ Hwf), Hget; try rewrite Hp; reflexivity.
Qed.

Lemma broadcast_to_all_prunes_witness :
  dict_wf (IntegratedAncientBharatServer.connected_players three_players)
  /\ exists s',
       IntegratedAncientBharatServer.broadcast_to_all (quiet_env two_dead)
         (VDict [("type", VStr "hello")]) three_players = Some (Ok tt, s')
       /\ map fst (IntegratedAncientBharatServer.connected_players s') = ["asha"].
Proof.
  split; [prove_dict_wf |].
  destruct (broadcast_to_all_prunes_dead_connections (quiet_env two_dead)
              (VDict [("type", VStr "hello")]) three_players)
    as (s' & Hrun & _); [prove_dict_wf |].
  exists s'. split; [exact Hrun |].
  vm_compute in Hrun. inversion Hrun. reflexivity.
Defined.

(** ** Movement *)

Section Movement.

Import IntegratedAncientBharatServer.

Variable E : Env.

Lemma send_nearby_npcs_raises (player : Player) (s : Server) :
  send_nearby_npcs E player s
  = Some (Raise (AttributeError "NPCManager" "get_npcs_in_region"), s).
Proof. reflexivity. Qed.

Lemma send_fails_websocket (p p' : Player) :
  websocket p' = websocket p -> send_fails E p' = send_fails E p.
Proof. unfold send_fails. now intros ->. Qed.

Lemma dict_set_In {V} (d : pydict V) (k k' : string) (v v' : V) :
  In (k', v') (dict_set k v d) -> (k', v') = (k, v) \/ In (k', v') d.
Proof.
  induction d as [| [k0 v0] d IH]; simpl.
  - intros [H | []]. now left.
  - destruct (String.eqb_spec k k0) as [-> | Hne]; simpl.
    + intros [H | H]; [now left | right; now right].
    + intros [H | H]; [right; now left |].
      destruct (IH H) as [Heq | Hin]; [now left | right; now right].
Qed.

Lemma players_wf_set_present (d : pydict Player) (k : string) (p0 p1 : Player) :
  players_wf d -> dict_get k d = Some p0 -> player_id p1 = k ->
  players_wf (dict_set k p1 d).
Proof.
  intros [Hwf Hid] Hget Hk. split; [exact (dict_wf_set_present _ _ _ _ Hget Hwf) |].
  intros pid p Hin. destruct (dict_set_In _ _ _ _ _ Hin) as [Heq | Hin'].
  - inversion Heq. now subst.
  - now apply Hid.
Qed.

Lemma handle_player_movement_spec (pid : string) (movement_data : pydict pyval)
  (s : Server) (player : Player) :
  players_wf (connected_players s) ->
  dict_get pid (connected_players s) = Some player ->
  runs (handle_player_movement E pid movement_data) s
    (fun _ s' =>
       (forall p', dict_get pid (connected_players s') = Some p' ->
                   position p' = position (move_player E movement_data player))
       /\ (dict_get pid (connected_players s') = None ->
           send_fails E player = true
           /\ exists p',
                position p' = position (move_player E movement_data player)
                /\ dict_get pid (GameDataManager.player_data (data_manager s'))
                   = Some (saved_progress E p'))
       /\ chat_history s' = chat_history s
       /\ players_wf (connected_players s')).
Proof.
  intros Hwf Hget.
  assert (Hpid : player_id player = pid)
    by (apply (proj2 Hwf); now apply dict_get_In).
  set (stored := position (move_player E movement_data player)).
  pose (J := fun s1 : Server =>
               players_wf (connected_players s1)
               /\ (exists p', dict_get pid (connected_players s1) = Some p'
                              /\ position p' = stored
                              /\ websocket p' = websocket player)
               /\ chat_history s1 = chat_history s).
  pose (Q := fun s' : Server =>
               (forall p', dict_get pid (connected_players s') = Some p' ->
                           position p' = stored)
               /\ (dict_get pid (connected_players s') = None ->
                   send_fails E player = true
                   /\ exists p',
                        position p' = stored
                        /\ dict_get pid (GameDataManager.player_data
                                           (data_manager s'))
                           = Some (saved_progress E p'))
               /\ chat_history s' = chat_history s
               /\ players_wf (connected_players s')).
  assert (JQ : forall s1, J s1 -> Q s1).
  { intros s1 (W1 & (p' & Hp' & Hpos & _) & Hch). repeat split.
    - intros p'' Hp''. congruence.
    - congruence.
    - congruence.
    - exact Hch.
    - exact (proj1 W1).
    - exact (proj2 W1). }
  assert (Jsent : forall allowed s1 s2, J s1 -> only_sent allowed s1 s2 -> J s2).
  { intros allowed s1 s2 (W1 & G1 & H1) (_ & _ & P2 & H2 & _).
    unfold J. rewrite P2, H2. auto. }
  assert (Jset : forall s1 p0 p1,
             players_wf (connected_players s1) ->
             dict_get pid (connected_players s1) = Some p0 ->
             chat_history s1 = chat_history s ->
             position p1 = stored -> websocket p1 = websocket player ->
             player_id p1 = pid ->
             J (set_connected_players (dict_set pid p1) s1)).
  { intros s1 p0 p1 W1 Hp0 H1 Hpos Hws Hid1. unfold J. simpl.
    split; [exact (players_wf_set_present _ _ _ _ W1 Hp0 Hid1) |].
    split; [| exact H1].
    exists p1. split; [apply dict_get_set_same | auto]. }
  change (runs (handle_player_movement E pid movement_data) s (fun _ s' => Q s')).
  eapply runs_ext;
    [unfold handle_player_movement; rewrite Hget; reflexivity |].
  set (player1 := move_player E movement_data player).
  apply runs_bind. apply runs_modify.
  assert (J1 : J (set_connected_players (dict_set pid player1) s))
    by (apply (Jset s player); auto).
  revert J1. generalize (set_connected_players (dict_set pid player1) s).
  intros s1 J1.
  apply runs_bind. apply runs_lift.
  destruct (get_region_from_position s _ _) as [new_region | e];
    [| now apply JQ].
  eapply runs_bind_with
    with (P := fun r s2 => match r with
                           | Ok p => p = player1 /\ J s2
                           | Raise _ => Q s2
                           end).
  - destruct (Region_eqb new_region (current_region player1)).
    + apply runs_ret. auto.
    + apply runs_bind. apply runs_modify.
      assert (J2 : J (set_connected_players
                        (dict_set pid (enter_region new_region player1)) s1)).
      { destruct J1 as (W1 & (p1 & Hp1 & _) & H1).
        apply (Jset s1 p1); auto. }
      revert J2. generalize (set_connected_players
                               (dict_set pid (enter_region new_region player1)) s1).
      intros s2 J2.
      eapply runs_bind_with; [apply runs_send_text | |].
      * intros [] s3 [Hs3 _]. apply runs_bind.
        unfold runs. rewrite send_nearby_npcs_raises.
        eexists _, _. split; [reflexivity |].
        apply JQ. exact (Jsent _ _ _ J2 Hs3).
      * intros e s3 [Hs3 _]. apply JQ. exact (Jsent _ _ _ J2 Hs3).
  - intros p s2 [-> J2].
    apply runs_bind. apply runs_lift.
    destruct (get_nearby_objects E _ _ _) as [nearby | e]; [| now apply JQ].
    eapply runs_bind_with
      with (P := fun r s3 => match r with
                             | Ok _ => J s3
                             | Raise _ => Q s3
                             end).
    + destruct nearby as [| obj nearby].
      * apply runs_ret. exact J2.
      * eapply runs_weaken; [apply runs_send_text |].
        intros r s3 [Hs3 _]. pose proof (Jsent _ _ _ J2 Hs3) as J3.
        destruct r; [exact J3 | now apply JQ].
    + intros [] s3 J3. pose proof J3 as (W3 & (p3 & Hp3 & Hpos3 & Hws3) & Hch3).
      eapply runs_weaken; [apply (broadcast_to_others_spec E _ _ _ (proj1 W3)) |].
      intros r s4 (_ & Hcp & (_ & Hch4 & _)).
      destruct Hcp as [Hcp | [Hcp Hsaved]].
      * apply JQ. unfold J. rewrite Hcp, Hch4. exact J3.
      * unfold Q. rewrite Hch4, Hcp.
        rewrite (live_get E _ _ (proj1 W3)), Hp3.
        rewrite <- (send_fails_websocket _ _ Hws3).
        split; [| split; [| split; [exact Hch3 | now apply players_wf_live]]].
        -- destruct (send_fails E p3); congruence.
        -- destruct (send_fails E p3) eqn:Hdead; [| discriminate].
           intros _. split; [reflexivity |]. exists p3. split; [exact Hpos3 |].
           apply (Hsaved W3 pid p3); [now apply dict_get_In | exact Hdead].
    + intros e s3 HQ. exact HQ.
  - intros e s2 HQ. exact HQ.
Qed.

Lemma Region_eqb_neq (a b : Region) : a <> b -> Region_eqb a b = false.
Proof. destruct a, b; intros H; try reflexivity; now contradiction H. Qed.

(** A movement into another region raises once the region is stored:
    at the latest in [send_nearby_npcs], since the NPC manager in use has
    no [get_npcs_in_region]. *)
Lemma region_change_raises (pid : string) (movement_data : pydict pyval)
  (s : Server) (player : Player) (new_region : Region) :
  dict_wf (connected_players s) ->
  dict_get pid (connected_players s) = Some player ->
  get_region_from_position s
    (pos_x (position (move_player E movement_data player)))
    (pos_z (position (move_player E movement_data player))) = Ok new_region ->
  new_region <> current_region player ->
  exists e s1,
    handle_player_movement E pid movement_data s = Some (Raise e, s1)
    /\ (if send_fails E player
        then e = ConnectionClosed \/ e = AttributeError "NoneType" "send_text"
        else e = AttributeError "NPCManager" "get_npcs_in_region")
    /\ dict_get pid (connected_players s1)
       = Some (enter_region new_region (move_player E movement_data player))
    /\ dict_wf (connected_players s1).
Proof.
  intros Hwf Hget Hregion Hnew.
  set (moved := move_player E movement_data player) in *.
  assert (Hwf1 : dict_wf (dict_set pid (enter_region new_region moved)
                            (dict_set pid moved (connected_players s)))).
  { eapply dict_wf_set_present; [apply dict_get_set_same |].
    eapply dict_wf_set_present; [exact Hget | exact Hwf]. }
  unfold handle_player_movement. rewrite Hget. fold moved.
  unfold bind at 1. unfold modify at 1. unfold bind at 1. rewrite Hregion.
  unfold lift, ret at 1. unfold bind at 1.
  replace (current_region moved) with (current_region player) by reflexivity.
  rewrite (Region_eqb_neq _ _ Hnew).
  unfold bind at 1. unfold modify at 1. unfold bind at 1.
  unfold send_text, send_fails.
  replace (websocket (enter_region new_region moved)) with (websocket player)
    by reflexivity.
  destruct (websocket player) as [w |].
  - destruct (send_raises E w).
    + eexists _, _. split; [reflexivity |]. split; [now left |].
      split; [apply dict_get_set_same | exact Hwf1].
    + eexists _, _. split; [reflexivity |]. split; [reflexivity |].
      split; [apply dict_get_set_same | exact Hwf1].
  - eexists _, _. split; [reflexivity |]. split; [now right |].
    split; [apply dict_get_set_same | exact Hwf1].
Qed.

End Movement.

(** C1. Handling a movement message of a connected player stores the
    coordinates the message carries in that player's position, a
    coordinate the message lacks keeping its value. The entry is still
    in [connected_players] afterwards unless the player's own socket is
    dead and the closing broadcast prunes it; the progress saved for it
    then holds the new position. *)
Theorem movement_updates_stored_position
  (E : IntegratedAncientBharatServer.Env) (pid : string)
  (movement_data : pydict pyval) (s : IntegratedAncientBharatServer.Server)
  (player : IntegratedAncientBharatServer.Player) :
  let stored :=
    {| pos_x := dict_get_or "x"
                  (pos_x (IntegratedAncientBharatServer.position player))
                  movement_data;
       pos_y := dict_get_or "y"
                  (pos_y (IntegratedAncientBharatServer.position player))
                  movement_data;
       pos_z := dict_get_or "z"
                  (pos_z (IntegratedAncientBharatServer.position player))
                  movement_data |} in
  players_wf (IntegratedAncientBharatServer.connected_players s) ->
  dict_get pid (IntegratedAncientBharatServer.connected_players s) = Some player ->
  exists r s',
    IntegratedAncientBharatServer.handle_player_movement E pid movement_data s
    = Some (r, s')
    /\ match dict_get pid (IntegratedAncientBharatServer.connected_players s') with
       | Some p' => IntegratedAncientBharatServer.position p' = stored
       | None =>
           IntegratedAncientBharatServer.send_fails E player = true
           /\ exists p',
                IntegratedAncientBharatServer.position p' = stored
                /\ dict_get pid
                     (GameDataManager.player_data
                        (IntegratedAncientBharatServer.data_manager s'))
                   = Some (saved_progress E p')
       end.
Proof.
  intros stored Hwf Hget.
  destruct (handle_player_movement_spec E pid movement_data s player Hwf Hget)
    as (r & s' & Hrun & Hpos & Hgone & _).
  exists r, s'. split; [exact Hrun |].
  destruct (dict_get pid (IntegratedAncientBharatServer.connected_players s'))
    as [p' |] eqn:Hp'.
  - exact (Hpos p' eq_refl).
  - exact (Hgone eq_refl).
Qed.

Lemma movement_updates_witness :
  players_wf (IntegratedAncientBharatServer.connected_players three_players)
  /\ dict_get "asha" (IntegratedAncientBharatServer.connected_players three_players)
     = Some (sample_player "asha" 1%nat 0 0 INDRAPURA_CITY)
  /\ exists r s',
       IntegratedAncientBharatServer.handle_player_movement (quiet_env two_dead)
         "asha" [("type", VStr "movement"); ("x", VInt 5); ("z", VInt 7)]
         three_players = Some (r, s')
       /\ exists p',
            dict_get "asha" (IntegratedAncientBharatServer.connected_players s')
            = Some p'
            /\ IntegratedAncientBharatServer.position p'
               = {| pos_x := VInt 5; pos_y := VInt 2; pos_z := VInt 7 |}.
Proof.
  split; [prove_players_wf |]. split; [reflexivity |].
  destruct (movement_updates_stored_position (quiet_env two_dead) "asha"
              [("type", VStr "movement"); ("x", VInt 5); ("z", VInt 7)]
              three_players (sample_player "asha" 1%nat 0 0 INDRAPURA_CITY))
    as (r & s' & Hrun & Hpos); [prove_players_wf | reflexivity |].
  exists r, s'. split; [exact Hrun |].
  destruct (dict_get "asha" (IntegratedAncientBharatServer.connected_players s'))
    as [p' |] eqn:Hp'.
  - exists p'. split; [reflexivity | exact Hpos].
  - destruct Hpos as [Hdead _]. discriminate.
Defined.

(** ** Chat *)



Section Chat.

Import IntegratedAncientBharatServer.

Variable E : Env.


End Chat.



(** ** The receive loop *)

Section ReceiveLoop.

Import IntegratedAncientBharatServer.

Variable E : Env.

Lemma frames_since_app (s s' : Server) (frames : list (WebSocket * pyval)) :
  sent s' = sent s ++ frames -> frames_since s s' = frames.
Proof.
  intros Hs. unfold frames_since. rewrite Hs.
  rewrite skipn_app, skipn_all, Nat.sub_diag. reflexivity.
Qed.

Lemma frame_type_player_left (f : WebSocket * pyval) :
  is_player_left (snd f) -> frame_type f = VStr "player_left".
Proof. intros (pid & p & Hf). unfold frame_type. rewrite Hf. reflexivity. Qed.

(** Disconnecting a connected player, under its own name. *)
Lemma disconnect_player_spec (pid : string) (p : Player) (s : Server) :
  dict_wf (connected_players s) ->
  dict_get pid (connected_players s) = Some p ->
  runs (disconnect_player E pid) s
    (fun r s' =>
       r = Ok tt
       /\ connected_players s' = live E (dict_del pid (connected_players s))
       /\ progress_saved E s s'
       /\ config s' = config s /\ chat_history s' = chat_history s
       /\ disk s' = disk s
       /\ (forall k,
             (forall pid' p', In (pid', p') (dict_del pid (connected_players s)) ->
                              send_fails E p' = true -> player_id p' <> k) ->
             dict_get k (GameDataManager.player_data (data_manager s'))
             = if String.eqb k (player_id p)
               then Some (saved_progress E p)
               else dict_get k (GameDataManager.player_data (data_manager s)))
       /\ exists frames, sent s' = sent s ++ frames
                         /\ Forall (fun f => is_player_left (snd f)) frames).
Proof.
  intros Hwf Hget. unfold disconnect_player.
  apply (disconnect_player_with_spec E _ pid p s Hwf Hget). lia.
Qed.

Lemma disconnect_player_gone (pid : string) (s : Server) :
  dict_wf (connected_players s) ->
  runs (disconnect_player E pid) s
    (fun r s' =>
       r = Ok tt
       /\ dict_get pid (connected_players s') = None
       /\ chat_history s' = chat_history s
       /\ exists frames, sent s' = sent s ++ frames
                         /\ Forall (fun f => is_player_left (snd f)) frames).
Proof.
  intros Hwf. destruct (dict_get pid (connected_players s)) as [p |] eqn:Hget.
  - eapply runs_weaken; [apply (disconnect_player_spec pid p s Hwf Hget) |].
    intros r s' (-> & Hcp & _ & _ & Hch & _ & _ & Hsent).
    repeat split; try assumption.
    rewrite Hcp, (live_get E _ _ (dict_wf_del _ _ Hwf)).
    now rewrite (dict_get_del_same _ _ Hwf).
  - unfold runs. rewrite (disconnect_player_absent E _ _ Hget).
    exists (Ok tt), s. repeat split; try assumption.
    exists []. split; [now rewrite app_nil_r | constructor].
Qed.



Lemma handle_npc_interaction_raises (pid : string) (fields : pydict pyval)
  (s : Server) (p : Player) :
  dict_get pid (connected_players s) = Some p ->
  truthy (dict_get_or "npc_id" VNone fields) = true ->
  handle_npc_interaction E pid fields s
  = Some (Raise (AttributeError "Player" "region"), s).
Proof.
  intros Hget Hnpc. unfold handle_npc_interaction. rewrite Hget, Hnpc. reflexivity.
Qed.

End ReceiveLoop.



(** C10. For a connected player an [npc_interaction] message with a truthy
    [npc_id] makes the handler raise [AttributeError]: it reads
    [player.region], which [Player] does not have. The receive loop
    then disconnects the sender and ends, and the only frames delivered
    meanwhile are departure notices: no NPC response is ever sent. *)
Theorem npc_interaction_ends_session
  (E : IntegratedAncientBharatServer.Env) (pid : string)
  (fields : pydict pyval) (s : IntegratedAncientBharatServer.Server)
  (player : IntegratedAncientBharatServer.Player) :
  dict_wf (IntegratedAncientBharatServer.connected_players s) ->
  dict_get pid (IntegratedAncientBharatServer.connected_players s) = Some player ->
  dict_get "type" fields = Some (VStr "npc_interaction") ->
  truthy (dict_get_or "npc_id" VNone fields) = true ->
  IntegratedAncientBharatServer.handle_npc_interaction E pid fields s
  = Some (Raise (AttributeError "Player" "region"), s)
  /\ exists s',
       IntegratedAncientBharatServer.handle_websocket_message E pid
         (IntegratedAncientBharatServer.Text (VDict fields)) s
       = Some (Ok IntegratedAncientBharatServer.Stopped, s')
       /\ dict_get pid (IntegratedAncientBharatServer.connected_players s') = None
       /\ Forall (fun f => IntegratedAncientBharatServer.frame_type f
                           = VStr "player_left")
            (IntegratedAncientBharatServer.frames_since s s').
Proof.
  intros Hwf Hget Htype Hnpc.
  pose proof (handle_npc_interaction_raises E pid fields s player Hget Hnpc) as Hraise.
  split; [exact Hraise |].
  destruct (disconnect_player_gone E pid s Hwf)
    as (r & s' & Hrun & -> & Hgone & _ & frames & Hsent & Hframes).
  exists s'. split; [| split; [exact Hgone |]].
  - unfold IntegratedAncientBharatServer.handle_websocket_message,
      IntegratedAncientBharatServer.dispatch, try_except, bind, dict_get_or.
    rewrite Htype. simpl. rewrite Hraise, Hrun. reflexivity.
  - rewrite (frames_since_app s s' frames Hsent).
    eapply Forall_impl; [| exact Hframes].
    intros f Hf. now apply frame_type_player_left.
Qed.

Lemma npc_interaction_witness :
  dict_wf (IntegratedAncientBharatServer.connected_players three_players)
  /\ exists s',
       IntegratedAncientBharatServer.handle_websocket_message (quiet_env two_dead)
         "asha"
         (IntegratedAncientBharatServer.Text
            (VDict [("type", VStr "npc_interaction"); ("npc_id", VStr "arunima")]))
         three_players
       = Some (Ok IntegratedAncientBharatServer.Stopped, s')
       /\ IntegratedAncientBharatServer.connected_players s' = []
       /\ IntegratedAncientBharatServer.sent s' = [].
Proof.
  split; [prove_dict_wf |].
  destruct (npc_interaction_ends_session (quiet_env two_dead) "asha"
              [("type", VStr "npc_interaction"); ("npc_id", VStr "arunima")]
              three_players (sample_player "asha" 1%nat 0 0 INDRAPURA_CITY))
    as (_ & s' & Hrun & _ & _);
    [prove_dict_wf | reflexivity | reflexivity | reflexivity |].
  exists s'. split; [exact Hrun |].
  vm_compute in Hrun. inversion Hrun. split; reflexivity.
Defined.

(** X4 ([IntegratedAncientBharatServer.handle_player_movement], lines
    254-280, with [send_nearby_npcs], line 428).  A movement message that
    takes a connected player into another region never completes: the
    handler stores the position and the region and then raises, at the
    latest [AttributeError] in [send_nearby_npcs], because the NPC
    manager of [enhanced_npcs.py] has no [get_npcs_in_region]. The
    receive loop catches the exception, disconnects the player and
    ends. *)
Theorem region_change_ends_session
  (E : IntegratedAncientBharatServer.Env) (pid : string)
  (fields : pydict pyval) (s : IntegratedAncientBharatServer.Server)
  (player : IntegratedAncientBharatServer.Player) (new_region : Region) :
  let moved := IntegratedAncientBharatServer.move_player E fields player in
  dict_wf (IntegratedAncientBharatServer.connected_players s) ->
  dict_get pid (IntegratedAncientBharatServer.connected_players s) = Some player ->
  dict_get "type" fields = Some (VStr "movement") ->
  IntegratedAncientBharatServer.get_region_from_position s
    (pos_x (IntegratedAncientBharatServer.position moved))
    (pos_z (IntegratedAncientBharatServer.position moved)) = Ok new_region ->
  new_region <> IntegratedAncientBharatServer.current_region player ->
  (exists e s1,
     IntegratedAncientBharatServer.handle_player_movement E pid fields s
     = Some (Raise e, s1)
     /\ (IntegratedAncientBharatServer.send_fails E player = false ->
         e = AttributeError "NPCManager" "get_npcs_in_region")
     /\ dict_get pid (IntegratedAncientBharatServer.connected_players s1)
        = Some (IntegratedAncientBharatServer.enter_region new_region moved))
  /\ exists s',
       IntegratedAncientBharatServer.handle_websocket_message E pid
         (IntegratedAncientBharatServer.Text (VDict fields)) s
       = Some (Ok IntegratedAncientBharatServer.Stopped, s')
       /\ dict_get pid (IntegratedAncientBharatServer.connected_players s') = None.
Proof.
  intros moved Hwf Hget Htype Hregion Hnew.
  destruct (region_change_raises E pid fields s player new_region
              Hwf Hget Hregion Hnew)
    as (e & s1 & Hraise & He & Hstored & Hwf1).
  split.
  - exists e, s1. split; [exact Hraise |]. split; [| exact Hstored].
    intros Hlive. now rewrite Hlive in He.
  - destruct (disconnect_player_gone E pid s1 Hwf1)
      as (r & s' & Hrun & -> & Hgone & _).
    exists s'. split; [| exact Hgone].
    unfold IntegratedAncientBharatServer.handle_websocket_message,
      IntegratedAncientBharatServer.dispatch, try_except, bind, dict_get_or.
    rewrite Htype. simpl. rewrite Hraise, Hrun. reflexivity.
Qed.

Lemma region_change_witness :
  exists s',
    IntegratedAncientBharatServer.handle_websocket_message (quiet_env two_dead)
      "asha"
      (IntegratedAncientBharatServer.Text
         (VDict [("type", VStr "movement"); ("x", VInt 250)]))
      three_players
    = Some (Ok IntegratedAncientBharatServer.Stopped, s')
    /\ dict_get "asha" (IntegratedAncientBharatServer.connected_players s') = None.
Proof.
  apply (region_change_ends_session (quiet_env two_dead) "asha"
           [("type", VStr "movement"); ("x", VInt 250)] three_players
           (sample_player "asha" 1%nat 0 0 INDRAPURA_CITY) OCEAN_FRONTIER);
    try reflexivity; [prove_dict_wf | discriminate].
Defined.

(** ** Persistence *)

Lemma save_all_data_player_file (writable : string -> bool)
  (dm : GameDataManager.t) (disk : GameDataManager.Disk) :
  writable "player_data.json" = true ->
  dict_get "player_data.json" (GameDataManager.save_all_data writable dm disk)
  = Some (VDict (GameDataManager.player_data dm)).
Proof.
  intros Hw. unfold GameDataManager.save_all_data, GameDataManager._save_json_file.
  rewrite Hw.
  destruct (writable "world_state.json"); [| apply dict_get_set_same].
  destruct (writable "quest_progress.json").
  - destruct (writable "npc_states.json");
      repeat (rewrite dict_get_set_other by discriminate);
      apply dict_get_set_same.
  - rewrite dict_get_set_other by discriminate. apply dict_get_set_same.
Qed.

(** C3, as the code has it. Disconnecting a connected player records
    its name, level, experience, visited regions and last position
    under its id in the data manager's in-memory [player_data] and
    writes nothing to disk; the record reaches the disk when the game
    state is next saved (auto-save, admin save or shutdown), inside the
    one file [player_data.json] that holds every player. *)
Theorem disconnect_records_progress_in_memory
  (E : IntegratedAncientBharatServer.Env) (pid : string)
  (s : IntegratedAncientBharatServer.Server)
  (player : IntegratedAncientBharatServer.Player) :
  players_wf (IntegratedAncientBharatServer.connected_players s) ->
  dict_get pid (IntegratedAncientBharatServer.connected_players s) = Some player ->
  exists s',
    IntegratedAncientBharatServer.disconnect_player E pid s = Some (Ok tt, s')
    /\ dict_get pid (IntegratedAncientBharatServer.connected_players s') = None
    /\ dict_get pid (GameDataManager.player_data
                       (IntegratedAncientBharatServer.data_manager s'))
       = Some (saved_progress E player)
    /\ IntegratedAncientBharatServer.disk s' = IntegratedAncientBharatServer.disk s
    /\ (IntegratedAncientBharatServer.file_writable E "player_data.json" = true ->
        exists s'',
          IntegratedAncientBharatServer.save_game_state E s' = Some (Ok tt, s'')
          /\ dict_get "player_data.json" (IntegratedAncientBharatServer.disk s'')
             = Some (VDict (GameDataManager.player_data
                              (IntegratedAncientBharatServer.data_manager s')))).
Proof.
  intros [Hwf Hid] Hget.
  assert (Hpid : IntegratedAncientBharatServer.player_id player = pid)
    by (apply Hid; now apply dict_get_In).
  destruct (disconnect_player_spec E pid player s Hwf Hget)
    as (r & s' & Hrun & -> & Hcp & _ & _ & _ & Hdisk & Hpd & _).
  exists s'. split; [exact Hrun |]. split; [| split; [| split; [exact Hdisk |]]].
  - rewrite Hcp, (live_get E _ _ (dict_wf_del _ _ Hwf)).
    now rewrite (dict_get_del_same _ _ Hwf).
  - rewrite Hpd.
    + now rewrite Hpid, String.eqb_refl.
    + intros pid' p' Hin _ Heq.
      apply (dict_del_key_other _ _ _ _ Hwf Hin).
      rewrite <- Heq. symmetry. apply Hid.
      exact (dict_del_In _ _ _ _ Hin).
  - intros Hw. eexists. split; [reflexivity |]. simpl.
    now apply save_all_data_player_file.
Qed.

Lemma disconnect_records_witness :
  players_wf (IntegratedAncientBharatServer.connected_players three_players)
  /\ exists s',
       IntegratedAncientBharatServer.disconnect_player (quiet_env two_dead)
         "asha" three_players = Some (Ok tt, s')
       /\ dict_get "asha" (GameDataManager.player_data
                             (IntegratedAncientBharatServer.data_manager s'))
          = Some (saved_progress (quiet_env two_dead)
                    (sample_player "asha" 1%nat 0 0 INDRAPURA_CITY)).
Proof.
  split; [prove_players_wf |].
  destruct (disconnect_records_progress_in_memory (quiet_env two_dead) "asha"
              three_players (sample_player "asha" 1%nat 0 0 INDRAPURA_CITY))
    as (s' & Hrun & _ & Hpd & _); [prove_players_wf | reflexivity |].
  exists s'. split; [exact Hrun | exact Hpd].
Defined.

(** C3 as stated fails: after a disconnect the data directory is as
    empty as before, although the player's record is in memory. *)
Lemma disconnect_writes_no_file :
  exists s',
    IntegratedAncientBharatServer.disconnect_player (quiet_env two_dead)
      "asha" three_players = Some (Ok tt, s')
    /\ IntegratedAncientBharatServer.disk three_players = []
    /\ IntegratedAncientBharatServer.disk s' = []
    /\ dict_mem "asha" (GameDataManager.player_data
                          (IntegratedAncientBharatServer.data_manager s')) = true.
Proof.
  eexists. split; [vm_compute; reflexivity |].
  split; [reflexivity |]. split; reflexivity.
Qed.

(** ** Connecting *)

Lemma dict_set_keys {V} (d : pydict V) (k k' : string) (v : V) :
  In k' (dict_keys (dict_set k v d)) -> k' = k \/ In k' (dict_keys d).
Proof.
  induction d as [| [k0 v0] d IH]; simpl.
  - intros [H | []]. now left.
  - destruct (String.eqb_spec k k0) as [-> | Hne]; simpl.
    + intros [H | H]; [now left | right; now right].
    + intros [H | H]; [right; now left |].
      destruct (IH H) as [Heq | Hin]; [now left | right; now right].
Qed.

Lemma dict_wf_set {V} (d : pydict V) (k : string) (v : V) :
  dict_wf d -> dict_wf (dict_set k v d).
Proof.
  unfold dict_wf.
  induction d as [| [k0 v0] d IH]; simpl; intros Hwf.
  - constructor; [now intros [] | constructor].
  - inversion Hwf as [| ? ? Hhead Htail]. subst.
    destruct (String.eqb_spec k k0) as [-> | Hne]; simpl.
    + now constructor.
    + constructor; [| now apply IH].
      intros Hin. destruct (dict_set_keys _ _ _ _ Hin) as [Heq | Hin'];
        [now apply Hne | now apply Hhead].
Qed.

Lemma dict_length_set_absent {V} (d : pydict V) (k : string) (v : V) :
  dict_get k d = None -> List.length (dict_set k v d) = S (List.length d).
Proof.
  induction d as [| [k0 v0] d IH]; simpl; [reflexivity |].
  destruct (String.eqb_spec k k0) as [-> | Hne]; [discriminate |].
  intros Hnone. simpl. now rewrite IH.
Qed.

Lemma as_str_list_map (l : list string) :
  IntegratedAncientBharatServer.as_str_list (map VStr l) = Some l.
Proof. induction l as [| t l IH]; simpl; [reflexivity | now rewrite IH]. Qed.

Lemma integrated_region_total (s : IntegratedAncientBharatServer.Server)
  (x z : pynum) :
  exists r,
    IntegratedAncientBharatServer.get_region_from_position s (VNum x) (VNum z)
    = Ok r.
Proof.
  unfold IntegratedAncientBharatServer.get_region_from_position,
    ConfigManager.is_in_region, IntegratedAncientBharatServer.if_, py_gt, py_lt.
  simpl.
  repeat match goal with
  | |- context [if ?b then _ else _] => destruct b
  end; eexists; reflexivity.
Qed.

Lemma region_by_config (s s' : IntegratedAncientBharatServer.Server)
  (x z : pyval) :
  IntegratedAncientBharatServer.config s' = IntegratedAncientBharatServer.config s ->
  IntegratedAncientBharatServer.get_region_from_position s' x z
  = IntegratedAncientBharatServer.get_region_from_position s x z.
Proof.
  unfold IntegratedAncientBharatServer.get_region_from_position. now intros ->.
Qed.

Section Connecting.

Import IntegratedAncientBharatServer.

Variable C : Arrival.
Variable E : Env.

(** Once the player object is built, the player is entered and announced,
    and then [send_nearby_npcs] raises (or the welcome does): nothing
    after it runs. *)
Lemma announce_player_spec (socket : WebSocket) (pid : string)
  (player : Player) (s : Server) :
  dict_wf (connected_players s) ->
  websocket player = Some socket ->
  runs (announce_player C E socket pid player) s
    (fun r s' =>
       (exists e, r = Raise e)
       /\ config s' = config s
       /\ chat_history s' = chat_history s
       /\ disk s' = disk s
       /\ dict_get pid (connected_players s') = Some player
       /\ (connected_players s' = dict_set pid player (connected_players s)
           \/ connected_players s'
              = live E (dict_set pid player (connected_players s)))
       /\ exists frames,
            sent s' = sent s ++ frames
            /\ Forall (fun f => snd f = player_joined pid player
                                \/ is_player_left (snd f)) frames).
Proof.
  intros Hwf Hsocket. unfold announce_player.
  apply runs_bind. apply runs_modify.
  set (s1 := set_connected_players (dict_set pid player) s).
  assert (Hwf1 : dict_wf (connected_players s1)) by (now apply dict_wf_set).
  assert (Hget1 : dict_get pid (connected_players s1) = Some player)
    by apply dict_get_set_same.
  apply runs_bind. unfold send_text at 1.
  destruct (send_raises E socket) eqn:Hdead.
  - apply runs_raise. split; [now eexists |].
    repeat (split; [reflexivity |]). split; [exact Hget1 |].
    split; [now left |]. exists []. split; [now rewrite app_nil_r | constructor].
  - apply runs_modify.
    set (s2 := set_sent (fun frames => frames ++ [(socket, player_joined pid player)])
                 s1).
    apply runs_bind.
    eapply runs_weaken;
      [apply (broadcast_to_others_spec E pid (player_joined pid player) s2 Hwf1) |].
    intros r s3 (-> & Hcp & (Hconfig & Hchat & Hdisk & _ & frames & Hsent & Hframes)).
    apply runs_bind. unfold runs. rewrite send_nearby_npcs_raises.
    eexists _, _. split; [reflexivity |].
    split; [now eexists |].
    split; [exact Hconfig |]. split; [exact Hchat |]. split; [exact Hdisk |].
    split; [| split].
    + destruct Hcp as [-> | [-> _]]; [exact Hget1 |].
      rewrite (live_get E _ _ Hwf1). simpl in Hget1 |- *. rewrite Hget1.
      unfold send_fails. now rewrite Hsocket, Hdead.
    + destruct Hcp as [-> | [-> _]]; [now left | now right].
    + exists ((socket, player_joined pid player) :: frames). split.
      * rewrite Hsent. simpl. now rewrite <- app_assoc.
      * constructor; [now left |].
        eapply Forall_impl; [| exact Hframes].
        intros f [Hf | Hf]; [now left | now right].
Qed.

(** The run of [connect_player] for stored progress the typed fields can
    carry. *)
Lemma connect_player_spec (socket : WebSocket) (pid player_name : string)
  (s : Server) :
  dict_wf (connected_players s) ->
  typed_progress player_name
    (GameDataManager.get_player_progress pid (data_manager s)) ->
  exists s',
    connect_player C E socket pid player_name s = Some (Ok tt, s')
    /\ config s' = config s
    /\ chat_history s' = chat_history s
    /\ disk s' = disk s
    /\ (exists frames,
          sent s' = sent s ++ frames
          /\ Forall (fun f => (exists player, snd f = player_joined pid player)
                              \/ is_player_left (snd f)) frames)
    /\ (forall fields pos x y z profile new_region,
          accept_raises C socket = None ->
          GameDataManager.get_player_progress pid (data_manager s)
          = VDict fields ->
          dict_get_or "last_position"
            (VDict [("x", VInt 0); ("y", VInt 2); ("z", VInt 0)]) fields
          = VDict pos ->
          dict_get "x" pos = Some x ->
          dict_get "y" pos = Some y ->
          dict_get "z" pos = Some z ->
          read_profile
            (dict_get_or "name" (VStr player_name) fields)
            (dict_get_or "level" (VInt 1) fields)
            (dict_get_or "experience" (VInt 0) fields)
            (dict_get_or "regions_visited" (VList [VStr "ocean_frontier"]) fields)
          = Some profile ->
          get_region_from_position s x z = Ok new_region ->
          let player :=
            {| player_id := pid;
               name := profile_name profile;
               position := {| pos_x := x; pos_y := y; pos_z := z |};
               current_region := new_region;
               websocket := Some socket;
               last_active := time_time E;
               level := profile_level profile;
               experience := profile_experience profile;
               regions_visited := profile_regions profile |} in
          dict_get pid (connected_players s') = Some player
          /\ (connected_players s' = dict_set pid player (connected_players s)
              \/ connected_players s'
                 = live E (dict_set pid player (connected_players s)))).
Proof.
  intros Hwf Htyped.
  assert (Hnothing :
            config s = config s /\ chat_history s = chat_history s
            /\ disk s = disk s
            /\ exists frames,
                 sent s = sent s ++ frames
                 /\ Forall (fun f => (exists player, snd f = player_joined pid player)
                                     \/ is_player_left (snd f)) frames).
  { repeat (split; [reflexivity |]). exists [].
    split; [now rewrite app_nil_r | constructor]. }
  unfold connect_player, try_except.
  destruct (accept_raises C socket) as [e |] eqn:Haccept.
  { exists s. split; [reflexivity |].
    destruct Hnothing as (H1 & H2 & H3 & H4).
    repeat (split; [assumption |]). intros. discriminate. }
  unfold bind at 1. unfold ret at 1.
  destruct (GameDataManager.get_player_progress pid (data_manager s))
    as [| b | n | t | l | fields] eqn:Hprog;
    try (exists s; split; [reflexivity |];
         destruct Hnothing as (H1 & H2 & H3 & H4);
         repeat (split; [assumption |]); intros; discriminate).
  unfold bind at 1. cbn [py_get lift ret].
  unfold bind at 1. cbn [py_get lift ret].
  destruct (getitem (dict_get_or "last_position"
                       (VDict [("x", VInt 0); ("y", VInt 2); ("z", VInt 0)])
                       fields) "x") as [x |e] eqn:Hx.
  2:{ unfold bind at 1. cbn [lift raise].
      exists s. split; [reflexivity |].
      destruct Hnothing as (H1 & H2 & H3 & H4).
      repeat (split; [assumption |]).
      intros fields' pos x' y' z' profile new_region _ Hf Hpos Hx' _ _ _ _.
      inversion Hf. subst fields'. rewrite Hpos in Hx. simpl in Hx.
      rewrite Hx' in Hx. discriminate. }
  unfold bind at 1. cbn [lift ret].
  destruct (getitem (dict_get_or "last_position"
                       (VDict [("x", VInt 0); ("y", VInt 2); ("z", VInt 0)])
                       fields) "y") as [y |e] eqn:Hy.
  2:{ unfold bind at 1. cbn [lift raise].
      exists s. split; [reflexivity |].
      destruct Hnothing as (H1 & H2 & H3 & H4).
      repeat (split; [assumption |]).
      intros fields' pos x' y' z' profile new_region _ Hf Hpos _ Hy' _ _ _.
      inversion Hf. subst fields'. rewrite Hpos in Hy. simpl in Hy.
      rewrite Hy' in Hy. discriminate. }
  unfold bind at 1. cbn [lift ret].
  destruct (getitem (dict_get_or "last_position"
                       (VDict [("x", VInt 0); ("y", VInt 2); ("z", VInt 0)])
                       fields) "z") as [z |e] eqn:Hz.
  2:{ unfold bind at 1. cbn [lift raise].
      exists s. split; [reflexivity |].
      destruct Hnothing as (H1 & H2 & H3 & H4).
      repeat (split; [assumption |]).
      intros fields' pos x' y' z' profile new_region _ Hf Hpos _ _ Hz' _ _.
      inversion Hf. subst fields'. rewrite Hpos in Hz. simpl in Hz.
      rewrite Hz' in Hz. discriminate. }
  unfold bind at 1. cbn [lift ret].
  unfold bind at 1. cbn [lift ret].
  unfold bind at 1. cbn [lift ret].
  unfold bind at 1. cbn [lift ret].
  destruct (read_profile (dict_get_or "name" (VStr player_name) fields)
              (dict_get_or "level" (VInt 1) fields)
              (dict_get_or "experience" (VInt 0) fields)
              (dict_get_or "regions_visited" (VList [VStr "ocean_frontier"])
                 fields)) as [profile |] eqn:Hprofile;
    [| exfalso; exact (Htyped fields eq_refl Hprofile)].
  destruct (get_region_from_position s x z) as [new_region | e] eqn:Hregion.
  2:{ unfold bind at 1. cbn [lift raise].
      exists s. split; [reflexivity |].
      destruct Hnothing as (H1 & H2 & H3 & H4).
      repeat (split; [assumption |]).
      intros fields' pos x' y' z' profile' new_region _ Hf Hpos Hx' _ Hz' _ Hr.
      inversion Hf. subst fields'. rewrite Hpos in Hx, Hz. simpl in Hx, Hz.
      rewrite Hx' in Hx. rewrite Hz' in Hz. congruence. }
  unfold bind at 1. cbn [lift ret].
  match goal with
  | |- context [announce_player C E socket pid ?p] => set (player := p)
  end.
  destruct (announce_player_spec socket pid player s Hwf eq_refl)
    as (r & s' & Hrun & (e & ->) & Hconfig & Hchat & Hdisk & Hentry & Hcp
        & frames & Hsent & Hframes).
  rewrite Hrun. exists s'. split; [reflexivity |].
  split; [exact Hconfig |]. split; [exact Hchat |]. split; [exact Hdisk |].
  split.
  - exists frames. split; [exact Hsent |].
    eapply Forall_impl; [| exact Hframes].
    intros f [Hf | Hf]; [left; now exists player | now right].
  - intros fields' pos x' y' z' profile' new_region' _ Hf Hpos Hx' Hy' Hz' Hp Hr.
    inversion Hf. subst fields'. rewrite Hpos in Hx, Hy, Hz.
    simpl in Hx, Hy, Hz. rewrite Hx' in Hx. rewrite Hy' in Hy. rewrite Hz' in Hz.
    inversion Hx. inversion Hy. inversion Hz. subst x' y' z'.
    rewrite Hprofile in Hp. inversion Hp. subst profile'.
    rewrite Hregion in Hr. inversion Hr. subst new_region'.
    split; [exact Hentry | exact Hcp].
Qed.

End Connecting.

Lemma typed_default_progress (pid player_name : string) :
  typed_progress player_name (GameDataManager.default_progress pid).
Proof. intros fields Heq. inversion Heq. subst fields. discriminate. Qed.

Lemma typed_saved_progress (E : IntegratedAncientBharatServer.Env)
  (p : IntegratedAncientBharatServer.Player) (player_name : string) :
  typed_progress player_name (saved_progress E p).
Proof.
  intros fields Heq. inversion Heq. subst fields.
  unfold IntegratedAncientBharatServer.read_profile, dict_get_or. simpl.
  rewrite as_str_list_map. discriminate.
Qed.

Lemma live_id (E : IntegratedAncientBharatServer.Env)
  (d : pydict IntegratedAncientBharatServer.Player) :
  (forall k p, In (k, p) d -> IntegratedAncientBharatServer.send_fails E p = false) ->
  live E d = d.
Proof.
  unfold live. induction d as [| [k0 p0] d IH]; simpl; intros Hall; [reflexivity |].
  rewrite (Hall k0 p0) by now left. simpl. f_equal.
  apply IH. intros k p Hin. apply (Hall k p). now right.
Qed.

(** X15 ([IntegratedAncientBharatServer.connect_player], lines 141-206,
    with [send_nearby_npcs], [send_available_quests],
    [send_nearby_world_objects] and [send_chat_history]).
    [connect_player] always returns normally, and every frame delivered
    while it runs announces an arrival or a departure: the available
    quests, the nearby world objects and the chat history are never sent
    to a connecting player, because [send_nearby_npcs] raises before
    them and the [except] of [connect_player] swallows the error. The
    chat history and the files on disk are as before. *)
Theorem connect_player_only_announces
  (C : IntegratedAncientBharatServer.Arrival)
  (E : IntegratedAncientBharatServer.Env)
  (socket : IntegratedAncientBharatServer.WebSocket)
  (pid player_name : string) (s : IntegratedAncientBharatServer.Server) :
  dict_wf (IntegratedAncientBharatServer.connected_players s) ->
  typed_progress player_name
    (GameDataManager.get_player_progress pid
       (IntegratedAncientBharatServer.data_manager s)) ->
  exists s',
    IntegratedAncientBharatServer.connect_player C E socket pid player_name s
    = Some (Ok tt, s')
    /\ Forall is_arrival_or_departure
         (IntegratedAncientBharatServer.frames_since s s')
    /\ IntegratedAncientBharatServer.chat_history s'
       = IntegratedAncientBharatServer.chat_history s
    /\ IntegratedAncientBharatServer.disk s'
       = IntegratedAncientBharatServer.disk s.
Proof.
  intros Hwf Htyped.
  destruct (connect_player_spec C E socket pid player_name s Hwf Htyped)
    as (s' & Hrun & _ & Hchat & Hdisk & (frames & Hsent & Hframes) & _).
  exists s'. split; [exact Hrun |]. split; [| split; assumption].
  rewrite (frames_since_app s s' frames Hsent).
  eapply Forall_impl; [| exact Hframes].
  intros f [(player & Hf) | Hf].
  - left. unfold IntegratedAncientBharatServer.frame_type. now rewrite Hf.
  - right. now apply frame_type_player_left.
Qed.

Lemma connect_player_announces_witness :
  exists s',
    IntegratedAncientBharatServer.connect_player quiet_arrival
      (quiet_env two_dead) 4%nat "dara" "Dara" short_memory
    = Some (Ok tt, s')
    /\ Forall is_arrival_or_departure
         (IntegratedAncientBharatServer.frames_since short_memory s')
    /\ IntegratedAncientBharatServer.chat_history s'
       = IntegratedAncientBharatServer.chat_history short_memory
    /\ IntegratedAncientBharatServer.disk s'
       = IntegratedAncientBharatServer.disk short_memory.
Proof.
  apply (connect_player_only_announces quiet_arrival (quiet_env two_dead)
           4%nat "dara" "Dara" short_memory).
  - prove_dict_wf.
  - apply typed_default_progress.
Defined.

(** X16 ([IntegratedAncientBharatServer.connect_player], lines 141-176,
    with [GameDataManager.get_player_progress], lines 267-279).  A
    player the data manager has no progress for is admitted whatever
    [max_players] says and however many players are connected, at
    position (0, 2, 0), level 1, with [ocean_frontier] as the one
    visited region; and it is named [Player_] followed by the first
    eight characters of its id, not by the display name it asked for. *)
Theorem connect_player_admits_newcomer
  (C : IntegratedAncientBharatServer.Arrival)
  (E : IntegratedAncientBharatServer.Env)
  (socket : IntegratedAncientBharatServer.WebSocket)
  (pid player_name : string) (s : IntegratedAncientBharatServer.Server) :
  dict_wf (IntegratedAncientBharatServer.connected_players s) ->
  IntegratedAncientBharatServer.accept_raises C socket = None ->
  dict_get pid (GameDataManager.player_data
                  (IntegratedAncientBharatServer.data_manager s)) = None ->
  exists s' new_region,
    IntegratedAncientBharatServer.connect_player C E socket pid player_name s
    = Some (Ok tt, s')
    /\ IntegratedAncientBharatServer.get_region_from_position s (VInt 0) (VInt 0)
       = Ok new_region
    /\ dict_get pid (IntegratedAncientBharatServer.connected_players s')
       = Some {| IntegratedAncientBharatServer.player_id := pid;
                 IntegratedAncientBharatServer.name :=
                   ("Player_" ++ str_prefix 8 pid)%string;
                 IntegratedAncientBharatServer.position :=
                   {| pos_x := VInt 0; pos_y := VInt 2; pos_z := VInt 0 |};
                 IntegratedAncientBharatServer.current_region := new_region;
                 IntegratedAncientBharatServer.websocket := Some socket;
                 IntegratedAncientBharatServer.last_active :=
                   IntegratedAncientBharatServer.time_time E;
                 IntegratedAncientBharatServer.level := 1;
                 IntegratedAncientBharatServer.experience := 0;
                 IntegratedAncientBharatServer.regions_visited :=
                   ["ocean_frontier"] |}
    /\ (dict_get pid (IntegratedAncientBharatServer.connected_players s) = None ->
        (forall k p,
           In (k, p) (IntegratedAncientBharatServer.connected_players s) ->
           IntegratedAncientBharatServer.send_fails E p = false) ->
        IntegratedAncientBharatServer.send_raises E socket = false ->
        List.length (IntegratedAncientBharatServer.connected_players s')
        = S (List.length (IntegratedAncientBharatServer.connected_players s))).
Proof.
  intros Hwf Haccept Hnew.
  assert (Hprog : GameDataManager.get_player_progress pid
                    (IntegratedAncientBharatServer.data_manager s)
                  = GameDataManager.default_progress pid).
  { unfold GameDataManager.get_player_progress, dict_get_or. now rewrite Hnew. }
  destruct (connect_player_spec C E socket pid player_name s Hwf)
    as (s' & Hrun & _ & _ & _ & _ & Hadmit).
  { rewrite Hprog. apply typed_default_progress. }
  destruct (integrated_region_total s (Fin (inject_Z 0)) (Fin (inject_Z 0)))
    as (new_region & Hregion).
  exists s', new_region. split; [exact Hrun |]. split; [exact Hregion |].
  destruct (Hadmit _ _ (VInt 0) (VInt 2) (VInt 0)
              {| IntegratedAncientBharatServer.profile_name :=
                   ("Player_" ++ str_prefix 8 pid)%string;
                 IntegratedAncientBharatServer.profile_level := 1;
                 IntegratedAncientBharatServer.profile_experience := 0;
                 IntegratedAncientBharatServer.profile_regions :=
                   ["ocean_frontier"] |}
              new_region Haccept Hprog eq_refl eq_refl eq_refl eq_refl eq_refl
              Hregion) as [Hentry Hcp].
  split; [exact Hentry |].
  intros Habsent Hlive Hsocket.
  assert (Hsame : IntegratedAncientBharatServer.connected_players s'
                  = dict_set pid
                      {| IntegratedAncientBharatServer.player_id := pid;
                         IntegratedAncientBharatServer.name :=
                           ("Player_" ++ str_prefix 8 pid)%string;
                         IntegratedAncientBharatServer.position :=
                           {| pos_x := VInt 0; pos_y := VInt 2; pos_z := VInt 0 |};
                         IntegratedAncientBharatServer.current_region := new_region;
                         IntegratedAncientBharatServer.websocket := Some socket;
                         IntegratedAncientBharatServer.last_active :=
                           IntegratedAncientBharatServer.time_time E;
                         IntegratedAncientBharatServer.level := 1;
                         IntegratedAncientBharatServer.experience := 0;
                         IntegratedAncientBharatServer.regions_visited :=
                           ["ocean_frontier"] |}
                      (IntegratedAncientBharatServer.connected_players s)).
  { destruct Hcp as [Hcp | Hcp]; [exact Hcp |]. rewrite Hcp. apply live_id.
    intros k p Hin. destruct (dict_set_In _ _ _ _ _ Hin) as [Heq | Hold].
    - inversion Heq. subst.
      unfold IntegratedAncientBharatServer.send_fails. simpl. exact Hsocket.
    - exact (Hlive k p Hold). }
  rewrite Hsame. now apply dict_length_set_absent.
Qed.

Lemma connect_player_newcomer_witness :
  exists s',
    IntegratedAncientBharatServer.connect_player quiet_arrival
      (quiet_env (fun _ => false)) 4%nat "dara-of-the-dust-plains" "Dara"
      three_players
    = Some (Ok tt, s')
    /\ option_map IntegratedAncientBharatServer.name
         (dict_get "dara-of-the-dust-plains"
            (IntegratedAncientBharatServer.connected_players s'))
       = Some "Player_dara-of-"
    /\ List.length (IntegratedAncientBharatServer.connected_players s') = 4%nat.
Proof.
  destruct (connect_player_admits_newcomer quiet_arrival
              (quiet_env (fun _ => false)) 4%nat "dara-of-the-dust-plains"
              "Dara" three_players)
    as (s' & new_region & Hrun & _ & Hentry & Hcount);
    [prove_dict_wf | reflexivity | reflexivity |].
  exists s'. split; [exact Hrun |]. split.
  - rewrite Hentry. reflexivity.
  - rewrite Hcount; [reflexivity | reflexivity | | reflexivity].
    intros k p Hin. simpl in Hin.
    repeat (destruct Hin as [Hin | Hin]; [inversion Hin; reflexivity |]).
    contradiction.
Defined.

(** X17 ([IntegratedAncientBharatServer.disconnect_player] and
    [connect_player], with [save_player_progress] and
    [GameDataManager.get_player_progress]).  A player who is
    disconnected and connects again under the same id, on whatever socket
    and asking for whatever display name, is back with the name, level,
    experience, visited regions and position it had; its region is the
    one its position lies in, provided that can be told (the coordinates
    compare with numbers). *)
Theorem reconnect_restores_player
  (C : IntegratedAncientBharatServer.Arrival)
  (E : IntegratedAncientBharatServer.Env)
  (socket : IntegratedAncientBharatServer.WebSocket)
  (pid player_name : string) (s : IntegratedAncientBharatServer.Server)
  (p : IntegratedAncientBharatServer.Player) (new_region : Region) :
  players_wf (IntegratedAncientBharatServer.connected_players s) ->
  dict_get pid (IntegratedAncientBharatServer.connected_players s) = Some p ->
  IntegratedAncientBharatServer.accept_raises C socket = None ->
  IntegratedAncientBharatServer.get_region_from_position s
    (pos_x (IntegratedAncientBharatServer.position p))
    (pos_z (IntegratedAncientBharatServer.position p)) = Ok new_region ->
  exists s1 s2,
    IntegratedAncientBharatServer.disconnect_player E pid s = Some (Ok tt, s1)
    /\ dict_get pid (IntegratedAncientBharatServer.connected_players s1) = None
    /\ IntegratedAncientBharatServer.connect_player C E socket pid player_name s1
       = Some (Ok tt, s2)
    /\ dict_get pid (IntegratedAncientBharatServer.connected_players s2)
       = Some {| IntegratedAncientBharatServer.player_id := pid;
                 IntegratedAncientBharatServer.name :=
                   IntegratedAncientBharatServer.name p;
                 IntegratedAncientBharatServer.position :=
                   IntegratedAncientBharatServer.position p;
                 IntegratedAncientBharatServer.current_region := new_region;
                 IntegratedAncientBharatServer.websocket := Some socket;
                 IntegratedAncientBharatServer.last_active :=
                   IntegratedAncientBharatServer.time_time E;
                 IntegratedAncientBharatServer.level :=
                   IntegratedAncientBharatServer.level p;
                 IntegratedAncientBharatServer.experience :=
                   IntegratedAncientBharatServer.experience p;
                 IntegratedAncientBharatServer.regions_visited :=
                   IntegratedAncientBharatServer.regions_visited p |}.
Proof.
  intros [Hwf Hid] Hget Haccept Hregion.
  assert (Hpid : IntegratedAncientBharatServer.player_id p = pid)
    by (apply Hid; now apply dict_get_In).
  destruct (disconnect_player_spec E pid p s Hwf Hget)
    as (r & s1 & Hrun1 & -> & Hcp1 & _ & Hconfig1 & _ & _ & Hpd & _).
  assert (Hwf1 : dict_wf (IntegratedAncientBharatServer.connected_players s1)).
  { rewrite Hcp1. apply live_wf. now apply dict_wf_del. }
  assert (Hprog : GameDataManager.get_player_progress pid
                    (IntegratedAncientBharatServer.data_manager s1)
                  = saved_progress E p).
  { unfold GameDataManager.get_player_progress, dict_get_or. rewrite Hpd.
    - now rewrite Hpid, String.eqb_refl.
    - intros pid' p' Hin _ Heq.
      apply (dict_del_key_other _ _ _ _ Hwf Hin).
      rewrite <- Heq. symmetry. apply Hid.
      exact (dict_del_In _ _ _ _ Hin). }
  destruct (connect_player_spec C E socket pid player_name s1 Hwf1)
    as (s2 & Hrun2 & _ & _ & _ & _ & Hadmit).
  { rewrite Hprog. apply typed_saved_progress. }
  exists s1, s2. split; [exact Hrun1 |]. split.
  { rewrite Hcp1, (live_get E _ _ (dict_wf_del _ _ Hwf)).
    now rewrite (dict_get_del_same _ _ Hwf). }
  split; [exact Hrun2 |].
  destruct (Hadmit _ _
              (pos_x (IntegratedAncientBharatServer.position p))
              (pos_y (IntegratedAncientBharatServer.position p))
              (pos_z (IntegratedAncientBharatServer.position p))
              {| IntegratedAncientBharatServer.profile_name :=
                   IntegratedAncientBharatServer.name p;
                 IntegratedAncientBharatServer.profile_level :=
                   IntegratedAncientBharatServer.level p;
                 IntegratedAncientBharatServer.profile_experience :=
                   IntegratedAncientBharatServer.experience p;
                 IntegratedAncientBharatServer.profile_regions :=
                   IntegratedAncientBharatServer.regions_visited p |}
              new_region Haccept Hprog eq_refl eq_refl eq_refl eq_refl)
    as [Hentry _].
  - unfold IntegratedAncientBharatServer.read_profile, dict_get_or. simpl.
    now rewrite as_str_list_map.
  - rewrite (region_by_config s s1 _ _ Hconfig1). exact Hregion.
  - rewrite Hentry. now destruct (IntegratedAncientBharatServer.position p).
Qed.

Lemma reconnect_witness :
  exists s1 s2,
    IntegratedAncientBharatServer.disconnect_player (quiet_env two_dead) "asha"
      three_players = Some (Ok tt, s1)
    /\ dict_get "asha" (IntegratedAncientBharatServer.connected_players s1) = None
    /\ IntegratedAncientBharatServer.connect_player quiet_arrival
         (quiet_env two_dead) 7%nat "asha" "Asha the Second" s1
       = Some (Ok tt, s2)
    /\ option_map IntegratedAncientBharatServer.name
         (dict_get "asha" (IntegratedAncientBharatServer.connected_players s2))
       = Some "Player_asha".
Proof.
  destruct (reconnect_restores_player quiet_arrival (quiet_env two_dead) 7%nat
              "asha" "Asha the Second" three_players
              (sample_player "asha" 1%nat 0 0 INDRAPURA_CITY) INDRAPURA_CITY)
    as (s1 & s2 & Hrun1 & Hgone & Hrun2 & Hentry);
    [prove_players_wf | reflexivity | reflexivity | reflexivity |].
  exists s1, s2. repeat split; try assumption.
  rewrite Hentry. reflexivity.
Defined.

(** ** Sessions *)

(** X18 ([IntegratedAncientBharatServer.handle_websocket_message], lines
    537-586).  A frame that closes the socket, is not JSON, or is JSON
    but not an object ends the session of a connected player: the loop
    stops, the player is out of [connected_players] with its progress on
    record in the data manager, and nothing but departure notices is
    sent. *)
Theorem unreadable_frame_ends_session
  (E : IntegratedAncientBharatServer.Env) (pid : string)
  (received : IntegratedAncientBharatServer.frame)
  (s : IntegratedAncientBharatServer.Server)
  (p : IntegratedAncientBharatServer.Player) :
  players_wf (IntegratedAncientBharatServer.connected_players s) ->
  dict_get pid (IntegratedAncientBharatServer.connected_players s) = Some p ->
  (forall fields,
     received <> IntegratedAncientBharatServer.Text (VDict fields)) ->
  exists s',
    IntegratedAncientBharatServer.handle_websocket_message E pid received s
    = Some (Ok IntegratedAncientBharatServer.Stopped, s')
    /\ dict_get pid (IntegratedAncientBharatServer.connected_players s') = None
    /\ dict_get pid (GameDataManager.player_data
                       (IntegratedAncientBharatServer.data_manager s'))
       = Some (saved_progress E p)
    /\ IntegratedAncientBharatServer.chat_history s'
       = IntegratedAncientBharatServer.chat_history s
    /\ Forall (fun f => IntegratedAncientBharatServer.frame_type f
                        = VStr "player_left")
         (IntegratedAncientBharatServer.frames_since s s').
Proof.
  intros [Hwf Hid] Hget Hodd.
  assert (Hpid : IntegratedAncientBharatServer.player_id p = pid)
    by (apply Hid; now apply dict_get_In).
  destruct (disconnect_player_spec E pid p s Hwf Hget)
    as (r & s' & Hrun & -> & Hcp & _ & _ & Hchat & _ & Hpd & frames & Hsent
        & Hframes).
  exists s'. split; [| split; [| split; [| split; [exact Hchat |]]]].
  - unfold IntegratedAncientBharatServer.handle_websocket_message, try_except.
    destruct received as [message | |].
    + destruct message as [| b | n | t | l | fields];
        try (unfold bind, IntegratedAncientBharatServer.dispatch, raise;
             rewrite Hrun; reflexivity).
      now elim (Hodd fields).
    + unfold raise, bind. rewrite Hrun. reflexivity.
    + unfold raise, bind. rewrite Hrun. reflexivity.
  - rewrite Hcp, (live_get E _ _ (dict_wf_del _ _ Hwf)).
    now rewrite (dict_get_del_same _ _ Hwf).
  - rewrite Hpd.
    + now rewrite Hpid, String.eqb_refl.
    + intros pid' p' Hin _ Heq.
      apply (dict_del_key_other _ _ _ _ Hwf Hin).
      rewrite <- Heq. symmetry. apply Hid.
      exact (dict_del_In _ _ _ _ Hin).
  - rewrite (frames_since_app s s' frames Hsent).
    eapply Forall_impl; [| exact Hframes].
    intros f Hf. now apply frame_type_player_left.
Qed.

Lemma unreadable_frame_witness :
  exists s',
    IntegratedAncientBharatServer.handle_websocket_message (quiet_env two_dead)
      "asha" (IntegratedAncientBharatServer.Text (VList [VInt 1])) three_players
    = Some (Ok IntegratedAncientBharatServer.Stopped, s')
    /\ dict_get "asha" (IntegratedAncientBharatServer.connected_players s') = None.
Proof.
  destruct (unreadable_frame_ends_session (quiet_env two_dead) "asha"
              (IntegratedAncientBharatServer.Text (VList [VInt 1])) three_players
              (sample_player "asha" 1%nat 0 0 INDRAPURA_CITY))
    as (s' & Hrun & Hgone & _);
    [prove_players_wf | reflexivity | discriminate |].
  now exists s'.
Defined.

(** X19 ([IntegratedAncientBharatServer.handle_quest_action], lines
    388-424, inside [handle_websocket_message]).  The experience of an
    accepted quest action is never lost: when the quest system accepts a
    start (25 points) or reports a completion (250 points), either the
    loop goes on with the player's experience raised by that amount, or
    the notification could not be sent, the session ends and the
    progress recorded for the player carries the raised experience. *)
Theorem accepted_quest_action_is_credited
  (E : IntegratedAncientBharatServer.Env) (pid : string)
  (fields : pydict pyval) (s : IntegratedAncientBharatServer.Server)
  (p : IntegratedAncientBharatServer.Player) (quest_id : pyval) (gained : Z) :
  players_wf (IntegratedAncientBharatServer.connected_players s) ->
  dict_get pid (IntegratedAncientBharatServer.connected_players s) = Some p ->
  dict_get "type" fields = Some (VStr "quest_action") ->
  dict_get "quest_id" fields = Some quest_id ->
  truthy quest_id = true ->
  (dict_get "action" fields = Some (VStr "start")
   /\ IntegratedAncientBharatServer.start_player_quest E pid quest_id = Ok true
   /\ gained = 25
   \/ dict_get "action" fields = Some (VStr "update")
      /\ IntegratedAncientBharatServer.update_player_quest E pid quest_id
           (dict_get_or "objective_id" VNone fields)
           (dict_get_or "amount" (VInt 1) fields) = Ok true
      /\ gained = 250) ->
  exists status s',
    IntegratedAncientBharatServer.handle_websocket_message E pid
      (IntegratedAncientBharatServer.Text (VDict fields)) s
    = Some (Ok status, s')
    /\ match dict_get pid (IntegratedAncientBharatServer.connected_players s') with
       | Some p' =>
           status = IntegratedAncientBharatServer.Continue
           /\ p' = IntegratedAncientBharatServer.add_experience gained p
       | None =>
           status = IntegratedAncientBharatServer.Stopped
           /\ IntegratedAncientBharatServer.send_fails E p = true
           /\ dict_get pid (GameDataManager.player_data
                              (IntegratedAncientBharatServer.data_manager s'))
              = Some (saved_progress E
                        (IntegratedAncientBharatServer.add_experience gained p))
       end.
Proof.
  intros Hpwf Hget Htype Hquest Htruthy Haccepted.
  assert (Hpid : IntegratedAncientBharatServer.player_id p = pid)
    by (apply (proj2 Hpwf); now apply dict_get_In).
  set (p1 := IntegratedAncientBharatServer.add_experience gained p).
  set (s1 := IntegratedAncientBharatServer.set_connected_players
               (dict_set pid p1) s).
  assert (Hpwf1 : players_wf (IntegratedAncientBharatServer.connected_players s1)).
  { simpl. apply (players_wf_set_present _ pid p p1 Hpwf Hget). exact Hpid. }
  assert (Hget1 : dict_get pid (IntegratedAncientBharatServer.connected_players s1)
                  = Some p1) by apply dict_get_set_same.
  assert (Hhandler :
            exists frame,
              IntegratedAncientBharatServer.dispatch E pid (VDict fields) s
              = IntegratedAncientBharatServer.send_text E
                  (IntegratedAncientBharatServer.websocket p) frame s1).
  { unfold IntegratedAncientBharatServer.dispatch, dict_get_or.
    rewrite Htype. simpl.
    unfold IntegratedAncientBharatServer.handle_quest_action, dict_get_or.
    rewrite Hget, Hquest, Htruthy.
    destruct Haccepted as [(Haction & Hstart & Hgained)
                          | (Haction & Hupdate & Hgained)];
      rewrite Haction; simpl; unfold bind; unfold dict_get_or in *.
    - rewrite Hstart. simpl. subst gained. eexists. reflexivity.
    - rewrite Hupdate. simpl. subst gained.
      eexists. reflexivity. }
  destruct Hhandler as (frame & Hdispatch).
  unfold IntegratedAncientBharatServer.handle_websocket_message, try_except, bind.
  rewrite Hdispatch. unfold IntegratedAncientBharatServer.send_text.
  destruct (IntegratedAncientBharatServer.websocket p) as [w |] eqn:Hw.
  - destruct (IntegratedAncientBharatServer.send_raises E w) eqn:Hdead.
    + unfold raise.
      destruct (disconnect_player_spec E pid p1 s1 (proj1 Hpwf1) Hget1)
        as (r & s' & Hrun & -> & Hcp & _ & _ & _ & _ & Hpd & _).
      rewrite Hrun. exists IntegratedAncientBharatServer.Stopped, s'.
      split; [reflexivity |].
      rewrite Hcp, (live_get E _ _ (dict_wf_del _ _ (proj1 Hpwf1))).
      rewrite (dict_get_del_same _ _ (proj1 Hpwf1)).
      split; [reflexivity |]. split.
      * unfold IntegratedAncientBharatServer.send_fails. now rewrite Hw.
      * rewrite Hpd.
        -- replace (IntegratedAncientBharatServer.player_id p1) with pid
             by (symmetry; exact Hpid).
           now rewrite String.eqb_refl.
        -- intros pid' p' Hin _ Heq.
           apply (dict_del_key_other _ _ _ _ (proj1 Hpwf1) Hin).
           rewrite <- Heq. symmetry. apply (proj2 Hpwf1).
           exact (dict_del_In _ _ _ _ Hin).
    + unfold modify. eexists _, _. split; [reflexivity |].
      simpl. rewrite dict_get_set_same. split; reflexivity.
  - unfold raise.
    destruct (disconnect_player_spec E pid p1 s1 (proj1 Hpwf1) Hget1)
      as (r & s' & Hrun & -> & Hcp & _ & _ & _ & _ & Hpd & _).
    rewrite Hrun. exists IntegratedAncientBharatServer.Stopped, s'.
    split; [reflexivity |].
    rewrite Hcp, (live_get E _ _ (dict_wf_del _ _ (proj1 Hpwf1))).
    rewrite (dict_get_del_same _ _ (proj1 Hpwf1)).
    split; [reflexivity |]. split.
    * unfold IntegratedAncientBharatServer.send_fails. now rewrite Hw.
    * rewrite Hpd.
      -- replace (IntegratedAncientBharatServer.player_id p1) with pid
           by (symmetry; exact Hpid).
         now rewrite String.eqb_refl.
      -- intros pid' p' Hin _ Heq.
         apply (dict_del_key_other _ _ _ _ (proj1 Hpwf1) Hin).
         rewrite <- Heq. symmetry. apply (proj2 Hpwf1).
         exact (dict_del_In _ _ _ _ Hin).
Qed.

Lemma accepted_quest_action_witness :
  exists status s',
    IntegratedAncientBharatServer.handle_websocket_message
      (questing_env two_dead) "bhima"
      (IntegratedAncientBharatServer.Text
         (VDict [ ("type", VStr "quest_action"); ("action", VStr "start");
                  ("quest_id", VStr "village_well") ]))
      three_players
    = Some (Ok status, s')
    /\ status = IntegratedAncientBharatServer.Stopped
    /\ dict_get "bhima" (GameDataManager.player_data
                           (IntegratedAncientBharatServer.data_manager s'))
       = Some (saved_progress (questing_env two_dead)
                 (IntegratedAncientBharatServer.add_experience 25
                    (sample_player "bhima" 2%nat 10 10 INDRAPURA_CITY))).
Proof.
  destruct (accepted_quest_action_is_credited (questing_env two_dead) "bhima"
              [ ("type", VStr "quest_action"); ("action", VStr "start");
                ("quest_id", VStr "village_well") ]
              three_players (sample_player "bhima" 2%nat 10 10 INDRAPURA_CITY)
              (VStr "village_well") 25)
    as (status & s' & Hrun & Hentry);
    [prove_players_wf | reflexivity | reflexivity | reflexivity | reflexivity
    | left; repeat split |].
  exists status, s'. split; [exact Hrun |].
  destruct (dict_get "bhima" (IntegratedAncientBharatServer.connected_players s'))
    as [p' |] eqn:Hp'.
  - vm_compute in Hrun. inversion Hrun. subst s'. discriminate.
  - destruct Hentry as (-> & _ & Hsaved). split; [reflexivity | exact Hsaved].
Defined.

(** ** Saving *)

Section Saving.

Import IntegratedAncientBharatServer.

Variable E : Env.




End Saving.



(** ** Delivery *)

Section Delivery.

Import IntegratedAncientBharatServer.

Variable E : Env.

(** With every socket taking the frame, the first loop of a broadcast
    delivers it once to each player that is not skipped and collects
    nobody. *)
Lemma send_to_each_all_live (message : pyval) (skip : string -> bool)
  (items : pydict Player) (s : Server) :
  (forall k p, In (k, p) items -> send_fails E p = false) ->
  send_to_each E message skip items s
  = Some (Ok [],
          set_sent
            (fun frames =>
               frames
               ++ one_each message
                    (sockets_of (filter (fun entry => negb (skip (fst entry)))
                                   items))) s).
Proof.
  revert s. induction items as [| [pid player] items IH]; intros s Hlive; simpl.
  - unfold ret, set_sent, one_each. simpl. rewrite app_nil_r. now destruct s.
  - assert (Hrest : forall k p, In (k, p) items -> send_fails E p = false)
      by (intros k p Hin; apply (Hlive k p); now right).
    destruct (skip pid); simpl; [now apply IH |].
    pose proof (Hlive pid player (or_introl eq_refl)) as Hp.
    unfold send_fails in Hp. unfold bind, try_except, send_text.
    destruct (websocket player) as [w |]; [| discriminate].
    rewrite Hp. simpl. rewrite (IH _ Hrest). unfold set_sent, one_each. simpl.
    now rewrite <- app_assoc.
Qed.

End Delivery.

(** X21 ([IntegratedAncientBharatServer.broadcast_to_all], lines
    505-519, and [broadcast_to_others], lines 521-535).  While every
    connected player's socket takes frames, a broadcast changes nothing
    but the frames delivered: [broadcast_to_all] delivers the message
    exactly once to every connected player, in the order of
    [connected_players], and [broadcast_to_others] exactly once to
    every connected player but the sender. *)
Theorem broadcast_reaches_each_player_once
  (E : IntegratedAncientBharatServer.Env) (data : pyval) (sender : string)
  (s : IntegratedAncientBharatServer.Server) :
  (forall k p,
     In (k, p) (IntegratedAncientBharatServer.connected_players s) ->
     IntegratedAncientBharatServer.send_fails E p = false) ->
  IntegratedAncientBharatServer.broadcast_to_all E data s
  = Some (Ok tt,
          IntegratedAncientBharatServer.set_sent
            (fun frames =>
               frames
               ++ one_each data
                    (sockets_of
                       (IntegratedAncientBharatServer.connected_players s))) s)
  /\ IntegratedAncientBharatServer.broadcast_to_others E sender data s
     = Some (Ok tt,
             IntegratedAncientBharatServer.set_sent
               (fun frames =>
                  frames
                  ++ one_each data
                       (sockets_of
                          (filter (fun entry =>
                                     negb (String.eqb sender (fst entry)))
                             (IntegratedAncientBharatServer.connected_players
                                s)))) s).
Proof.
  intros Hlive. split.
  - unfold IntegratedAncientBharatServer.broadcast_to_all.
    cbn [IntegratedAncientBharatServer.broadcast_to_all_fuel]. unfold bind.
    assert (Hall : forall (f : string * IntegratedAncientBharatServer.Player -> bool)
                          d, (forall entry, f entry = true) -> filter f d = d).
    { intros f d Hf. induction d as [| entry d IH]; simpl; [reflexivity |].
      now rewrite Hf, IH. }
    pose proof (send_to_each_all_live E data (fun _ => false) _ s Hlive) as Hsend.
    rewrite (Hall _ _ (fun _ => eq_refl)) in Hsend. rewrite Hsend.
    reflexivity.
  - unfold IntegratedAncientBharatServer.broadcast_to_others, bind.
    rewrite (send_to_each_all_live E data (String.eqb sender) _ s Hlive).
    reflexivity.
Qed.

Lemma broadcast_reaches_witness :
  IntegratedAncientBharatServer.sent
    (IntegratedAncientBharatServer.set_sent
       (fun frames =>
          frames
          ++ one_each (VStr "hello")
               (sockets_of
                  (IntegratedAncientBharatServer.connected_players
                     three_players))) three_players)
  = [ (1%nat, VStr "hello"); (2%nat, VStr "hello"); (3%nat, VStr "hello") ]
  /\ IntegratedAncientBharatServer.broadcast_to_all (quiet_env (fun _ => false))
       (VStr "hello") three_players
     = Some (Ok tt,
             IntegratedAncientBharatServer.set_sent
               (fun frames =>
                  frames
                  ++ one_each (VStr "hello")
                       (sockets_of
                          (IntegratedAncientBharatServer.connected_players
                             three_players))) three_players).
Proof.
  split; [reflexivity |].
  apply (broadcast_reaches_each_player_once (quiet_env (fun _ => false))
           (VStr "hello") "asha" three_players).
  intros k p Hin. simpl in Hin.
  repeat (destruct Hin as [Hin | Hin]; [inversion Hin; reflexivity |]).
  contradiction.
Defined.

(** ** The data manager *)

Lemma dict_get_notin {V} (d : pydict V) (k : string) :
  ~ In k (dict_keys d) -> dict_get k d = None.
Proof.
  induction d as [| [k0 v0] d IH]; simpl; [reflexivity |].
  intros Hnot. destruct (String.eqb_spec k k0) as [-> | Hne].
  - exfalso. apply Hnot. now left.
  - apply IH. intros Hin. apply Hnot. now right.
Qed.

(** [d.update(other)] read back key by key. *)
Lemma dict_update_get {V} (other d : pydict V) (k : string) :
  dict_wf other ->
  dict_get k (dict_update d other)
  = match dict_get k other with
    | Some v => Some v
    | None => dict_get k d
    end.
Proof.
  unfold dict_update. revert d.
  induction other as [| [k0 v0] other IH]; intros d Hwf; simpl; [reflexivity |].
  inversion Hwf as [| ? ? Hhead Htail]. subst.
  rewrite (IH _ Htail). destruct (String.eqb_spec k k0) as [-> | Hne].
  - rewrite (dict_get_notin _ _ Hhead). apply dict_get_set_same.
  - destruct (dict_get k other); [reflexivity |].
    now apply dict_get_set_other.
Qed.

(** X6 ([GameDataManager.save_player_progress] and
    [get_player_progress], lines 253-279).  What [save_player_progress]
    stores for a player is what [get_player_progress] returns for that
    player: a dictionary of exactly nine fields, each the caller's value
    or its default, whatever else the caller's dictionary holds. The
    progress of every other player reads as before. *)
Theorem saved_progress_is_read_back (player_id other : string)
  (player_data : pydict pyval) (self : GameDataManager.t) :
  GameDataManager.get_player_progress player_id
    (GameDataManager.save_player_progress player_id player_data self)
  = GameDataManager.progress_entry player_id player_data
  /\ (exists fields,
        GameDataManager.progress_entry player_id player_data = VDict fields
        /\ dict_keys fields
           = [ "name"; "level"; "experience"; "regions_visited";
               "quests_completed"; "npc_reputation"; "last_position";
               "play_time"; "last_login" ]
        /\ forall key fallback,
             In (key, fallback)
               [ ("level", VInt 1); ("experience", VInt 0);
                 ("play_time", VInt 0); ("last_login", VInt 0);
                 ("quests_completed", VList []); ("npc_reputation", VDict []) ] ->
             dict_get key fields = Some (dict_get_or key fallback player_data))
  /\ (other <> player_id ->
      GameDataManager.get_player_progress other
        (GameDataManager.save_player_progress player_id player_data self)
      = GameDataManager.get_player_progress other self).
Proof.
  unfold GameDataManager.get_player_progress,
    GameDataManager.save_player_progress, dict_get_or.
  split; [| split].
  - simpl. now rewrite dict_get_set_same.
  - eexists. split; [reflexivity |]. split; [reflexivity |].
    intros key fallback Hin. simpl in Hin.
    repeat (destruct Hin as [Heq | Hin]; [inversion Heq; reflexivity |]).
    contradiction.
  - intros Hne. simpl. now rewrite (dict_get_set_other _ _ _ _ Hne).
Qed.


(** With every file writable, each of the four holds its document. *)
Lemma save_all_data_writes_prefix_all (writable : string -> bool)
  (self : GameDataManager.t) (disk : GameDataManager.Disk) :
  (forall file,
     In file [ "player_data.json"; "world_state.json"; "quest_progress.json";
               "npc_states.json" ] -> writable file = true) ->
  let saved := GameDataManager.save_all_data writable self disk in
  dict_get "player_data.json" saved
  = Some (VDict (GameDataManager.player_data self))
  /\ dict_get "world_state.json" saved = Some (GameDataManager.world_state self)
  /\ dict_get "quest_progress.json" saved
     = Some (GameDataManager.quest_progress self)
  /\ dict_get "npc_states.json" saved = Some (GameDataManager.npc_states self).
Proof.
  intros Hw. cbv zeta.
  unfold GameDataManager.save_all_data, GameDataManager._save_json_file.
  rewrite !Hw by (simpl; tauto). simpl.
  repeat split;
    repeat (rewrite dict_get_set_other by discriminate);
    apply dict_get_set_same.
Qed.

(** X8 ([GameDataManager.add_sarasvati_fragment], lines 289-302).
    [add_sarasvati_fragment] never records a fragment: whatever the
    manager holds, it leaves the manager exactly as it was. It returns
    only when the fragment id already counts as listed; when the list of
    fragments is a list that does not hold the id, it raises [NameError]
    for [time], which the module never imports, before anything is
    appended and before the main quest's count is touched. *)
Theorem add_sarasvati_fragment_never_records (clock : Q)
  (fragment_id found_by : string) (self : GameDataManager.t) :
  exists o,
    GameDataManager.add_sarasvati_fragment clock fragment_id found_by self
    = (o, self)
    /\ (o = GameDataManager.Returned ->
        exists found,
          getitem (GameDataManager.world_state self)
            "sarasvati_fragments_found" = Ok found
          /\ contains_str fragment_id found = Ok true)
    /\ (forall items,
          getitem (GameDataManager.world_state self)
            "sarasvati_fragments_found" = Ok (VList items) ->
          existsb (fun e => py_eq_str e fragment_id) items = false ->
          o = GameDataManager.RaisedNameError "time").
Proof.
  unfold GameDataManager.add_sarasvati_fragment.
  change (GameDataManager.is_bound "time") with false. cbn [negb].
  destruct (getitem (GameDataManager.world_state self)
              "sarasvati_fragments_found") as [found | e] eqn:Hfound.
  - destruct (contains_str fragment_id found) as [[|] | e] eqn:Hin.
    + eexists. split; [reflexivity |]. split.
      * intros _. now exists found.
      * intros items Hitems Hnone. inversion Hitems. subst found.
        simpl in Hin. congruence.
    + destruct (append_method found) as [items | e] eqn:Happend.
      * eexists. split; [reflexivity |]. split; [discriminate | reflexivity].
      * eexists. split; [reflexivity |]. split; [discriminate |].
        intros items Hitems _. inversion Hitems. subst found. discriminate.
    + eexists. split; [reflexivity |]. split; [discriminate |].
      intros items Hitems _. inversion Hitems. subst found. discriminate.
  - eexists. split; [reflexivity |]. split; [discriminate |].
    intros items Hitems. discriminate.
Qed.

(** X9 ([GameDataManager.record_npc_interaction], lines 305-328).
    [record_npc_interaction] never returns normally: on every manager
    and every input it raises, at the latest [NameError] for [time]. For
    a player the manager has no NPC state for, it leaves an empty entry
    for the player behind and raises the [NameError]. *)
Theorem record_npc_interaction_always_raises
  (plus : pynum -> pynum -> pynum) (clock : Q) (player_id npc_id : string)
  (interaction_data : pydict pyval) (self : GameDataManager.t) :
  fst (GameDataManager.record_npc_interaction plus clock player_id npc_id
         interaction_data self)
  <> GameDataManager.Returned
  /\ (forall states,
        GameDataManager.npc_states self = VDict states ->
        dict_get player_id states = None ->
        GameDataManager.record_npc_interaction plus clock player_id npc_id
          interaction_data self
        = (GameDataManager.RaisedNameError "time",
           GameDataManager.set_npc_states
             (VDict (dict_set player_id (VDict []) states)) self)).
Proof.
  unfold GameDataManager.record_npc_interaction.
  change (GameDataManager.is_bound "time") with false. cbn [negb].
  split.
  - destruct (contains_str player_id (GameDataManager.npc_states self))
      as [known | e]; [| discriminate].
    destruct (if known then Ok (GameDataManager.npc_states self)
              else setitem (GameDataManager.npc_states self) player_id (VDict []))
      as [states1 | e]; [| discriminate].
    destruct (getitem states1 player_id) as [by_npc | e]; [| discriminate].
    destruct (contains_str npc_id by_npc) as [[|] | e]; [| discriminate ..].
    cbn [negb andb].
    destruct (getitem states1 player_id) as [by_npc2 | e]; [| discriminate].
    destruct (getitem by_npc2 npc_id) as [npc_state | e]; [| discriminate].
    destruct (GameDataManager.increment plus npc_state "interactions" 1)
      as [npc_state1 | e]; [| discriminate].
    match goal with
    | |- context [match ?x with Ok _ => _ | Raise _ => _ end] => destruct x
    end; discriminate.
  - intros states Hstates Hnone. rewrite Hstates. simpl.
    unfold dict_mem. rewrite Hnone. simpl.
    rewrite dict_get_set_same. reflexivity.
Qed.

(** X10 ([GameDataManager.load_all_data] with [_load_json_file] and
    [_initialize_empty_data], lines 197-250).  When one of the four data
    files is there and cannot be read, the manager ends up with the empty
    structures for everything: the player progress of a readable
    [player_data.json] is discarded with the rest. *)
Theorem unreadable_file_discards_loaded_data
  (read_error : string -> option exn) (self : GameDataManager.t)
  (disk : GameDataManager.Disk) (file : string) (e : exn) :
  In file [ "player_data.json"; "world_state.json"; "quest_progress.json";
            "npc_states.json" ] ->
  dict_mem file disk = true ->
  read_error file = Some e ->
  GameDataManager.load_all_data read_error self disk
  = Some (GameDataManager._initialize_empty_data self)
  /\ GameDataManager.player_data (GameDataManager._initialize_empty_data self)
     = [].
Proof.
  intros Hfile Hthere Herr. split; [| reflexivity].
  unfold dict_mem in Hthere.
  unfold GameDataManager.load_all_data, GameDataManager._load_json_file.
  simpl in Hfile.
  destruct Hfile as [<- | [<- | [<- | [<- | []]]]];
    destruct (dict_get _ disk) eqn:Hget in Hthere; try discriminate;
    rewrite ?Hget, ?Herr;
    repeat match goal with
    | |- context [match dict_get ?f disk with _ => _ end] =>
        destruct (dict_get f disk)
    | |- context [match read_error ?f with _ => _ end] =>
        destruct (read_error f)
    end; try reflexivity; try discriminate.
Qed.

Lemma unreadable_file_witness :
  GameDataManager.load_all_data
    (fun file => if String.eqb file "world_state.json"
                 then Some JSONDecodeError else None)
    (GameDataManager._initialize_empty_data
       {| GameDataManager.player_data := [];
          GameDataManager.world_state := VNone;
          GameDataManager.quest_progress := VNone;
          GameDataManager.npc_states := VNone |})
    [ ("player_data.json",
       VDict [("asha", GameDataManager.default_progress "asha")]);
      ("world_state.json", VNone) ]
  = Some (GameDataManager._initialize_empty_data
            (GameDataManager._initialize_empty_data
               {| GameDataManager.player_data := [];
                  GameDataManager.world_state := VNone;
                  GameDataManager.quest_progress := VNone;
                  GameDataManager.npc_states := VNone |})).
Proof.
  apply (unreadable_file_discards_loaded_data _ _ _ "world_state.json"
           JSONDecodeError);
    [simpl; tauto | reflexivity | reflexivity].
Defined.

(** X11 ([GameDataManager.load_all_data], lines 197-207, with
    [update_quest_progress], lines 282-287, and
    [add_sarasvati_fragment]).  On a first start, with none of the four
    data files on disk, loading succeeds with four empty dictionaries,
    not with the structures of [_initialize_empty_data]; every
    [update_quest_progress] then raises [KeyError] for [side_quests] and
    every [add_sarasvati_fragment] raises [KeyError] for
    [sarasvati_fragments_found], both leaving the manager unchanged. *)
Theorem first_start_has_no_quest_structures
  (read_error : string -> option exn) (self : GameDataManager.t)
  (disk : GameDataManager.Disk) :
  (forall file,
     In file [ "player_data.json"; "world_state.json"; "quest_progress.json";
               "npc_states.json" ] -> dict_get file disk = None) ->
  let fresh :=
    {| GameDataManager.player_data := [];
       GameDataManager.world_state := VDict [];
       GameDataManager.quest_progress := VDict [];
       GameDataManager.npc_states := VDict [] |} in
  GameDataManager.load_all_data read_error self disk = Some fresh
  /\ (forall quest_id progress_data,
        GameDataManager.update_quest_progress quest_id progress_data fresh
        = (GameDataManager.Raised (KeyError "side_quests"), fresh))
  /\ (forall clock fragment_id found_by,
        GameDataManager.add_sarasvati_fragment clock fragment_id found_by fresh
        = (GameDataManager.Raised (KeyError "sarasvati_fragments_found"), fresh)).
Proof.
  intros Habsent fresh. split; [| split; reflexivity].
  unfold GameDataManager.load_all_data, GameDataManager._load_json_file.
  rewrite !Habsent by (simpl; tauto). reflexivity.
Qed.

Lemma first_start_witness :
  GameDataManager.load_all_data (fun _ => None)
    (GameDataManager._initialize_empty_data
       {| GameDataManager.player_data := [];
          GameDataManager.world_state := VNone;
          GameDataManager.quest_progress := VNone;
          GameDataManager.npc_states := VNone |}) []
  = Some {| GameDataManager.player_data := [];
            GameDataManager.world_state := VDict [];
            GameDataManager.quest_progress := VDict [];
            GameDataManager.npc_states := VDict [] |}.
Proof.
  apply (first_start_has_no_quest_structures (fun _ => None) _ []).
  intros file _. reflexivity.
Defined.

(** X12 ([GameDataManager.save_all_data] and [load_all_data], lines
    197-218).  When all four files can be written and read, loading after
    saving gives back the manager's four dictionaries as they were saved
    (a JSON document being read as it was written). *)
Theorem saved_data_is_loaded_back (writable : string -> bool)
  (read_error : string -> option exn) (self other : GameDataManager.t)
  (disk : GameDataManager.Disk) :
  (forall file,
     In file [ "player_data.json"; "world_state.json"; "quest_progress.json";
               "npc_states.json" ] ->
     writable file = true /\ read_error file = None) ->
  GameDataManager.load_all_data read_error other
    (GameDataManager.save_all_data writable self disk)
  = Some self.
Proof.
  intros Hfiles.
  destruct (save_all_data_writes_prefix_all writable self disk) as
    (H1 & H2 & H3 & H4);
    [intros file Hin; exact (proj1 (Hfiles file Hin)) |].
  unfold GameDataManager.load_all_data, GameDataManager._load_json_file.
  rewrite H1, H2, H3, H4.
  rewrite !(fun file Hin => proj2 (Hfiles file Hin)) by (simpl; tauto).
  now destruct self.
Qed.

Lemma saved_data_loaded_back_witness :
  GameDataManager.load_all_data (fun _ => None)
    (GameDataManager._initialize_empty_data
       {| GameDataManager.player_data := [];
          GameDataManager.world_state := VNone;
          GameDataManager.quest_progress := VNone;
          GameDataManager.npc_states := VNone |})
    (GameDataManager.save_all_data (fun _ => true)
       {| GameDataManager.player_data :=
            [("asha", GameDataManager.default_progress "asha")];
          GameDataManager.world_state := VDict [];
          GameDataManager.quest_progress := VDict [];
          GameDataManager.npc_states := VDict [] |} [])
  = Some {| GameDataManager.player_data :=
              [("asha", GameDataManager.default_progress "asha")];
            GameDataManager.world_state := VDict [];
            GameDataManager.quest_progress := VDict [];
            GameDataManager.npc_states := VDict [] |}.
Proof.
  apply (saved_data_is_loaded_back (fun _ => true) (fun _ => None)).
  intros file _. split; reflexivity.
Defined.

(** X13 ([GameDataManager.update_quest_progress], lines 282-287).
    Where the quest progress has a [side_quests] dictionary whose entry
    for the quest is a dictionary or missing, [update_quest_progress]
    returns and merges: afterwards every field of the quest's entry holds
    the value given in [progress_data] if there is one and its earlier
    value otherwise; the entries of the other side quests and the rest
    of the manager are as before. *)
Theorem update_quest_progress_merges (quest_id : string)
  (progress_data quests side earlier : pydict pyval)
  (self : GameDataManager.t) :
  GameDataManager.quest_progress self = VDict quests ->
  dict_get "side_quests" quests = Some (VDict side) ->
  dict_get_or quest_id (VDict []) side = VDict earlier ->
  dict_wf progress_data ->
  exists quests' side' merged,
    GameDataManager.update_quest_progress quest_id progress_data self
    = (GameDataManager.Returned,
       GameDataManager.set_quest_progress (VDict quests') self)
    /\ dict_get "side_quests" quests' = Some (VDict side')
    /\ dict_get quest_id side' = Some (VDict merged)
    /\ (forall field,
          dict_get field merged
          = match dict_get field progress_data with
            | Some value => Some value
            | None => dict_get field earlier
            end)
    /\ (forall other_quest, other_quest <> quest_id ->
          dict_get other_quest side' = dict_get other_quest side)
    /\ (forall key, key <> "side_quests" ->
          dict_get key quests' = dict_get key quests).
Proof.
  intros Hquests Hside Hearlier Hwf.
  unfold GameDataManager.update_quest_progress.
  rewrite Hquests. cbn [getitem]. rewrite Hside. cbn [contains_str].
  unfold dict_mem, dict_get_or in *.
  destruct (dict_get quest_id side) as [entry |] eqn:Hentry.
  - subst entry. cbn [getitem setitem]. rewrite Hentry. cbn [setitem].
    eexists _, _, _. split; [reflexivity |].
    split; [apply dict_get_set_same |].
    split; [apply dict_get_set_same |].
    split; [intros field; now apply dict_update_get |].
    split; intros k Hk; now apply dict_get_set_other.
  - inversion Hearlier. subst earlier. cbn [getitem setitem].
    rewrite dict_get_set_same. cbn [setitem].
    eexists _, _, _. split; [reflexivity |].
    split; [apply dict_get_set_same |].
    split; [apply dict_get_set_same |].
    split; [intros field; now apply dict_update_get |].
    split; intros k Hk.
    + rewrite dict_get_set_other by exact Hk.
      now apply dict_get_set_other.
    + now apply dict_get_set_other.
Qed.

Lemma update_quest_progress_witness :
  exists quests' side' merged,
    GameDataManager.update_quest_progress "village_well"
      [("stones", VInt 3); ("done", VBool false)]
      (GameDataManager._initialize_empty_data
         {| GameDataManager.player_data := [];
            GameDataManager.world_state := VNone;
            GameDataManager.quest_progress := VNone;
            GameDataManager.npc_states := VNone |})
    = (GameDataManager.Returned,
       GameDataManager.set_quest_progress (VDict quests')
         (GameDataManager._initialize_empty_data
            {| GameDataManager.player_data := [];
               GameDataManager.world_state := VNone;
               GameDataManager.quest_progress := VNone;
               GameDataManager.npc_states := VNone |}))
    /\ dict_get "side_quests" quests' = Some (VDict side')
    /\ dict_get "village_well" side' = Some (VDict merged)
    /\ dict_get "stones" merged = Some (VInt 3).
Proof.
  destruct (update_quest_progress_merges "village_well"
              [("stones", VInt 3); ("done", VBool false)]
              [ ("main_quest",
                 VDict [ ("fragments_collected", VInt 0);
                         ("total_fragments", VInt 7) ]);
                ("side_quests", VDict []);
                ("daily_tasks", VDict []) ]
              [] []
              (GameDataManager._initialize_empty_data
                 {| GameDataManager.player_data := [];
                    GameDataManager.world_state := VNone;
                    GameDataManager.quest_progress := VNone;
                    GameDataManager.npc_states := VNone |}))
    as (quests' & side' & merged & Hrun & Hside & Hquest & Hfields & _);
    [reflexivity | reflexivity | reflexivity | prove_dict_wf |].
  exists quests', side', merged. repeat split; try assumption.
  now rewrite Hfields.
Defined.

(** ** Regions under any configuration *)

Lemma num_lt_false_le (a b : pynum) :
  a <> NaN -> b <> NaN -> num_lt a b = false -> num_le b a = true.
Proof.
  destruct a as [p | | |], b as [q | | |]; simpl; intros Ha Hb H;
    try reflexivity; try discriminate; try congruence.
  unfold Qlt_bool in H. now destruct (Qle_bool q p).
Qed.

(** X14 ([IntegratedAncientBharatServer.get_region_from_position], lines
    127-139, with [ConfigManager.is_in_region], lines 164-178).  Whatever
    boundaries are configured, the region the server assigns to a
    position passes the configuration's own test for that region,
    provided the coordinates and the four boundaries are numbers other
    than NaN. *)
Theorem assigned_region_passes_its_test
  (s : IntegratedAncientBharatServer.Server) (x z : pynum) (r : Region) :
  let w := ConfigManager.world_config (IntegratedAncientBharatServer.config s) in
  x <> NaN -> z <> NaN ->
  ConfigManager.dust_plains_boundary w <> NaN ->
  ConfigManager.ocean_frontier_boundary w <> NaN ->
  ConfigManager.himalayan_peaks_boundary w <> NaN ->
  ConfigManager.narmada_forest_boundary w <> NaN ->
  IntegratedAncientBharatServer.get_region_from_position s (VNum x) (VNum z)
  = Ok r ->
  ConfigManager.is_in_region (IntegratedAncientBharatServer.config s)
    (VNum x) (VNum z) (Region_value r) = Ok true.
Proof.
  intros w Hx Hz Hd Ho Hh Hn.
  unfold IntegratedAncientBharatServer.get_region_from_position,
    ConfigManager.is_in_region, IntegratedAncientBharatServer.if_,
    ConfigManager.between, ConfigManager.and_then, py_gt, py_lt, py_le.
  fold w. destruct w as [d o h n]. simpl in *.
  destruct (num_lt x d) eqn:H1;
    [intros Hr; inversion Hr; subst r; reflexivity |].
  destruct (num_lt o x) eqn:H2;
    [intros Hr; inversion Hr; subst r; reflexivity |].
  destruct (num_lt h z) eqn:H3;
    [intros Hr; inversion Hr; subst r; reflexivity |].
  destruct (num_lt z n) eqn:H4;
    [intros Hr; inversion Hr; subst r; reflexivity |].
  intros Hr. inversion Hr. subst r. simpl.
  rewrite (num_lt_false_le _ _ Hx Hd H1), (num_lt_false_le _ _ Ho Hx H2),
    (num_lt_false_le _ _ Hz Hn H4), (num_lt_false_le _ _ Hh Hz H3).
  reflexivity.
Qed.

Lemma assigned_region_witness :
  ConfigManager.is_in_region (IntegratedAncientBharatServer.config empty_server)
    (VNum (Fin 0)) (VNum (Fin 0)) (Region_value INDRAPURA_CITY) = Ok true.
Proof.
  apply (assigned_region_passes_its_test empty_server (Fin 0) (Fin 0)
           INDRAPURA_CITY); try discriminate.
  reflexivity.
Defined.

(** ** The first server *)

Section FirstServer.

Import AncientBharatServer.

Variable E : Env.

Implicit Types (s : Server) (d : pydict Player).

Lemma server_eta s :
  {| players := players s; connections := connections s; sent := sent s |} = s.
Proof. now destruct s. Qed.

(** The first loop of [_broadcast_to_all] collects the sockets that raise
    and delivers to the others. *)
Lemma send_to_connections_spec (message : pyval) (sockets : list WebSocket) s :
  send_to_connections E message sockets s
  = Some (Ok (filter (send_raises E) sockets),
          set_sent (fun frames => frames ++ delivered message (accepting E sockets))
            s).
Proof.
  revert s. induction sockets as [| w sockets IH]; intros s; simpl.
  - unfold ret, set_sent. rewrite app_nil_r. now rewrite server_eta.
  - unfold bind, try_except, send_text, accepting. simpl.
    destruct (send_raises E w) eqn:Hw; simpl.
    + rewrite IH. reflexivity.
    + rewrite IH. unfold set_sent, accepting. simpl.
      now rewrite <- app_assoc.
Qed.

(** The second loop: each socket that raised leaves the list once. *)
Lemma remove_failed_spec (failed : list WebSocket) s :
  for_each failed
    (fun failed_conn =>
       fun s1 =>
         if list_mem failed_conn (connections s1)
         then modify (set_connections (list_remove failed_conn)) s1
         else ret tt s1) s
  = Some (Ok tt,
          set_connections
            (fun l => fold_left (fun l w => list_remove w l) failed l) s).
Proof.
  revert s. induction failed as [| w failed IH]; intros s; simpl.
  - unfold ret, set_connections. now rewrite server_eta.
  - assert (Hstep : forall l, list_mem w l = false -> list_remove w l = l).
    { induction l as [| w' l IHl]; simpl; [reflexivity |].
      destruct (Nat.eqb w w'); simpl; [discriminate |].
      intros H. now rewrite IHl. }
    unfold bind. destruct (list_mem w (connections s)) eqn:Hmem.
    + unfold modify. rewrite IH. reflexivity.
    + unfold ret. rewrite IH. unfold set_connections.
      now rewrite (Hstep _ Hmem).
Qed.

Lemma list_remove_first (w : WebSocket) (before after : list WebSocket) :
  ~ In w before -> list_remove w (before ++ w :: after) = before ++ after.
Proof.
  induction before as [| w' before IH]; simpl; intros Hnot.
  - now rewrite Nat.eqb_refl.
  - destruct (Nat.eqb w w') eqn:Heq.
    + apply Nat.eqb_eq in Heq. exfalso. apply Hnot. now left.
    + f_equal. apply IH. intros Hin. apply Hnot. now right.
Qed.

(** Removing every socket that raised, one occurrence at a time, leaves
    the sockets that took the frame. *)
Lemma remove_failed_accepting (before sockets : list WebSocket) :
  Forall (fun w => send_raises E w = false) before ->
  fold_left (fun l w => list_remove w l) (filter (send_raises E) sockets)
    (before ++ sockets)
  = before ++ accepting E sockets.
Proof.
  revert before. induction sockets as [| w sockets IH]; intros before Hbefore.
  - reflexivity.
  - unfold accepting. simpl. destruct (send_raises E w) eqn:Hw; simpl.
    + rewrite list_remove_first.
      * now apply IH.
      * intros Hin. rewrite Forall_forall in Hbefore.
        specialize (Hbefore w Hin). congruence.
    + change (before ++ w :: sockets) with (before ++ [w] ++ sockets).
      rewrite app_assoc. rewrite IH.
      * now rewrite <- app_assoc.
      * apply Forall_app. split; [exact Hbefore | now constructor].
Qed.

Lemma _broadcast_to_all_spec (message : pyval) s :
  _broadcast_to_all E message s
  = Some (Ok tt,
          {| players := players s;
             connections := accepting E (connections s);
             sent := sent s
                     ++ delivered message (accepting E (connections s)) |}).
Proof.
  unfold _broadcast_to_all.
  destruct (connections s) as [| w sockets] eqn:Hconn.
  - unfold ret. simpl. rewrite app_nil_r. rewrite <- Hconn. now rewrite server_eta.
  - unfold bind. rewrite send_to_connections_spec. rewrite remove_failed_spec.
    unfold set_connections, set_sent. cbn [players connections sent].
    rewrite Hconn.
    pose proof (remove_failed_accepting [] (w :: sockets) (Forall_nil _))
      as Hleft.
    cbn [app] in Hleft. now rewrite Hleft.
Qed.







End FirstServer.

(** X1 ([AncientBharatServer._broadcast_to_all], lines 300-318).  The
    first server's broadcast always returns normally. It delivers the
    message to the sockets of [connections] that take it, removes the
    sockets that raised from [connections], and leaves the [players]
    dictionary as it was: the players behind the failed sockets stay in
    it. *)
Theorem first_server_broadcast_prunes_connections_only
  (E : AncientBharatServer.Env) (message : pyval)
  (s : AncientBharatServer.Server) :
  exists s',
    AncientBharatServer._broadcast_to_all E message s = Some (Ok tt, s')
    /\ AncientBharatServer.players s' = AncientBharatServer.players s
    /\ AncientBharatServer.connections s'
       = accepting E (AncientBharatServer.connections s)
    /\ AncientBharatServer.sent s'
       = AncientBharatServer.sent s
         ++ delivered message (accepting E (AncientBharatServer.connections s)).
Proof.
  eexists. split; [apply _broadcast_to_all_spec |]. now repeat split.
Qed.



(** X3 ([AncientBharatServer.handle_player_movement], lines 229-232).
    In the first server a [position] object that lacks one of the three
    coordinates makes the handler raise [KeyError] for the first missing
    one; nothing is stored and nothing is sent, so the coordinates the
    object does hold are not applied either. *)
Theorem first_server_partial_position_raises
  (E : AncientBharatServer.Env) (pid key : string)
  (movement_data fields : pydict pyval)
  (player : AncientBharatServer.Player) (s : AncientBharatServer.Server) :
  dict_get pid (AncientBharatServer.players s) = Some player ->
  dict_get "position" movement_data = Some (VDict fields) ->
  find (fun k => negb (dict_mem k fields)) ["x"; "y"; "z"] = Some key ->
  AncientBharatServer.handle_player_movement E pid movement_data s
  = Some (Raise (KeyError key), s).
Proof.
  intros Hget Hpos Hkey.
  unfold AncientBharatServer.handle_player_movement. rewrite Hget, Hpos.
  unfold AncientBharatServer.subscript, dict_mem in *. simpl in Hkey.
  destruct (dict_get "x" fields); simpl in Hkey;
    [| injection Hkey as <-; reflexivity].
  destruct (dict_get "y" fields); simpl in Hkey;
    [| injection Hkey as <-; reflexivity].
  destruct (dict_get "z" fields); simpl in Hkey;
    [discriminate | injection Hkey as <-; reflexivity].
Qed.

Lemma first_server_partial_position_witness :
  AncientBharatServer.handle_player_movement first_server_env "asha"
    [ ("type", VStr "movement"); ("position", VDict [("x", VInt 5)]) ]
    first_server
  = Some (Raise (KeyError "y"), first_server).
Proof.
  apply (first_server_partial_position_raises first_server_env "asha" "y" _
           [("x", VInt 5)] (first_server_player "asha" 1 250 0 OCEAN_FRONTIER));
    reflexivity.
Defined.


(** *** Joining and leaving *)




Section FirstServerAlive.

Import AncientBharatServer.

Variable E : Env.

Hypothesis Halive : forall w, send_raises E w = false.

Implicit Types (s : Server).









End FirstServerAlive.





Section FirstServerJoin.

Import AncientBharatServer.

Variable E : Env.

Implicit Types (s : Server).



End FirstServerJoin.



(** ** The model agent *)

Section Agent.

Import AI3DModelAgent.

Variable W : World.

Lemma grows_refl (a : Agent) : grows a a.
Proof. repeat split; auto. Qed.

Lemma grows_trans (a1 a2 a3 : Agent) : grows a1 a2 -> grows a2 a3 -> grows a1 a3.
Proof.
  intros (C1 & M1 & D1 & P1) (C2 & M2 & D2 & P2).
  repeat split; try congruence. auto.
Qed.

Lemma grows_add_effect (e : Effect) (a : Agent) : grows a (add_effect e a).
Proof. repeat split; auto. Qed.

Lemma dict_mem_set {V} (d : pydict V) (k k' : string) (v : V) :
  dict_mem k d = true -> dict_mem k (dict_set k' v d) = true.
Proof.
  unfold dict_mem. destruct (String.eqb_spec k k') as [-> | Hne].
  - now rewrite dict_get_set_same.
  - now rewrite (dict_get_set_other _ _ _ _ Hne).
Qed.

Lemma grows_write (e : Effect) (path : string) (content : FileContent) (a : Agent) :
  grows a (add_effect e (set_files (dict_set path content) a)).
Proof.
  repeat split; auto. intros p. unfold path_exists. simpl.
  intros H. apply orb_true_iff in H as [H | H]; apply orb_true_iff;
    [left; now apply dict_mem_set | now right].
Qed.

Lemma path_exists_written (e : Effect) (path : string) (content : FileContent)
  (a : Agent) :
  path_exists path (add_effect e (set_files (dict_set path content) a)) = true.
Proof.
  unfold path_exists, dict_mem. simpl. now rewrite dict_get_set_same.
Qed.

Lemma acquired_none (a a' : Agent) : grows a a' -> acquired a (Ok None) a'.
Proof.
  intros Hg. split; [exact Hg |]. split; [now exists None |]. discriminate.
Qed.

Lemma acquired_grows (a a' a'' : Agent) r :
  grows a a' -> acquired a' r a'' -> acquired a r a''.
Proof.
  intros Hg (Hg' & Hok & Hfile). split; [exact (grows_trans _ _ _ Hg Hg') | auto].
Qed.

(** Writing a file either fails and changes nothing or makes the path
    exist. *)
Lemma write_file_spec (directory file_name : string) (content : FileContent)
  (a : Agent) :
  runs (write_file directory file_name content) a
    (fun r a' =>
       grows a a'
       /\ (r = Ok tt -> path_exists (path_join directory file_name) a' = true)).
Proof.
  unfold runs, write_file.
  destruct (existsb (String.eqb directory) (directories a)).
  - eexists _, _. split; [reflexivity |].
    split; [apply grows_write | intros _; apply path_exists_written].
  - eexists _, _. split; [reflexivity |].
    split; [apply grows_refl | discriminate].
Qed.

(** The common body of the routines that build a record after writing
    its file. *)
Lemma write_then_build_spec (directory file_name text : string)
  (keywords : list string) (built : ModelMetadata) (a : Agent) :
  file_path built = path_join directory file_name ->
  runs (try_or
          (write_text directory file_name text ;;
           metadata <- lift (ModelMetadata_init keywords built) ;;
           ret (Some metadata))
          None) a
    (acquired a).
Proof.
  intros Hpath. unfold try_or. apply runs_try_except.
  eapply runs_bind_with; [apply write_file_spec | |].
  - intros [] a1 [Hg Hw]. apply runs_bind. apply runs_lift.
    destruct (ModelMetadata_init keywords built) as [m |] eqn:Hinit.
    + apply runs_ret. split; [exact Hg |]. split; [now exists (Some m) |].
      intros m' Hm'. inversion Hm'. subst m'.
      unfold ModelMetadata_init in Hinit.
      destruct (filter _ keywords); inversion Hinit. subst m.
      rewrite Hpath. now apply Hw.
    + apply runs_ret. now apply acquired_none.
  - intros e a1 [Hg _]. apply runs_ret. now apply acquired_none.
Qed.

Lemma runs_try_or_bind {X Y} (m : A X) (k : X -> A Y) (fallback : Y) (a : Agent)
  (P : result X -> Agent -> Prop) (Q : result Y -> Agent -> Prop) :
  runs m a P ->
  (forall x a1, P (Ok x) a1 -> runs (try_or (k x) fallback) a1 Q) ->
  (forall e a1, P (Raise e) a1 -> Q (Ok fallback) a1) ->
  runs (try_or (bind m k) fallback) a Q.
Proof.
  intros (r & a1 & Hm & HP) Hok Hraise.
  unfold runs, try_or, try_except, bind. rewrite Hm.
  destruct r as [x | e].
  - exact (Hok x a1 HP).
  - exists (Ok fallback), a1. split; [reflexivity | now apply (Hraise e)].
Qed.

Lemma sleep_spec (seconds : Q) (a : Agent) :
  runs (sleep seconds) a (fun r a' => r = Ok tt /\ grows a a').
Proof.
  apply runs_modify. split; [reflexivity | apply grows_add_effect].
Qed.

Lemma get_content_dir_spec (request : ModelRequest) (a : Agent) :
  runs (get_content_dir request) a
    (fun r a' => r = Ok (content_dir request a) /\ a' = a).
Proof. apply runs_ret. auto. Qed.


(** Sleep, pick the directory, write the file, build the record. *)
Ltac generation_steps :=
  eapply runs_try_or_bind; [apply sleep_spec | | intros ? ? [? _]; discriminate];
  intros [] ?a1 [_ ?Hg];
  eapply runs_try_or_bind;
    [apply get_content_dir_spec | | intros ? ? [? _]; discriminate];
  let Hd := fresh "Hd" in
  intros ?d ?a2 [Hd ->]; inversion Hd; subst; cbv zeta;
  eapply runs_weaken; [apply write_then_build_spec; reflexivity |];
  intros ?r ?a3 ?H; eapply acquired_grows; eassumption.

Lemma _generate_with_luma_ai_spec (request : ModelRequest) (id : string) (a : Agent) :
  runs (_generate_with_luma_ai W request id) a (acquired a).
Proof.
  unfold _generate_with_luma_ai.
  eapply runs_try_or_bind with (P := fun r a1 => a1 = a);
    [apply runs_lift; reflexivity | | ].
  - intros prompt a1 ->. generation_steps.
  - intros e a1 ->. apply acquired_none, grows_refl.
Qed.

Lemma _generate_with_meshy_ai_spec (request : ModelRequest) (id : string) (a : Agent) :
  runs (_generate_with_meshy_ai W request id) a (acquired a).
Proof. unfold _generate_with_meshy_ai. cbv zeta. generation_steps. Qed.

Lemma _generate_with_kaedim_spec (request : ModelRequest) (id : string) (a : Agent) :
  runs (_generate_with_kaedim W request id) a (acquired a).
Proof. unfold _generate_with_kaedim. cbv zeta. generation_steps. Qed.

Lemma _generate_with_scenario_gg_spec (request : ModelRequest) (id : string)
  (a : Agent) :
  runs (_generate_with_scenario_gg W request id) a (acquired a).
Proof. unfold _generate_with_scenario_gg. cbv zeta. generation_steps. Qed.

Lemma _generate_with_openai_spec (request : ModelRequest) (id : string) (a : Agent) :
  runs (_generate_with_openai W request id) a (acquired a).
Proof.
  unfold _generate_with_openai. destruct (negb (HAS_OPENAI W)).
  - apply runs_ret. apply acquired_none, grows_refl.
  - generation_steps.
Qed.

Lemma _generate_with_blender_spec (request : ModelRequest) (id : string) (a : Agent) :
  runs (_generate_with_blender W request id) a (acquired a).
Proof. unfold _generate_with_blender. generation_steps. Qed.

Lemma _download_model_spec (repo_name : string) (model_info : pydict pyval)
  (request : ModelRequest) (id : string) (a : Agent) :
  runs (_download_model W repo_name model_info request id) a (acquired a).
Proof. unfold _download_model. generation_steps. Qed.

Lemma generate_with_spec (service_name : string) (request : ModelRequest)
  (id : string) (a : Agent) :
  runs (generate_with W service_name request id) a (acquired a).
Proof.
  unfold generate_with.
  repeat match goal with
  | |- context [if String.eqb ?x ?y then _ else _] => destruct (String.eqb x y)
  end;
  first [ apply _generate_with_luma_ai_spec
        | apply _generate_with_meshy_ai_spec
        | apply _generate_with_kaedim_spec
        | apply _generate_with_scenario_gg_spec
        | apply _generate_with_openai_spec
        | apply _generate_with_blender_spec
        | apply runs_ret; apply acquired_none, grows_refl ].
Qed.

Lemma runs_try_or {X} (body : A X) (fallback : X) (a : Agent)
  (Q : result X -> Agent -> Prop) :
  runs body a (fun r a1 => match r with
                           | Ok x => Q (Ok x) a1
                           | Raise _ => Q (Ok fallback) a1
                           end) ->
  runs (try_or body fallback) a Q.
Proof.
  intros H. unfold try_or. apply runs_try_except.
  eapply runs_weaken; [exact H |].
  intros [x | e] a1 HQ; [exact HQ | now apply runs_ret].
Qed.

Lemma try_services_spec (services : list string) (request : ModelRequest)
  (id : string) (a : Agent) :
  runs (try_services W services request id) a (acquired a).
Proof.
  revert a. induction services as [| service_name services IH]; intros a; simpl.
  - apply runs_ret. apply acquired_none, grows_refl.
  - destruct (negb (service_available W service_name)); [apply IH |].
    eapply runs_bind_with with (P := acquired a).
    + apply runs_try_or. eapply runs_weaken; [apply generate_with_spec |].
      intros r a1 (Hg & [found ->] & Hfile). split; [exact Hg | eauto].
    + intros [m |] a1 (Hg & _ & Hfile).
      * apply runs_ret. split; [exact Hg |]. split; [eauto |].
        intros m' Hm'. inversion Hm'. subst. now apply Hfile.
      * eapply runs_weaken; [apply IH |].
        intros r a2 Ha. exact (acquired_grows _ _ _ _ Hg Ha).
    + intros e a1 (_ & [found Hf] & _). discriminate.
Qed.

Lemma _search_repository_spec (repo_name : string) (search_terms : list pyval)
  (a : Agent) :
  runs (_search_repository W repo_name search_terms) a
    (fun r a' => grows a a' /\ exists results, r = Ok results).
Proof.
  unfold _search_repository.
  destruct (String.eqb repo_name "sketchfab").
  - unfold _search_sketchfab. apply runs_try_or. apply runs_bind. apply runs_lift.
    destruct (join_terms " " search_terms) as [query | e].
    + apply runs_bind. apply runs_modify.
      destruct (sketchfab_search W _); apply runs_ret;
        (split; [apply grows_add_effect | eauto]).
    + split; [apply grows_refl | eauto].
  - destruct (String.eqb repo_name "poly_haven");
      apply runs_ret; (split; [apply grows_refl | eauto]).
Qed.

Lemma try_repositories_spec (repos : list string) (search_terms : list pyval)
  (request : ModelRequest) (id : string) (a : Agent) :
  runs (try_repositories W repos search_terms request id) a (acquired a).
Proof.
  revert a. induction repos as [| repo_name repos IH]; intros a; simpl.
  - apply runs_ret. apply acquired_none, grows_refl.
  - eapply runs_bind_with with (P := acquired a).
    + apply runs_try_or. apply runs_bind. apply runs_lift.
      destruct (join_terms ", " search_terms) as [joined | e];
        [| apply acquired_none, grows_refl].
      eapply runs_bind_with; [apply _search_repository_spec | |].
      * intros [| best_match results] a1 [Hg _].
        -- apply runs_ret. now apply acquired_none.
        -- eapply runs_weaken; [apply _download_model_spec |].
           intros r a2 (Hg2 & [found ->] & Hfile).
           split; [exact (grows_trans _ _ _ Hg Hg2) | eauto].
      * intros e a1 [Hg _]. now apply acquired_none.
    + intros [m |] a1 (Hg & _ & Hfile).
      * apply runs_ret. split; [exact Hg |]. split; [eauto |].
        intros m' Hm'. inversion Hm'. subst. now apply Hfile.
      * eapply runs_weaken; [apply IH |].
        intros r a2 Ha. exact (acquired_grows _ _ _ _ Hg Ha).
    + intros e a1 (_ & [found Hf] & _). discriminate.
Qed.

Lemma save_metadata_spec (a : Agent) :
  runs save_metadata a (fun r a' => r = Ok tt /\ grows a a').
Proof.
  unfold save_metadata. apply runs_try_or.
  eapply runs_weaken; [apply write_file_spec |].
  intros [[] | e] a1 [Hg _]; auto.
Qed.

(** The placeholder is the one step that can fail: its write is not
    guarded. *)
Lemma _create_placeholder_model_spec (request : ModelRequest) (id : string)
  (a : Agent) :
  runs (_create_placeholder_model W request id) a
    (fun r a' =>
       grows a a'
       /\ forall m, r = Ok m -> path_exists (file_path m) a' = true).
Proof.
  unfold _create_placeholder_model.
  eapply runs_bind_with; [apply get_content_dir_spec | |].
  - intros d a1 [Hd ->]. inversion Hd. subst. cbv zeta.
    eapply runs_bind_with; [apply write_file_spec | |].
    + intros [] a2 [Hg Hw]. apply runs_lift. simpl.
      split; [exact Hg |]. intros m Hm. inversion Hm. subst. simpl. now apply Hw.
    + intros e a2 [Hg _]. split; [exact Hg | discriminate].
  - intros e a1 [Hd _]. discriminate.
Qed.

(** Creating a model stores the record under the id and touches no other
    entry; when it raises, the cache is as it was. *)
Lemma create_model_spec (request : ModelRequest) (id : string) (a : Agent) :
  runs (create_model W request id) a
    (fun r a' =>
       models_dir a' = models_dir a
       /\ (forall path, path_exists path a = true -> path_exists path a' = true)
       /\ match r with
          | Ok found =>
              exists m, found = Some m
                        /\ model_cache a' = dict_set id m (model_cache a)
                        /\ path_exists (file_path m) a' = true
          | Raise _ => model_cache a' = model_cache a
          end).
Proof.
  unfold create_model.
  eapply runs_bind_with with (P := acquired a);
    [apply try_repositories_spec | | intros e a1 (_ & [f Hf] & _); discriminate].
  intros downloaded a1 Ha1.
  eapply runs_bind_with with (P := acquired a).
  { destruct downloaded as [m |].
    - apply runs_ret. exact Ha1.
    - destruct Ha1 as (Hg1 & _). eapply runs_weaken; [apply try_services_spec |].
      intros r a2 Ha2. exact (acquired_grows _ _ _ _ Hg1 Ha2). }
  2:{ intros e a2 (_ & [f Hf] & _). discriminate. }
  intros generated a2 (Hg2 & _ & Hfile2).
  eapply runs_bind_with
    with (P := fun r a3 => grows a a3
                           /\ forall m, r = Ok m -> path_exists (file_path m) a3 = true).
  { destruct generated as [m |].
    - apply runs_ret. split; [exact Hg2 |].
      intros m' Hm'. inversion Hm'. subst. now apply Hfile2.
    - eapply runs_weaken; [apply _create_placeholder_model_spec |].
      intros r a3 [Hg3 Hfile3]. split; [exact (grows_trans _ _ _ Hg2 Hg3) | exact Hfile3]. }
  - intros m a3 [(C3 & M3 & D3 & P3) Hfile3].
    apply runs_bind. apply runs_modify.
    eapply runs_bind_with; [apply save_metadata_spec | |].
    + intros [] a4 [_ (C4 & M4 & D4 & P4)]. apply runs_ret.
      split; [simpl in M4; congruence |].
      split; [intros path Hp; apply P4; apply P3 in Hp; exact Hp |].
      exists m. split; [reflexivity |]. split.
      * rewrite C4. simpl. now rewrite C3.
      * apply P4. exact (Hfile3 m eq_refl).
    + intros e a4 [He _]. discriminate.
  - intros e a3 [(C3 & M3 & D3 & P3) _]. auto.
Qed.



End Agent.

Lemma hosted_service_keywords_refused (built : AI3DModelAgent.ModelMetadata) :
  AI3DModelAgent.ModelMetadata_init AI3DModelAgent.hosted_service_keywords built
  = Raise (TypeError
             "__init__() got an unexpected keyword argument generation_metadata").
Proof. reflexivity. Qed.



Ltac generation_returns_none :=
  intros W request id a;
  unfold AI3DModelAgent.try_or, try_except, bind, AI3DModelAgent.sleep,
    AI3DModelAgent.get_content_dir, AI3DModelAgent.write_text,
    AI3DModelAgent.write_file, modify, lift, ret, raise;
  simpl;
  repeat match goal with
  | |- context [match ?r with Ok _ => _ | Raise _ => _ end] => destruct r
  | |- context [if ?b then _ else _] => destruct b
  end;
  simpl; eexists; reflexivity.

(** *** Housekeeping *)

Lemma dict_del_absent {V} (d : pydict V) (k : string) :
  dict_get k d = None -> dict_del k d = d.
Proof.
  induction d as [| [k0 v0] d IH]; simpl; [reflexivity |].
  destruct (String.eqb k k0); [discriminate |].
  intros Hnone. now rewrite IH.
Qed.

Lemma sub_cache_del (d : pydict AI3DModelAgent.ModelMetadata) (k : string) :
  dict_wf d -> sub_cache (dict_del k d) d.
Proof.
  intros Hwf id m Hget. destruct (String.eqb_spec id k) as [-> | Hne].
  - rewrite (dict_get_del_same _ _ Hwf) in Hget. discriminate.
  - now rewrite (dict_get_del_other _ _ _ Hne) in Hget.
Qed.

Lemma cache_size_del (d : pydict AI3DModelAgent.ModelMetadata) (k : string)
  (m : AI3DModelAgent.ModelMetadata) :
  dict_get k d = Some m ->
  cache_size (dict_del k d) = cache_size d - AI3DModelAgent.file_size m.
Proof.
  induction d as [| [k0 m0] d IH]; simpl; [discriminate |].
  destruct (String.eqb k k0).
  - intros Heq. inversion Heq. subst. lia.
  - intros Hget. simpl. rewrite (IH Hget). lia.
Qed.

Lemma cache_size_fold (d : pydict AI3DModelAgent.ModelMetadata) (start : Z) :
  fold_left (fun total entry => total + AI3DModelAgent.file_size (snd entry))
    d start
  = start + cache_size d.
Proof.
  revert start. induction d as [| e d IH]; intros start; simpl; [lia |].
  rewrite IH. lia.
Qed.

Lemma cache_size_perm (l l' : pydict AI3DModelAgent.ModelMetadata) :
  Permutation l l' -> cache_size l = cache_size l'.
Proof. induction 1; simpl; lia. Qed.

Lemma insert_by_access_perm (e : string * AI3DModelAgent.ModelMetadata)
  (l : pydict AI3DModelAgent.ModelMetadata) :
  Permutation (AI3DModelAgent.insert_by_access e l) (e :: l).
Proof.
  induction l as [| o l IH]; simpl; [reflexivity |].
  destruct (Qle_bool _ _); [reflexivity |].
  rewrite IH. apply perm_swap.
Qed.

Lemma sorted_by_access_perm (l : pydict AI3DModelAgent.ModelMetadata) :
  Permutation (AI3DModelAgent.sorted_by_access l) l.
Proof.
  unfold AI3DModelAgent.sorted_by_access.
  induction l as [| e l IH]; simpl; [reflexivity |].
  rewrite insert_by_access_perm. now constructor.
Qed.

Lemma insert_by_access_sorted (e : string * AI3DModelAgent.ModelMetadata)
  (l : pydict AI3DModelAgent.ModelMetadata) :
  StronglySorted by_access l ->
  StronglySorted by_access (AI3DModelAgent.insert_by_access e l).
Proof.
  induction 1 as [| o l Hsorted IH Hfirst]; simpl.
  - constructor; constructor.
  - destruct (Qle_bool _ _) eqn:Hle.
    + apply Qle_bool_iff in Hle. constructor; [now constructor |].
      constructor; [exact Hle |].
      eapply Forall_impl; [| exact Hfirst].
      intros o' Ho'. unfold by_access in *. now apply Qle_trans with (2 := Ho').
    + assert (Hlt : by_access o e).
      { unfold by_access. apply Qlt_le_weak, Qnot_le_lt.
        intros Hc. apply Qle_bool_iff in Hc. congruence. }
      constructor; [exact IH |].
      apply (Permutation_Forall
               (Permutation_sym (insert_by_access_perm e l))).
      now constructor.
Qed.

Lemma sorted_by_access_sorted (l : pydict AI3DModelAgent.ModelMetadata) :
  StronglySorted by_access (AI3DModelAgent.sorted_by_access l).
Proof.
  unfold AI3DModelAgent.sorted_by_access.
  induction l as [| e l IH]; simpl; [constructor |].
  now apply insert_by_access_sorted.
Qed.

Lemma fold_del_cons_other {V} (ids : list string) (k : string) (v : V)
  (d : pydict V) :
  ~ In k ids ->
  fold_left (fun d id => dict_del id d) ids ((k, v) :: d)
  = (k, v) :: fold_left (fun d id => dict_del id d) ids d.
Proof.
  revert d. induction ids as [| id ids IH]; intros d Hnot; simpl; [reflexivity |].
  destruct (String.eqb_spec id k) as [-> | Hne]; [exfalso; apply Hnot; now left |].
  apply IH. intros Hin. apply Hnot. now right.
Qed.

(** Deleting the keys a test selects leaves the entries it rejects, in
    their order. *)
Lemma fold_del_filter {V} (f : string * V -> bool) (d : pydict V) :
  dict_wf d ->
  fold_left (fun d id => dict_del id d) (map fst (filter f d)) d
  = filter (fun entry => negb (f entry)) d.
Proof.
  unfold dict_wf, dict_keys.
  induction d as [| [k v] d IH]; intros Hwf; [reflexivity |].
  simpl in Hwf. inversion Hwf as [| ? ? Hhead Htail]. subst.
  cbn [filter]. destruct (f (k, v)); cbn [negb map fst fold_left dict_del].
  - rewrite String.eqb_refl. now apply IH.
  - rewrite fold_del_cons_other; [now rewrite IH |].
    intros Hin. apply Hhead. apply in_map_iff in Hin.
    destruct Hin as (e & <- & Hin). apply in_map.
    apply filter_In in Hin. tauto.
Qed.

Section Housekeeping.

Import AI3DModelAgent.

Variable W : World.
Variable H : Housekeeping.

Lemma kept_trans (a1 a2 a3 : Agent) : kept a1 a2 -> kept a2 a3 -> kept a1 a3.
Proof.
  intros (_ & S1 & M1 & D1) (W2 & S2 & M2 & D2).
  split; [exact W2 |]. split; [| split; congruence].
  intros id m Hget. apply S1. now apply S2.
Qed.

Lemma _remove_model_spec (id : string) (a : Agent) :
  dict_wf (model_cache a) ->
  exists a',
    _remove_model H id a = Some (Ok tt, a')
    /\ model_cache a' = dict_del id (model_cache a)
    /\ kept a a'.
Proof.
  intros Hwf. unfold _remove_model.
  destruct (dict_get id (model_cache a)) as [m |] eqn:Hget.
  - eexists. split; [reflexivity |]. simpl.
    destruct (unlink_raises H (file_path m)); simpl;
      (split; [reflexivity |]);
      (split; [now apply dict_wf_del |]);
      (split; [now apply sub_cache_del | split; reflexivity]).
  - exists a. split; [reflexivity |].
    rewrite (dict_del_absent _ _ Hget). split; [reflexivity |].
    split; [exact Hwf |]. split; [now intros ? ? ? | split; reflexivity].
Qed.

Lemma remove_models_spec (ids : list string) (a : Agent) :
  dict_wf (model_cache a) ->
  exists a',
    for_each ids (_remove_model H) a = Some (Ok tt, a')
    /\ kept a a'
    /\ (forall id, In id ids -> dict_get id (model_cache a') = None)
    /\ ((forall id m, In (id, m) (model_cache a) -> 0 <= file_size m) ->
        cache_size (model_cache a') <= cache_size (model_cache a)).
Proof.
  revert a. induction ids as [| id ids IH]; intros a Hwf; simpl.
  - exists a. split; [reflexivity |].
    split; [split; [exact Hwf |]; split; [now intros ? ? ? | split; reflexivity] |].
    split; [now intros ? [] | intros _; lia].
  - destruct (_remove_model_spec id a Hwf) as (a1 & Hrun1 & Hcache1 & Hkept1).
    unfold bind. rewrite Hrun1.
    destruct (IH a1 (proj1 Hkept1)) as (a' & Hrun & Hkept & Hgone & Hsize).
    exists a'. split; [exact Hrun |].
    split; [exact (kept_trans _ _ _ Hkept1 Hkept) |]. split.
    + intros id' [<- | Hin]; [| now apply Hgone].
      destruct (dict_get id (model_cache a')) as [m |] eqn:Hget; [| reflexivity].
      apply (proj1 (proj2 Hkept)) in Hget. rewrite Hcache1 in Hget.
      rewrite (dict_get_del_same _ _ Hwf) in Hget. discriminate.
    + intros Hpos.
      assert (Hstep : cache_size (model_cache a1) <= cache_size (model_cache a)).
      { rewrite Hcache1.
        destruct (dict_get id (model_cache a)) as [m |] eqn:Hget.
        - rewrite (cache_size_del _ _ _ Hget).
          pose proof (Hpos id m (dict_get_In _ _ _ Hget)). lia.
        - rewrite (dict_del_absent _ _ Hget). lia. }
      assert (Hpos1 : forall id' m, In (id', m) (model_cache a1) ->
                                    0 <= file_size m).
      { intros id' m Hin. apply (Hpos id' m). rewrite Hcache1 in Hin.
        exact (dict_del_In _ _ _ _ Hin). }
      specialize (Hsize Hpos1). lia.
Qed.

Lemma evict_spec (total_size_mb : Q) (max_cache_size_mb removed_size : Z)
  (sorted_models : list (string * ModelMetadata)) (a : Agent) :
  dict_wf (model_cache a) ->
  NoDup (map fst sorted_models) ->
  (forall id m, In (id, m) sorted_models ->
                dict_get id (model_cache a) = Some m) ->
  exists a' removed',
    evict H total_size_mb max_cache_size_mb removed_size sorted_models a
    = Some (Ok tt, a')
    /\ kept a a'
    /\ cache_size (model_cache a')
       = cache_size (model_cache a) - (removed' - removed_size)
    /\ (Qle_bool
          (float_sub H total_size_mb (true_div H removed' (1024 * 1024)))
          (inject_Z max_cache_size_mb) = true
        \/ removed' - removed_size = cache_size sorted_models).
Proof.
  revert a removed_size.
  induction sorted_models as [| [id m] rest IH]; intros a removed_size Hwf Hnodup Hin.
  - exists a, removed_size. split; [reflexivity |].
    split; [split; [exact Hwf |]; split; [now intros ? ? ? | split; reflexivity] |].
    split; [lia | right; simpl; lia].
  - cbn [evict].
    destruct (Qle_bool
                (float_sub H total_size_mb
                   (true_div H removed_size (1024 * 1024)))
                (inject_Z max_cache_size_mb)) eqn:Hfits.
    + exists a, removed_size. split; [reflexivity |].
      split; [split; [exact Hwf |]; split; [now intros ? ? ? | split; reflexivity] |].
      split; [lia | now left].
    + destruct (_remove_model_spec id a Hwf) as (a1 & Hrun1 & Hcache1 & Hkept1).
      unfold bind. rewrite Hrun1.
      simpl in Hnodup. inversion Hnodup as [| ? ? Hhead Htail]. subst.
      assert (Hget : dict_get id (model_cache a) = Some m)
        by (apply Hin; now left).
      destruct (IH a1 (removed_size + file_size m) (proj1 Hkept1) Htail)
        as (a' & removed' & Hrun & Hkept & Hsize & Hend).
      { intros id' m' Hin'. rewrite Hcache1.
        rewrite dict_get_del_other; [apply Hin; now right |].
        intros Heq. apply Hhead. subst id'.
        change id with (fst (id, m')). now apply in_map. }
      exists a', removed'. split; [exact Hrun |].
      split; [exact (kept_trans _ _ _ Hkept1 Hkept) |]. split.
      * rewrite Hsize, Hcache1, (cache_size_del _ _ _ Hget). lia.
      * destruct Hend as [Hfit | Hall]; [now left | right].
        simpl. lia.
Qed.

(** The run of [cleanup_old_models]. *)
Lemma cleanup_old_models_spec (max_age_days max_cache_size_mb : Z) (a : Agent) :
  dict_wf (model_cache a) ->
  exists a',
    cleanup_old_models W H max_age_days max_cache_size_mb a = Some (Ok tt, a')
    /\ kept a a'
    /\ (forall id m, dict_get id (model_cache a') = Some m ->
                     expired W H max_age_days m = false)
    /\ ((forall id m, In (id, m) (model_cache a) -> 0 <= file_size m) ->
        0 <= max_cache_size_mb ->
        (forall n, (true_div H n (1024 * 1024)
                    == inject_Z n / inject_Z (1024 * 1024))%Q) ->
        (forall x y, (float_sub H x y == x - y)%Q) ->
        cache_size (model_cache a') <= max_cache_size_mb * (1024 * 1024)).
Proof.
  intros Hwf. unfold cleanup_old_models.
  set (ids := map fst (filter (fun entry => expired W H max_age_days (snd entry))
                         (model_cache a))).
  destruct (remove_models_spec ids a Hwf) as (a1 & Hrun1 & Hkept1 & Hgone1 & Hsize1).
  unfold bind at 1. rewrite Hrun1. rewrite cache_size_fold.
  set (total_size_mb := true_div H (0 + cache_size (model_cache a)) (1024 * 1024)).
  assert (Hsecond :
            exists a2,
              (if Qlt_bool (inject_Z max_cache_size_mb) total_size_mb
               then fun a1 =>
                      evict H total_size_mb max_cache_size_mb 0
                        (sorted_by_access (model_cache a1)) a1
               else ret tt) a1 = Some (Ok tt, a2)
              /\ kept a1 a2
              /\ ((forall id m, In (id, m) (model_cache a) -> 0 <= file_size m) ->
                  0 <= max_cache_size_mb ->
                  (forall n, (true_div H n (1024 * 1024)
                              == inject_Z n / inject_Z (1024 * 1024))%Q) ->
                  (forall x y, (float_sub H x y == x - y)%Q) ->
                  cache_size (model_cache a2)
                  <= max_cache_size_mb * (1024 * 1024))).
  { destruct (Qlt_bool (inject_Z max_cache_size_mb) total_size_mb) eqn:Hover.
    - pose proof (sorted_by_access_perm (model_cache a1)) as Hperm.
      destruct (evict_spec total_size_mb max_cache_size_mb 0
                  (sorted_by_access (model_cache a1)) a1 (proj1 Hkept1))
        as (a2 & removed' & Hrun2 & Hkept2 & Hsize2 & Hend).
      { apply (Permutation_NoDup (l := map fst (model_cache a1)));
          [| exact (proj1 Hkept1)].
        apply Permutation_map. now symmetry. }
      { intros id m Hin. apply (dict_In_get _ _ _ (proj1 Hkept1)).
        exact (Permutation_in _ Hperm Hin). }
      exists a2. split; [exact Hrun2 |]. split; [exact Hkept2 |].
      intros Hpos Hmax Hdiv Hsub. specialize (Hsize1 Hpos).
      destruct Hend as [Hfit | Hall].
      + apply Qle_bool_iff in Hfit. subst total_size_mb.
        rewrite Hsub, !Hdiv in Hfit. unfold Qle in Hfit. simpl in Hfit. lia.
      + rewrite (cache_size_perm _ _ Hperm) in Hall. lia.
    - exists a1. split; [reflexivity |].
      split; [split; [exact (proj1 Hkept1) |];
              split; [now intros ? ? ? | split; reflexivity] |].
      intros Hpos Hmax Hdiv Hsub. specialize (Hsize1 Hpos).
      unfold Qlt_bool in Hover. apply negb_false_iff in Hover.
      apply Qle_bool_iff in Hover. subst total_size_mb.
      rewrite Hdiv in Hover. unfold Qle in Hover. simpl in Hover. lia. }
  destruct Hsecond as (a2 & Hrun2 & Hkept2 & Hbound).
  unfold bind at 1. unfold Co. rewrite Hrun2.
  destruct (save_metadata_spec a2) as (r & a' & Hrun3 & -> & (C3 & M3 & D3 & _)).
  rewrite Hrun3. exists a'. split; [reflexivity |].
  assert (Hkept : kept a a2) by exact (kept_trans _ _ _ Hkept1 Hkept2).
  split; [| split].
  - destruct Hkept as (K1 & K2 & K3 & K4). unfold kept. rewrite C3, M3, D3.
    now repeat split.
  - intros id m Hget. rewrite C3 in Hget.
    destruct (expired W H max_age_days m) eqn:Hexp; [| reflexivity].
    assert (Hin : In id ids).
    { unfold ids. change id with (fst (id, m)). apply in_map.
      apply filter_In. split; [| exact Hexp].
      apply dict_get_In. now apply (proj1 (proj2 Hkept)). }
    apply (proj1 (proj2 Hkept2)) in Hget.
    rewrite (Hgone1 id Hin) in Hget. discriminate.
  - intros Hpos Hmax Hdiv Hsub. rewrite C3. now apply Hbound.
Qed.

(** The cache after the first loop of [cleanup_old_models]. *)
Lemma remove_models_cache (ids : list string) (a : Agent) :
  dict_wf (model_cache a) ->
  exists a',
    for_each ids (_remove_model H) a = Some (Ok tt, a')
    /\ model_cache a'
       = fold_left (fun d id => dict_del id d) ids (model_cache a).
Proof.
  revert a. induction ids as [| id ids IH]; intros a Hwf; simpl.
  - exists a. split; reflexivity.
  - destruct (_remove_model_spec id a Hwf) as (a1 & Hrun1 & Hcache1 & Hkept1).
    unfold bind. rewrite Hrun1.
    destruct (IH a1 (proj1 Hkept1)) as (a' & Hrun & Hcache).
    exists a'. split; [exact Hrun |]. now rewrite Hcache, Hcache1.
Qed.

Lemma expired_removed (max_age_days : Z) (a : Agent) :
  dict_wf (model_cache a) ->
  exists a1,
    for_each
      (map fst (filter (fun entry => expired W H max_age_days (snd entry))
                  (model_cache a)))
      (_remove_model H) a = Some (Ok tt, a1)
    /\ kept a a1
    /\ model_cache a1 = unexpired W H max_age_days (model_cache a).
Proof.
  intros Hwf.
  destruct (remove_models_spec
              (map fst (filter (fun entry => expired W H max_age_days (snd entry))
                          (model_cache a))) a Hwf)
    as (a1 & Hrun1 & Hkept1 & _).
  destruct (remove_models_cache
              (map fst (filter (fun entry => expired W H max_age_days (snd entry))
                          (model_cache a))) a Hwf)
    as (a1' & Hrun1' & Hcache1).
  rewrite Hrun1 in Hrun1'. inversion Hrun1'. subst a1'.
  exists a1. split; [exact Hrun1 |]. split; [exact Hkept1 |].
  rewrite Hcache1. now apply fold_del_filter.
Qed.

(** Within the limit, the second loop is not entered. *)
Lemma cleanup_within_limit_spec (max_age_days max_cache_size_mb : Z) (a : Agent) :
  dict_wf (model_cache a) ->
  Qlt_bool (inject_Z max_cache_size_mb)
    (true_div H (cache_size (model_cache a)) (1024 * 1024)) = false ->
  exists a',
    cleanup_old_models W H max_age_days max_cache_size_mb a = Some (Ok tt, a')
    /\ model_cache a' = unexpired W H max_age_days (model_cache a).
Proof.
  intros Hwf Hfits. unfold cleanup_old_models.
  destruct (expired_removed max_age_days a Hwf) as (a1 & Hrun1 & _ & Hcache1).
  unfold bind at 1. rewrite Hrun1. rewrite cache_size_fold, Z.add_0_l, Hfits.
  unfold bind, ret.
  destruct (save_metadata_spec a1) as (r & a' & Hrun3 & -> & (C3 & _)).
  rewrite Hrun3. exists a'. split; [reflexivity |]. now rewrite C3.
Qed.

(** The second loop takes models from the front of [sorted_models]. *)
Lemma evict_lru (total_size_mb : Q) (max_cache_size_mb removed_size : Z)
  (sorted_models : list (string * ModelMetadata)) (a a' : Agent) :
  dict_wf (model_cache a) ->
  NoDup (map fst sorted_models) ->
  (forall id m, In (id, m) sorted_models ->
                dict_get id (model_cache a) = Some m) ->
  (forall id m, dict_get id (model_cache a) = Some m ->
                In (id, m) sorted_models) ->
  StronglySorted by_access sorted_models ->
  evict H total_size_mb max_cache_size_mb removed_size sorted_models a
  = Some (Ok tt, a') ->
  forall id m id' m',
    dict_get id (model_cache a') = Some m ->
    dict_get id' (model_cache a) = Some m' ->
    dict_get id' (model_cache a') = None ->
    (last_accessed m' <= last_accessed m)%Q.
Proof.
  revert a removed_size.
  induction sorted_models as [| [id0 m0] rest IH];
    intros a removed_size Hwf Hnodup Hsound Hcomplete Hsorted Hrun
           id m id' m' Hkeep Hwas Hgone.
  - inversion Hrun. subst a'. congruence.
  - cbn [evict] in Hrun.
    destruct (Qle_bool
                (float_sub H total_size_mb
                   (true_div H removed_size (1024 * 1024)))
                (inject_Z max_cache_size_mb)).
    { inversion Hrun. subst a'. congruence. }
    destruct (_remove_model_spec id0 a Hwf) as (a1 & Hrun1 & Hcache1 & Hkept1).
    unfold bind in Hrun. rewrite Hrun1 in Hrun.
    simpl in Hnodup. inversion Hnodup as [| ? ? Hhead Htail]. subst.
    inversion Hsorted as [| ? ? Hsorted' Hfirst]. subst.
    assert (Hsound1 : forall id1 m1, In (id1, m1) rest ->
                                     dict_get id1 (model_cache a1) = Some m1).
    { intros id1 m1 Hin. rewrite Hcache1.
      rewrite dict_get_del_other; [apply Hsound; now right |].
      intros Heq. apply Hhead. subst id1.
      change id0 with (fst (id0, m1)). now apply in_map. }
    assert (Hcomplete1 : forall id1 m1,
               dict_get id1 (model_cache a1) = Some m1 -> In (id1, m1) rest).
    { intros id1 m1 Hget. rewrite Hcache1 in Hget.
      destruct (String.eqb_spec id1 id0) as [-> | Hne].
      - rewrite (dict_get_del_same _ _ Hwf) in Hget. discriminate.
      - rewrite (dict_get_del_other _ _ _ Hne) in Hget.
        destruct (Hcomplete _ _ Hget) as [Heq | Hin]; [| exact Hin].
        inversion Heq. congruence. }
    destruct (evict_spec total_size_mb max_cache_size_mb
                (removed_size + file_size m0) rest a1 (proj1 Hkept1) Htail Hsound1)
      as (a2 & removed' & Hrun2 & Hkept2 & _).
    rewrite Hrun in Hrun2. inversion Hrun2. subst a2.
    assert (Hin : In (id, m) rest).
    { apply Hcomplete1. now apply (proj1 (proj2 Hkept2)). }
    destruct (String.eqb_spec id' id0) as [-> | Hne].
    + assert (m' = m0).
      { pose proof (Hsound id0 m0 (or_introl eq_refl)). congruence. }
      subst m'. rewrite Forall_forall in Hfirst. exact (Hfirst _ Hin).
    + apply (IH a1 (removed_size + file_size m0) (proj1 Hkept1) Htail
               Hsound1 Hcomplete1 Hsorted' Hrun id m id' m' Hkeep);
        [| exact Hgone].
      rewrite Hcache1. now rewrite (dict_get_del_other _ _ _ Hne).
Qed.

(** What [cleanup_old_models] removes for space. *)
Lemma cleanup_lru_spec (max_age_days max_cache_size_mb : Z) (a : Agent) :
  dict_wf (model_cache a) ->
  exists a',
    cleanup_old_models W H max_age_days max_cache_size_mb a = Some (Ok tt, a')
    /\ forall id m id' m',
         dict_get id (model_cache a') = Some m ->
         dict_get id' (model_cache a) = Some m' ->
         dict_get id' (model_cache a') = None ->
         expired W H max_age_days m' = false ->
         (last_accessed m' <= last_accessed m)%Q.
Proof.
  intros Hwf. unfold cleanup_old_models.
  destruct (expired_removed max_age_days a Hwf)
    as (a1 & Hrun1 & Hkept1 & Hcache1).
  unfold bind at 1. rewrite Hrun1. rewrite cache_size_fold, Z.add_0_l.
  set (total_size_mb := true_div H (cache_size (model_cache a)) (1024 * 1024)).
  assert (Hstays : forall id' m',
             dict_get id' (model_cache a) = Some m' ->
             expired W H max_age_days m' = false ->
             dict_get id' (model_cache a1) = Some m').
  { intros id' m' Hwas Hfresh. apply (dict_In_get _ _ _ (proj1 Hkept1)).
    rewrite Hcache1. unfold unexpired. apply filter_In.
    split; [now apply dict_get_In |]. simpl. now rewrite Hfresh. }
  unfold bind at 1, Co.
  destruct (Qlt_bool (inject_Z max_cache_size_mb) total_size_mb).
  - pose proof (sorted_by_access_perm (model_cache a1)) as Hperm.
    assert (Hnodup : NoDup (map fst (sorted_by_access (model_cache a1)))).
    { apply (Permutation_NoDup (l := map fst (model_cache a1)));
        [| exact (proj1 Hkept1)].
      apply Permutation_map. now symmetry. }
    assert (Hsound : forall id m, In (id, m) (sorted_by_access (model_cache a1)) ->
                                  dict_get id (model_cache a1) = Some m).
    { intros id m Hin. apply (dict_In_get _ _ _ (proj1 Hkept1)).
      exact (Permutation_in _ Hperm Hin). }
    destruct (evict_spec total_size_mb max_cache_size_mb 0
                (sorted_by_access (model_cache a1)) a1 (proj1 Hkept1)
                Hnodup Hsound)
      as (a2 & removed' & Hrun2 & Hkept2 & _).
    rewrite Hrun2.
    destruct (save_metadata_spec a2) as (r & a' & Hrun3 & -> & (C3 & _)).
    rewrite Hrun3. exists a'. split; [reflexivity |].
    intros id m id' m' Hkeep Hwas Hgone Hfresh. rewrite C3 in Hkeep, Hgone.
    apply (evict_lru total_size_mb max_cache_size_mb 0
             (sorted_by_access (model_cache a1)) a1 a2 (proj1 Hkept1)
             Hnodup Hsound) with (id := id) (id' := id'); auto.
    + intros id1 m1 Hget. apply (Permutation_in _ (Permutation_sym Hperm)).
      now apply dict_get_In.
    + apply sorted_by_access_sorted.
  - unfold ret.
    destruct (save_metadata_spec a1) as (r & a' & Hrun3 & -> & (C3 & _)).
    rewrite Hrun3. exists a'. split; [reflexivity |].
    intros id m id' m' Hkeep Hwas Hgone Hfresh. rewrite C3 in Hgone.
    rewrite (Hstays _ _ Hwas Hfresh) in Hgone. discriminate.
Qed.

End Housekeeping.

(** X26 ([AI3DModelAgent.cleanup_old_models], lines 879-919, with
    [_remove_model], lines 921-933).  [cleanup_old_models] returns
    normally and only takes entries out of the cache: what is left are
    entries of the cache before, unchanged, and none of them is older
    than [max_age_days] (by the age the routine computes, the current
    time minus [last_accessed]). *)
Theorem cleanup_leaves_no_expired_model
  (W : AI3DModelAgent.World) (H : AI3DModelAgent.Housekeeping)
  (max_age_days max_cache_size_mb : Z) (a : AI3DModelAgent.Agent) :
  dict_wf (AI3DModelAgent.model_cache a) ->
  exists a',
    AI3DModelAgent.cleanup_old_models W H max_age_days max_cache_size_mb a
    = Some (Ok tt, a')
    /\ dict_wf (AI3DModelAgent.model_cache a')
    /\ sub_cache (AI3DModelAgent.model_cache a') (AI3DModelAgent.model_cache a)
    /\ forall id m,
         dict_get id (AI3DModelAgent.model_cache a') = Some m ->
         AI3DModelAgent.expired W H max_age_days m = false.
Proof.
  intros Hwf.
  destruct (cleanup_old_models_spec W H max_age_days max_cache_size_mb a Hwf)
    as (a' & Hrun & (Hwf' & Hsub & _) & Hfresh & _).
  exists a'. now repeat split.
Qed.

Lemma cleanup_expired_witness :
  exists a',
    AI3DModelAgent.cleanup_old_models offline_world exact_housekeeping 30 1000
      stale_agent = Some (Ok tt, a')
    /\ AI3DModelAgent.model_cache a' = [].
Proof.
  destruct (cleanup_leaves_no_expired_model offline_world exact_housekeeping
              30 1000 stale_agent) as (a' & Hrun & _ & _ & _);
    [prove_dict_wf |].
  exists a'. split; [exact Hrun |].
  vm_compute in Hrun. inversion Hrun. reflexivity.
Defined.

(** X27 ([AI3DModelAgent.cleanup_old_models], lines 879-919).  After
    [cleanup_old_models] the sizes of the cached models add up to at
    most [max_cache_size_mb] megabytes, provided no model has a negative
    size, the limit is not negative, and the divisions by 1024 * 1024
    and the subtraction of the loop are exact (as they are in floating
    point for sizes below 2^53 bytes). *)
Theorem cleanup_bounds_cache_size
  (W : AI3DModelAgent.World) (H : AI3DModelAgent.Housekeeping)
  (max_age_days max_cache_size_mb : Z) (a : AI3DModelAgent.Agent) :
  dict_wf (AI3DModelAgent.model_cache a) ->
  (forall id m, In (id, m) (AI3DModelAgent.model_cache a) ->
                0 <= AI3DModelAgent.file_size m) ->
  0 <= max_cache_size_mb ->
  (forall n, (AI3DModelAgent.true_div H n (1024 * 1024)
              == inject_Z n / inject_Z (1024 * 1024))%Q) ->
  (forall x y, (AI3DModelAgent.float_sub H x y == x - y)%Q) ->
  exists a',
    AI3DModelAgent.cleanup_old_models W H max_age_days max_cache_size_mb a
    = Some (Ok tt, a')
    /\ cache_size (AI3DModelAgent.model_cache a')
       <= max_cache_size_mb * (1024 * 1024).
Proof.
  intros Hwf Hpos Hmax Hdiv Hsub.
  destruct (cleanup_old_models_spec W H max_age_days max_cache_size_mb a Hwf)
    as (a' & Hrun & _ & _ & Hbound).
  exists a'. split; [exact Hrun | now apply Hbound].
Qed.

Lemma cleanup_bounds_witness :
  exists a',
    AI3DModelAgent.cleanup_old_models offline_world exact_housekeeping 30 2
      crowded_agent = Some (Ok tt, a')
    /\ cache_size (AI3DModelAgent.model_cache a') <= 2 * (1024 * 1024).
Proof.
  apply (cleanup_bounds_cache_size offline_world exact_housekeeping 30 2
           crowded_agent).
  - prove_dict_wf.
  - simpl. intros id m [Heq | [Heq | [Heq | []]]]; inversion Heq; simpl; lia.
  - lia.
  - intros n. reflexivity.
  - intros x y. reflexivity.
Defined.

(** X28 ([AI3DModelAgent.cleanup_old_models], lines 879-919).  When the
    sizes of the cached models, the old ones included, are within
    [max_cache_size_mb], [cleanup_old_models] removes the models older
    than [max_age_days] and nothing else: the models that are left are
    the others, in their order. *)
Theorem cleanup_within_limit_removes_only_expired
  (W : AI3DModelAgent.World) (H : AI3DModelAgent.Housekeeping)
  (max_age_days max_cache_size_mb : Z) (a : AI3DModelAgent.Agent) :
  dict_wf (AI3DModelAgent.model_cache a) ->
  Qlt_bool (inject_Z max_cache_size_mb)
    (AI3DModelAgent.true_div H (cache_size (AI3DModelAgent.model_cache a))
       (1024 * 1024)) = false ->
  exists a',
    AI3DModelAgent.cleanup_old_models W H max_age_days max_cache_size_mb a
    = Some (Ok tt, a')
    /\ AI3DModelAgent.model_cache a'
       = unexpired W H max_age_days (AI3DModelAgent.model_cache a).
Proof. apply cleanup_within_limit_spec. Qed.

Lemma cleanup_within_limit_witness :
  exists a',
    AI3DModelAgent.cleanup_old_models offline_world exact_housekeeping 30 1000
      crowded_agent = Some (Ok tt, a')
    /\ AI3DModelAgent.model_cache a' = [("prop_lamp", lamp); ("prop_pot", pot)].
Proof.
  apply (cleanup_within_limit_removes_only_expired offline_world
           exact_housekeeping 30 1000 crowded_agent).
  - prove_dict_wf.
  - reflexivity.
Defined.

(** X29 ([AI3DModelAgent.cleanup_old_models], lines 901-917).  The
    models [cleanup_old_models] removes for space are the least recently
    used: a model that is not older than [max_age_days] and is removed
    was last accessed no later than any model that stays. *)
Theorem cleanup_evicts_least_recently_used
  (W : AI3DModelAgent.World) (H : AI3DModelAgent.Housekeeping)
  (max_age_days max_cache_size_mb : Z) (a : AI3DModelAgent.Agent) :
  dict_wf (AI3DModelAgent.model_cache a) ->
  exists a',
    AI3DModelAgent.cleanup_old_models W H max_age_days max_cache_size_mb a
    = Some (Ok tt, a')
    /\ forall id m id' m',
         dict_get id (AI3DModelAgent.model_cache a') = Some m ->
         dict_get id' (AI3DModelAgent.model_cache a) = Some m' ->
         dict_get id' (AI3DModelAgent.model_cache a') = None ->
         AI3DModelAgent.expired W H max_age_days m' = false ->
         (AI3DModelAgent.last_accessed m' <= AI3DModelAgent.last_accessed m)%Q.
Proof. apply cleanup_lru_spec. Qed.

Lemma cleanup_lru_witness :
  exists a',
    AI3DModelAgent.cleanup_old_models offline_world exact_housekeeping 30 2
      crowded_agent = Some (Ok tt, a')
    /\ dict_get "prop_lamp" (AI3DModelAgent.model_cache a') = Some lamp
    /\ dict_get "prop_pot" (AI3DModelAgent.model_cache a') = None
    /\ (AI3DModelAgent.last_accessed pot <= AI3DModelAgent.last_accessed lamp)%Q.
Proof.
  destruct (cleanup_evicts_least_recently_used offline_world exact_housekeeping
              30 2 crowded_agent) as (a' & Hrun & Hlru); [prove_dict_wf |].
  exists a'. split; [exact Hrun |].
  assert (Hcache : AI3DModelAgent.model_cache a' = [("prop_lamp", lamp)]).
  { vm_compute in Hrun. inversion Hrun. reflexivity. }
  assert (Hlamp : dict_get "prop_lamp" (AI3DModelAgent.model_cache a')
                  = Some lamp) by now rewrite Hcache.
  assert (Hpot : dict_get "prop_pot" (AI3DModelAgent.model_cache a') = None)
    by now rewrite Hcache.
  split; [exact Hlamp |]. split; [exact Hpot |].
  apply (Hlru "prop_lamp" lamp "prop_pot" pot Hlamp); [reflexivity | exact Hpot |].
  reflexivity.
Defined.

Lemma runs_conj {S A} (m : Co S A) (s : S) (P Q : result A -> S -> Prop) :
  runs m s P -> runs m s Q -> runs m s (fun r s' => P r s' /\ Q r s').
Proof.
  intros (r & s' & Hm & HP) (r' & s'' & Hm' & HQ).
  rewrite Hm in Hm'. inversion Hm'. subst. now exists r', s''.
Qed.

Lemma luma_returns_none :
  forall W request id a, exists a',
    AI3DModelAgent._generate_with_luma_ai W request id a = Some (Ok None, a').
Proof. unfold AI3DModelAgent._generate_with_luma_ai. generation_returns_none. Qed.

Lemma meshy_returns_none :
  forall W request id a, exists a',
    AI3DModelAgent._generate_with_meshy_ai W request id a = Some (Ok None, a').
Proof. unfold AI3DModelAgent._generate_with_meshy_ai. generation_returns_none. Qed.

Lemma kaedim_returns_none :
  forall W request id a, exists a',
    AI3DModelAgent._generate_with_kaedim W request id a = Some (Ok None, a').
Proof. unfold AI3DModelAgent._generate_with_kaedim. generation_returns_none. Qed.

Lemma scenario_returns_none :
  forall W request id a, exists a',
    AI3DModelAgent._generate_with_scenario_gg W request id a = Some (Ok None, a').
Proof.
  unfold AI3DModelAgent._generate_with_scenario_gg. generation_returns_none.
Qed.

Lemma hosted_services_return_none (W : AI3DModelAgent.World)
  (services : list string) (request : AI3DModelAgent.ModelRequest)
  (id : string) (a : AI3DModelAgent.Agent) :
  Forall (fun service =>
            In service ["luma_ai_genie"; "meshy_ai"; "kaedim"; "scenario_gg"])
    services ->
  exists a', AI3DModelAgent.try_services W services request id a
             = Some (Ok None, a').
Proof.
  intros Hhosted. revert a.
  induction Hhosted as [| service services Hin _ IH]; intros a; simpl.
  - now exists a.
  - assert (Hone : AI3DModelAgent.service_available W service = true
                   /\ exists a1,
                        AI3DModelAgent.generate_with W service request id a
                        = Some (Ok None, a1)).
    { simpl in Hin.
      destruct Hin as [<- | [<- | [<- | [<- | []]]]];
        (split; [reflexivity |]); unfold AI3DModelAgent.generate_with; simpl.
      - apply luma_returns_none.
      - apply meshy_returns_none.
      - apply kaedim_returns_none.
      - apply scenario_returns_none. }
    destruct Hone as (-> & a1 & Hrun). simpl.
    unfold bind, AI3DModelAgent.try_or, try_except. rewrite Hrun.
    apply IH.
Qed.

(** X25 ([AI3DModelAgent._try_ai_generation], lines 449-486, with
    [_get_preferred_services_for_content], lines 488-505).  For a request
    of one of the six content types that have a list of preferred
    services, AI generation never yields a model: every service on the
    list is one of the four hosted ones, each is tried and returns
    nothing, and [_try_ai_generation] returns [None] with the cache as it
    was. *)
Theorem preferred_services_never_generate
  (W : AI3DModelAgent.World) (request : AI3DModelAgent.ModelRequest)
  (id : string) (a : AI3DModelAgent.Agent) :
  In (AI3DModelAgent.content_type request) preferred_content_types ->
  exists a',
    AI3DModelAgent._try_ai_generation W request id a = Some (Ok None, a')
    /\ AI3DModelAgent.model_cache a' = AI3DModelAgent.model_cache a.
Proof.
  intros Htype.
  assert (Hhosted :
            Forall (fun service =>
                      In service
                        ["luma_ai_genie"; "meshy_ai"; "kaedim"; "scenario_gg"])
              (AI3DModelAgent._get_preferred_services_for_content
                 (AI3DModelAgent.content_type request))).
  { simpl in Htype.
    destruct Htype as [<- | [<- | [<- | [<- | [<- | [<- | []]]]]]];
      repeat (apply Forall_cons; [simpl; tauto |]); apply Forall_nil. }
  unfold AI3DModelAgent._try_ai_generation.
  destruct (hosted_services_return_none W _ request id a Hhosted) as (a' & Hrun).
  exists a'. split; [exact Hrun |].
  destruct (try_services_spec W
              (AI3DModelAgent._get_preferred_services_for_content
                 (AI3DModelAgent.content_type request)) request id a)
    as (r & a'' & Hrun' & (Hcache & _) & _).
  rewrite Hrun in Hrun'. inversion Hrun'. subst. exact Hcache.
Qed.

Lemma preferred_services_witness :
  exists a',
    AI3DModelAgent._try_ai_generation offline_world sword_request
      "weapon_97dec934" local_agent = Some (Ok None, a')
    /\ AI3DModelAgent.model_cache a' = AI3DModelAgent.model_cache local_agent.
Proof.
  apply (preferred_services_never_generate offline_world sword_request
           "weapon_97dec934" local_agent).
  simpl. tauto.
Defined.

(** C7, where the code falls short of it. The four hosted-service
    routines sleep and write their placeholder file, but the record they
    then build is refused: they pass [generation_metadata], which is no
    field of [ModelMetadata], the [TypeError] is swallowed by their own
    [except] and they return [None]. On the first request of the agent's
    test the Luma routine leaves the file behind and returns nothing. *)
Theorem hosted_generators_return_no_record :
  (forall W request id a, exists a',
      AI3DModelAgent._generate_with_luma_ai W request id a = Some (Ok None, a'))
  /\ (forall W request id a, exists a',
        AI3DModelAgent._generate_with_meshy_ai W request id a = Some (Ok None, a'))
  /\ (forall W request id a, exists a',
        AI3DModelAgent._generate_with_kaedim W request id a = Some (Ok None, a'))
  /\ (forall W request id a, exists a',
        AI3DModelAgent._generate_with_scenario_gg W request id a
        = Some (Ok None, a'))
  /\ exists a',
       AI3DModelAgent._generate_with_luma_ai offline_world sword_request
         "weapon_97dec934" local_agent = Some (Ok None, a')
       /\ AI3DModelAgent.trace a'
          = [ AI3DModelAgent.Slept (5 # 2);
              AI3DModelAgent.Wrote
                "game_data/3d_models/weapons/weapon_97dec934_luma.glb" ]
       /\ AI3DModelAgent.model_cache a' = [].
Proof.
  split; [unfold AI3DModelAgent._generate_with_luma_ai; generation_returns_none |].
  split; [unfold AI3DModelAgent._generate_with_meshy_ai; generation_returns_none |].
  split; [unfold AI3DModelAgent._generate_with_kaedim; generation_returns_none |].
  split; [unfold AI3DModelAgent._generate_with_scenario_gg;
          generation_returns_none |].
  eexists. split; [vm_compute; reflexivity |]. split; reflexivity.
Qed.

Lemma touch_file_path (t : Q) (m : AI3DModelAgent.ModelMetadata) :
  AI3DModelAgent.file_path (AI3DModelAgent.touch t m) = AI3DModelAgent.file_path m.
Proof. reflexivity. Qed.

(** A call that finds the id in the cache and the file in place returns
    the cached record with [last_accessed] refreshed and does nothing
    else. *)
Lemma get_or_create_model_hit (W : AI3DModelAgent.World)
  (request : AI3DModelAgent.ModelRequest) (a : AI3DModelAgent.Agent)
  (m : AI3DModelAgent.ModelMetadata) :
  let id := AI3DModelAgent.generate_model_id W
              (AI3DModelAgent.content_name request)
              (AI3DModelAgent.content_type request) in
  dict_get id (AI3DModelAgent.model_cache a) = Some m ->
  AI3DModelAgent.path_exists (AI3DModelAgent.file_path m) a = true ->
  AI3DModelAgent.get_or_create_model W request a
  = Some (Ok (Some (AI3DModelAgent.touch (AI3DModelAgent.now W) m)),
          AI3DModelAgent.set_model_cache
            (dict_set id (AI3DModelAgent.touch (AI3DModelAgent.now W) m)) a).
Proof.
  intros id Hget Hfile. unfold AI3DModelAgent.get_or_create_model.
  fold id. rewrite Hget, Hfile. reflexivity.
Qed.

(** C6, as the code has it. The id is a function of content type and
    name. A call to [get_or_create_model] ends; it leaves every cache
    entry in place whose id is another or whose file exists (its own
    entry with [last_accessed] refreshed), so it removes an entry only
    when the file is gone. A record it returns is in the cache under the
    id with its file in place, and a later call for the same name and
    type, at any time, returns that record (refreshed) without creating
    anything: the files and the trace stay as they are. *)
Theorem cached_model_is_reused_while_its_file_exists
  (W : AI3DModelAgent.World) (request : AI3DModelAgent.ModelRequest)
  (a : AI3DModelAgent.Agent) :
  let id := AI3DModelAgent.generate_model_id W
              (AI3DModelAgent.content_name request)
              (AI3DModelAgent.content_type request) in
  exists r a',
    AI3DModelAgent.get_or_create_model W request a = Some (r, a')
    /\ (forall k m0,
          dict_get k (AI3DModelAgent.model_cache a) = Some m0 ->
          k <> id \/ AI3DModelAgent.path_exists (AI3DModelAgent.file_path m0) a = true ->
          dict_get k (AI3DModelAgent.model_cache a')
          = Some (if String.eqb k id
                  then AI3DModelAgent.touch (AI3DModelAgent.now W) m0
                  else m0))
    /\ (forall m,
          r = Ok (Some m) ->
          dict_get id (AI3DModelAgent.model_cache a') = Some m
          /\ AI3DModelAgent.path_exists (AI3DModelAgent.file_path m) a' = true
          /\ forall (t : Q) (request' : AI3DModelAgent.ModelRequest),
               AI3DModelAgent.content_name request'
               = AI3DModelAgent.content_name request ->
               AI3DModelAgent.content_type request'
               = AI3DModelAgent.content_type request ->
               exists a'',
                 AI3DModelAgent.get_or_create_model
                   (AI3DModelAgent.with_now t W) request' a'
                 = Some (Ok (Some (AI3DModelAgent.touch t m)), a'')
                 /\ AI3DModelAgent.files a'' = AI3DModelAgent.files a'
                 /\ AI3DModelAgent.trace a'' = AI3DModelAgent.trace a'
                 /\ dict_get id (AI3DModelAgent.model_cache a'')
                    = Some (AI3DModelAgent.touch t m)).
Proof.
  intros id.
  assert (Hagain : forall a' m,
            dict_get id (AI3DModelAgent.model_cache a') = Some m ->
            AI3DModelAgent.path_exists (AI3DModelAgent.file_path m) a' = true ->
            forall (t : Q) (request' : AI3DModelAgent.ModelRequest),
              AI3DModelAgent.content_name request'
              = AI3DModelAgent.content_name request ->
              AI3DModelAgent.content_type request'
              = AI3DModelAgent.content_type request ->
              exists a'',
                AI3DModelAgent.get_or_create_model
                  (AI3DModelAgent.with_now t W) request' a'
                = Some (Ok (Some (AI3DModelAgent.touch t m)), a'')
                /\ AI3DModelAgent.files a'' = AI3DModelAgent.files a'
                /\ AI3DModelAgent.trace a'' = AI3DModelAgent.trace a'
                /\ dict_get id (AI3DModelAgent.model_cache a'')
                   = Some (AI3DModelAgent.touch t m)).
  { intros a' m Hget Hfile t request' Hname Htype.
    eexists. split.
    - apply get_or_create_model_hit; [| exact Hfile].
      unfold AI3DModelAgent.generate_model_id. simpl. rewrite Hname, Htype.
      exact Hget.
    - split; [reflexivity |]. split; [reflexivity |]. simpl.
      unfold AI3DModelAgent.generate_model_id. simpl. rewrite Hname, Htype.
      apply dict_get_set_same. }
  destruct (dict_get id (AI3DModelAgent.model_cache a)) as [m0 |] eqn:Hget0.
  - destruct (AI3DModelAgent.path_exists (AI3DModelAgent.file_path m0) a) eqn:Hfile0.
    + (* hit *)
      eexists _, _. split; [exact (get_or_create_model_hit W request a m0 Hget0 Hfile0) |].
      fold id. split.
      * intros k m1 Hk _. simpl.
        destruct (String.eqb_spec k id) as [-> | Hne].
        -- rewrite dict_get_set_same. congruence.
        -- now rewrite (dict_get_set_other _ _ _ _ Hne).
      * intros m Hm. inversion Hm. subst m.
        assert (Hc : dict_get id (AI3DModelAgent.model_cache
                       (AI3DModelAgent.set_model_cache
                          (dict_set id (AI3DModelAgent.touch (AI3DModelAgent.now W) m0)) a))
                     = Some (AI3DModelAgent.touch (AI3DModelAgent.now W) m0))
          by (simpl; apply dict_get_set_same).
        split; [exact Hc |]. split; [exact Hfile0 |].
        apply Hagain; [exact Hc | exact Hfile0].
    + (* the file is gone: the entry is removed and the model made anew *)
      destruct (create_model_spec W request id
                  (AI3DModelAgent.set_model_cache (dict_del id) a))
        as (r & a' & Hrun & _ & _ & Hr).
      exists r, a'. split.
      { unfold AI3DModelAgent.get_or_create_model. fold id.
        rewrite Hget0, Hfile0. exact Hrun. }
      split.
      * intros k m1 Hk [Hne | Hex].
        -- destruct (String.eqb_spec k id) as [-> | _]; [now elim Hne |].
           destruct r as [found | e].
           ++ destruct Hr as (m & _ & Hc & _). rewrite Hc. simpl.
              rewrite (dict_get_set_other _ _ _ _ Hne).
              now rewrite (dict_get_del_other _ _ _ Hne).
           ++ rewrite Hr. simpl. now rewrite (dict_get_del_other _ _ _ Hne).
        -- destruct (String.eqb_spec k id) as [-> | Hne].
           ++ rewrite Hget0 in Hk. inversion Hk. subst. congruence.
           ++ destruct r as [found | e].
              ** destruct Hr as (m & _ & Hc & _). rewrite Hc. simpl.
                 rewrite (dict_get_set_other _ _ _ _ Hne).
                 now rewrite (dict_get_del_other _ _ _ Hne).
              ** rewrite Hr. simpl. now rewrite (dict_get_del_other _ _ _ Hne).
      * intros m Hm. subst r. destruct Hr as (m' & Hm' & Hc & Hfile).
        inversion Hm'. subst m'.
        assert (Hc' : dict_get id (AI3DModelAgent.model_cache a') = Some m)
          by (rewrite Hc; apply dict_get_set_same).
        split; [exact Hc' |]. split; [exact Hfile |].
        apply Hagain; assumption.
  - (* nothing cached *)
    destruct (create_model_spec W request id a) as (r & a' & Hrun & _ & _ & Hr).
    exists r, a'. split.
    { unfold AI3DModelAgent.get_or_create_model. fold id.
      rewrite Hget0. exact Hrun. }
    split.
    + intros k m1 Hk _.
      destruct (String.eqb_spec k id) as [-> | Hne]; [congruence |].
      destruct r as [found | e].
      * destruct Hr as (m & _ & Hc & _). rewrite Hc.
        now rewrite (dict_get_set_other _ _ _ _ Hne).
      * now rewrite Hr.
    + intros m Hm. subst r. destruct Hr as (m' & Hm' & Hc & Hfile).
      inversion Hm'. subst m'.
      assert (Hc' : dict_get id (AI3DModelAgent.model_cache a') = Some m)
        by (rewrite Hc; apply dict_get_set_same).
      split; [exact Hc' |]. split; [exact Hfile |].
      apply Hagain; assumption.
Qed.

(** C6 as stated fails on a cached record whose file is gone: the call
    for the same name and type drops the entry, and either makes a new
    model (a placeholder takes the place of the downloaded record) or,
    when the model directory is missing too, raises and leaves the cache
    without the entry. *)
Lemma stale_entry_is_evicted :
  dict_get "weapon_97dec934" (AI3DModelAgent.model_cache stale_agent)
  = Some downloaded_sword
  /\ (exists m a',
        AI3DModelAgent.get_or_create_model offline_world sword_request stale_agent
        = Some (Ok (Some m), a')
        /\ AI3DModelAgent.source m = AI3DModelAgent.PLACEHOLDER
        /\ dict_get "weapon_97dec934" (AI3DModelAgent.model_cache a') = Some m
        /\ m <> AI3DModelAgent.touch (AI3DModelAgent.now offline_world)
                  downloaded_sword
        /\ In (AI3DModelAgent.Wrote
                 "game_data/3d_models/weapons/weapon_97dec934_placeholder.glb")
              (AI3DModelAgent.trace a'))
  /\ (exists e a',
        AI3DModelAgent.get_or_create_model offline_world sword_request
          stale_agent_without_directories = Some (Raise e, a')
        /\ AI3DModelAgent.model_cache a' = []).
Proof.
  split; [reflexivity |]. split.
  - eexists _, _. split; [vm_compute; reflexivity |].
    split; [reflexivity |]. split; [reflexivity |].
    split; [discriminate | simpl; tauto].
  - eexists _, _. split; [vm_compute; reflexivity | reflexivity].
Qed.

Lemma cached_model_reuse_witness :
  exists m a',
    AI3DModelAgent.get_or_create_model offline_world sword_request local_agent
    = Some (Ok (Some m), a')
    /\ AI3DModelAgent.source m = AI3DModelAgent.PLACEHOLDER
    /\ exists a'',
         AI3DModelAgent.get_or_create_model
           (AI3DModelAgent.with_now (1700000600 # 1) offline_world)
           sword_request a'
         = Some (Ok (Some (AI3DModelAgent.touch (1700000600 # 1) m)), a'')
         /\ AI3DModelAgent.trace a'' = AI3DModelAgent.trace a'.
Proof.
  destruct (cached_model_is_reused_while_its_file_exists offline_world
              sword_request local_agent) as (r & a' & Hrun & _ & Hreuse).
  vm_compute in Hrun. inversion Hrun as [[Hr Ha']]. clear Hrun.
  eexists _, a'. split; [subst a'; vm_compute; reflexivity |].
  split; [reflexivity |].
  destruct (Hreuse _ (eq_sym Hr)) as (_ & _ & Hagain).
  destruct (Hagain (1700000600 # 1) sword_request eq_refl eq_refl)
    as (a'' & Hrun2 & _ & Htrace & _).
  exists a''. split; [exact Hrun2 | exact Htrace].
Defined.
